(** * Community tool-lending tracker: assignment lifecycle and stock consistency

    A shallow embedding of the Python sources [nucleo_sistema.py],
    [modulo_implementos.py], [modulo_miembros.py], [modulo_asignaciones.py],
    [interfaz_asignaciones.py], [modulo_reportes.py], [MODULO_TEST.py] and
    [modulo_nuevo.py].

    Conventions of the embedding.
    - A Python class becomes a [Module]; its instances are values of the
      record [t] of that module; a method becomes a function of the module
      taking the receiver first.
    - Python [int] is [Z]; [str] is [string] (a sequence of 8-bit
      characters, so only the ASCII behaviour of [str.strip], [int] and
      [strptime] is modelled); [float] is a binary64 float.
    - An object held in a manager's list is identified with its position in
      that list: a lookup returns the position together with the object read
      there, and an attribute assignment on the object is an update of the
      list at that position.
    - A call that raises [ValueError] returns [None]; the interactive
      procedures report an uncaught [ValueError] as the outcome
      [ExcepcionValueError].
    - [int] and [str] are those of an interpreter without a limit on the
      digits of an integer text; a theorem on a number typed by the user
      bounds the digits of the typed line by the default limit, so that it
      holds with the limit on as well.
    - The lines typed by the user are arguments of the interactive
      procedures, in the order in which the successive [input] calls read
      them. *)

From Stdlib Require Import ZArith Ascii String Floats DecimalString DecimalPos.
From stdpp Require Import base option list gmap strings sorting.

Local Open Scope Z_scope.

#[local] Set Warnings "-clear-no-such-hyp".

(** ** Python built-ins used by the sources *)

Module Py.

(** ASCII part of [str.isspace]. *)
Definition es_espacio (c : ascii) : bool :=
  let n := nat_of_ascii c in
  ((9 <=? n) && (n <=? 13) || (28 <=? n) && (n <=? 32))%nat.

Definition es_digito (c : ascii) : bool :=
  let n := nat_of_ascii c in ((48 <=? n) && (n <=? 57))%nat.

Definition valor_digito (c : ascii) : Z := Z.of_nat (nat_of_ascii c) - 48.

Definition digito_entre (lo hi : Z) (c : ascii) : bool :=
  es_digito c && (lo <=? valor_digito c) && (valor_digito c <=? hi).

Fixpoint lstrip (s : string) : string :=
  match s with
  | String c r => if es_espacio c then lstrip r else s
  | EmptyString => EmptyString
  end.

(** [rstrip]: a character is kept when it is not a space or when
    something is kept after it. *)
Fixpoint rstrip (s : string) : string :=
  match s with
  | String c r =>
      match rstrip r with
      | EmptyString => if es_espacio c then EmptyString else String c EmptyString
      | r' => String c r'
      end
  | EmptyString => EmptyString
  end.

(** [s.strip()] *)
Definition strip (s : string) : string := rstrip (lstrip s).

(** [s.split(sep)] for a one-character separator: never an empty list. *)
Fixpoint split (sep : ascii) (s : string) : list string :=
  match s with
  | EmptyString => [EmptyString]
  | String c r =>
      if Ascii.eqb c sep then EmptyString :: split sep r
      else match split sep r with
           | p :: ps => String c p :: ps
           | [] => [String c EmptyString]
           end
  end.

(** Digits of a base-10 literal, single underscores allowed between
    digits; [acc] is the value read so far and [tras_digito] tells whether
    the previous character was a digit. *)
Fixpoint digitos (s : string) (acc : Z) (tras_digito : bool) : option Z :=
  match s with
  | EmptyString => if tras_digito then Some acc else None
  | String c r =>
      if es_digito c then digitos r (10 * acc + valor_digito c) true
      else if Ascii.eqb c "_" then
             (if tras_digito then digitos r acc false else None)
      else None
  end.

(** The blanks that [int] skips around a literal: tab, line feed, vertical
    tab, form feed, carriage return and space. The four separators that
    [str.strip] also removes (characters 28 to 31) are no blanks here. *)
Definition es_blanco_int (c : ascii) : bool :=
  let n := nat_of_ascii c in
  ((9 <=? n) && (n <=? 13) || (n =? 32))%nat.

(** The blanks in front of a literal. *)
Fixpoint saltar_blancos (s : string) : string :=
  match s with
  | String c r => if es_blanco_int c then saltar_blancos r else s
  | EmptyString => EmptyString
  end.

(** The blanks behind a literal. *)
Fixpoint quitar_blancos_finales (s : string) : string :=
  match s with
  | String c r =>
      match quitar_blancos_finales r with
      | EmptyString =>
          if es_blanco_int c then EmptyString else String c EmptyString
      | r' => String c r'
      end
  | EmptyString => EmptyString
  end.

(** [int(s)] for a string: blanks, an optional sign, digits, blanks.
    [None] is [ValueError].

    The limit of the interpreter on the digits of an integer text
    ([sys.set_int_max_str_digits]: 4300 by default from Python 3.11 on,
    none before) is a setting of the interpreter and no part of [int] and
    [str] here. With the limit on, [int] raises [ValueError] also for a
    text of more digits; so a theorem that concludes from [int s = Some z]
    what the program does with a typed text takes
    [cifras s <= int_max_str_digits] as well. *)
Definition int (s : string) : option Z :=
  match quitar_blancos_finales (saltar_blancos s) with
  | String "-" r => Z.opp <$> digitos r 0 false
  | String "+" r => digitos r 0 false
  | r => digitos r 0 false
  end.

(** The number of digits of a text. *)
Fixpoint cifras (s : string) : nat :=
  match s with
  | EmptyString => 0%nat
  | String c r => if es_digito c then S (cifras r) else cifras r
  end.


(** [str(z)], as an f-string formats an [int]. *)
Definition str (z : Z) : string := NilZero.string_of_int (Z.to_int z).

(** [sep.join(l)] *)
Fixpoint join (sep : string) (l : list string) : string :=
  match l with
  | [] => EmptyString
  | [x] => x
  | x :: r => x +:+ sep +:+ join sep r
  end.

(** [c in s] for a character [c]. *)
Fixpoint contiene (c : ascii) (s : string) : bool :=
  match s with
  | EmptyString => false
  | String d r => Ascii.eqb d c || contiene c r
  end.

(** ASCII part of [str.lower]. *)
Definition lower_car (c : ascii) : ascii :=
  let n := nat_of_ascii c in
  if ((65 <=? n) && (n <=? 90))%nat then ascii_of_nat (n + 32) else c.

Fixpoint lower (s : string) : string :=
  match s with
  | EmptyString => EmptyString
  | String c r => String (lower_car c) (lower r)
  end.

(** [s.count(c)] for a character [c]. *)
Fixpoint count (c : ascii) (s : string) : nat :=
  match s with
  | EmptyString => 0%nat
  | String d r => if Ascii.eqb d c then S (count c r) else count c r
  end.

(** Line feed and carriage return. *)
Definition LF : ascii := "010".
Definition CR : ascii := "013".

End Py.

(** ** Text files

    A text file is the string of its characters. Iterating over a file
    opened for reading yields its lines, each with its line end, where a
    line ends at a line feed, at a carriage return or at a carriage return
    followed by a line feed, all three read as one line feed. *)
Module Archivo.

Fixpoint lineas (s : string) : list string :=
  match s with
  | EmptyString => []
  | String c r =>
      if Ascii.eqb c Py.LF then String Py.LF EmptyString :: lineas r
      else if Ascii.eqb c Py.CR then
        String Py.LF EmptyString
        :: match r with
           | String c' r' => if Ascii.eqb c' Py.LF then lineas r' else lineas r
           | EmptyString => []
           end
      else match lineas r with
           | l :: ls => String c l :: ls
           | [] => [String c EmptyString]
           end
  end.

End Archivo.

(** A value held in the dictionary of a record: a string or an integer. *)
Inductive Valor : Type :=
| VStr (s : string)
| VInt (z : Z).

(** [str(v)] *)
Definition str_de (v : Valor) : string :=
  match v with
  | VStr s => s
  | VInt z => Py.str z
  end.

(** ** [nucleo_sistema]: dates *)

(** A calendar date, as [datetime.date] holds it. *)
Record Fecha : Type := MkFecha { anio : Z; mes : Z; dia : Z }.

(** Order of [datetime.date]: year, then month, then day. *)
Definition fecha_menor (f1 f2 : Fecha) : bool :=
  (anio f1 <? anio f2)
  || ((anio f1 =? anio f2)
      && ((mes f1 <? mes f2) || ((mes f1 =? mes f2) && (dia f1 <? dia f2)))).

(** [f1 < f2] on dates, as a proposition. *)
Definition fecha_anterior (f1 f2 : Fecha) : Prop :=
  anio f1 < anio f2
  ∨ (anio f1 = anio f2
     ∧ (mes f1 < mes f2 ∨ (mes f1 = mes f2 ∧ dia f1 < dia f2))).

Module Strptime.

Definition es_bisiesto (y : Z) : bool :=
  (y mod 4 =? 0) && (negb (y mod 100 =? 0) || (y mod 400 =? 0)).

Definition dias_del_mes (y m : Z) : Z :=
  if m =? 2 then (if es_bisiesto y then 29 else 28)
  else if (m =? 4) || (m =? 6) || (m =? 9) || (m =? 11) then 30
  else 31.

(** [%Y] is the group [\d\d\d\d]. *)
Definition grupo_Y (s : string) : option (Z * string) :=
  match s with
  | String a (String b (String c (String d r))) =>
      if Py.es_digito a && Py.es_digito b && Py.es_digito c && Py.es_digito d
      then Some (1000 * Py.valor_digito a + 100 * Py.valor_digito b
                 + 10 * Py.valor_digito c + Py.valor_digito d, r)
      else None
  | _ => None
  end.

(** One alternative of a group made of two characters. *)
Definition dos (p1 p2 : ascii -> bool) (v : ascii -> ascii -> Z) (s : string)
  : list (Z * string) :=
  match s with
  | String a (String b r) => if p1 a && p2 b then [(v a b, r)] else []
  | _ => []
  end.

(** One alternative of a group made of one character. *)
Definition uno (p : ascii -> bool) (s : string) : list (Z * string) :=
  match s with
  | String a r => if p a then [(Py.valor_digito a, r)] else []
  | _ => []
  end.

Definition decimal (a b : ascii) : Z := 10 * Py.valor_digito a + Py.valor_digito b.

(** [%m] is [1[0-2]|0[1-9]|[1-9]]: the ways to match it at the start of
    [s], in the order the regular expression engine tries them. *)
Definition grupo_m (s : string) : list (Z * string) :=
  dos (Ascii.eqb "1") (Py.digito_entre 0 2) decimal s
  ++ dos (Ascii.eqb "0") (Py.digito_entre 1 9) decimal s
  ++ uno (Py.digito_entre 1 9) s.

(** [%d] is [3[0-1]|[1-2]\d|0[1-9]|[1-9]| [1-9]]. *)
Definition grupo_d (s : string) : list (Z * string) :=
  dos (Ascii.eqb "3") (Py.digito_entre 0 1) decimal s
  ++ dos (Py.digito_entre 1 2) Py.es_digito decimal s
  ++ dos (Ascii.eqb "0") (Py.digito_entre 1 9) decimal s
  ++ uno (Py.digito_entre 1 9) s
  ++ dos (Ascii.eqb " ") (Py.digito_entre 1 9) (fun _ b => Py.valor_digito b) s.

Definition guion (s : string) : option string :=
  match s with
  | String "-" r => Some r
  | _ => None
  end.

(** The first successful way to match [-%d] after one way of matching
    [%m]; the result carries what is left of the input. *)
Definition tras_mes (y : Z) (alt : Z * string) : option (Z * Z * Z * string) :=
  r ← guion alt.2;
  match grupo_d r with
  | (d, resto) :: _ => Some (y, alt.1, d, resto)
  | [] => None
  end.

Fixpoint primero {A B} (f : A -> option B) (l : list A) : option B :=
  match l with
  | [] => None
  | x :: l' => match f x with Some b => Some b | None => primero f l' end
  end.

(** [re.match] of the pattern of ["%Y-%m-%d"]. *)
Definition coincidir (s : string) : option (Z * Z * Z * string) :=
  '(y, r1) ← grupo_Y s;
  r2 ← guion r1;
  primero (tras_mes y) (grupo_m r2).

(** [datetime.strptime(s, "%Y-%m-%d").date()]; [None] is [ValueError]:
    no match, unconverted data left, year 0, or a day the month lacks. *)
Definition strptime (s : string) : option Fecha :=
  '(y, m, d, resto) ← coincidir s;
  match resto with
  | EmptyString =>
      if (1 <=? y) && (d <=? dias_del_mes y m) then Some (MkFecha y m d)
      else None
  | _ => None
  end.

(** The character of a decimal digit. *)
Definition digito (n : Z) : ascii := ascii_of_nat (Z.to_nat (48 + n)).

(** [%m] and [%d] of [strftime]: two digits. *)
Definition dos_digitos (n : Z) : string :=
  String (digito (n / 10)) (String (digito (n mod 10)) EmptyString).

(** [%Y] of [strftime] for a year of four digits. *)
Definition cuatro_digitos (y : Z) : string :=
  String (digito (y / 1000))
    (String (digito (y / 100 mod 10))
       (String (digito (y / 10 mod 10))
          (String (digito (y mod 10)) EmptyString))).

(** [d.strftime("%Y-%m-%d")] for a date from the year 1000 on. *)
Definition strftime (f : Fecha) : string :=
  cuatro_digitos (anio f) +:+ "-" +:+ dos_digitos (mes f)
  +:+ "-" +:+ dos_digitos (dia f).

End Strptime.

(** Day numbers of [datetime.date]. *)
Module Date.

(** [_days_before_year]: the days before January 1st of the year. *)
Definition _days_before_year (year : Z) : Z :=
  let y := year - 1 in
  y * 365 + y / 4 - y / 100 + y / 400.

Definition _DAYS_BEFORE_MONTH : list Z :=
  [-1; 0; 31; 59; 90; 120; 151; 181; 212; 243; 273; 304; 334].

(** [_days_before_month]: the days of the year before the first day of
    the month. *)
Definition _days_before_month (year month : Z) : Z :=
  nth (Z.to_nat month) _DAYS_BEFORE_MONTH 0
  + (if (2 <? month) && Strptime.es_bisiesto year then 1 else 0).

(** [d.toordinal()]: January 1st of the year 1 is day 1. *)
Definition toordinal (f : Fecha) : Z :=
  _days_before_year (anio f) + _days_before_month (anio f) (mes f) + dia f.

(** [(f1 - f2).days] *)
Definition dias_entre (f1 f2 : Fecha) : Z := toordinal f1 - toordinal f2.

End Date.

Module Utilidades.

Definition validar_fecha (texto_fecha : string) : bool :=
  match Strptime.strptime texto_fecha with
  | Some _ => true
  | None => false
  end.

(** [ahora] is the date of [datetime.now()]. *)
Definition obtener_fecha_actual (ahora : Fecha) : string :=
  Strptime.strftime ahora.

(** [None] when either [strptime] raises [ValueError]. *)
Definition comparar_fechas (fecha1 fecha2 : string) : option Z :=
  f1 ← Strptime.strptime fecha1;
  f2 ← Strptime.strptime fecha2;
  Some (if fecha_menor f1 f2 then -1
        else if fecha_menor f2 f1 then 1
        else 0).

End Utilidades.

(** ** [nucleo_sistema.RepositorioBase]: the flat text file *)
Module RepositorioBase.

(** The variable [linea] of the first block of [persistir_multiformato]. *)
Definition linea_txt (registro : gmap string Valor) (campos : list string) : string :=
  Py.join "," ((λ c, str_de (default (VStr EmptyString) (registro !! c))) <$> campos).

(** What [persistir_multiformato] writes to [ruta_txt]. *)
Fixpoint contenido_txt (datos : list (gmap string Valor)) (campos : list string)
  : string :=
  match datos with
  | [] => EmptyString
  | registro :: resto =>
      linea_txt registro campos +:+ String Py.LF EmptyString
      +:+ contenido_txt resto campos
  end.

End RepositorioBase.

(** ** [nucleo_sistema.RegistroActividad]: the activity log

    [registrar_accion] and [registrar_fallo] append one entry to the log
    files; the entries a procedure writes are returned in order. *)
Inductive Evento : Type :=
| Accion (descripcion : string)
| Fallo (descripcion : string).

(** ** [modulo_implementos] *)

Module Implemento.

Record t : Type := Mk {
  identificador : string;
  titulo : string;
  tipo : string;
  stock : Z;
  condicion : string;
  precio_estimado : float
}.

Definition ESTADOS_VALIDOS : list string :=
  ["disponible"; "prestado"; "dañado"; "mantenimiento"]%string.

(** [self.stock = n] *)
Definition con_stock (self : t) (n : Z) : t :=
  Mk (identificador self) (titulo self) (tipo self) n
     (condicion self) (precio_estimado self).

(** [self.condicion = c] *)
Definition con_condicion (self : t) (c : string) : t :=
  Mk (identificador self) (titulo self) (tipo self) (stock self)
     c (precio_estimado self).

(** The returned pair is the boolean result and the object afterwards. *)
Definition ajustar_stock (self : t) (cantidad : Z) : bool * t :=
  let nuevo_stock := stock self + cantidad in
  if nuevo_stock <? 0 then (false, self)
  else (true, con_stock self nuevo_stock).

Definition hay_disponibilidad (self : t) (cantidad_solicitada : Z) : bool :=
  (stock self >=? cantidad_solicitada)
  && String.eqb (condicion self) "disponible".

Definition marcar_condicion (self : t) (nueva_condicion : string) : t :=
  if decide (nueva_condicion ∈ ESTADOS_VALIDOS)
  then con_condicion self nueva_condicion
  else self.

End Implemento.

(** The [nuevos_datos] dictionary of [modificar_existente]: each key is
    present ([Some]) or absent ([None]). *)
Record NuevosDatos : Type := MkNuevosDatos {
  nd_titulo : option string;
  nd_tipo : option string;
  nd_stock : option Z;
  nd_condicion : option string;
  nd_precio_estimado : option float
}.

Module AdministradorImplementos.

Record t : Type := Mk {
  coleccion : list Implemento.t;
  ids_en_uso : gset string;
  categorias_registradas : gset string
}.

(** The position of the first item with that id, and the item. *)
Definition buscar_por_id (self : t) (identificador : string)
  : option (nat * Implemento.t) :=
  list_find (λ item, Implemento.identificador item = identificador)
            (coleccion self).

(** An attribute assignment on the object at position [n]. *)
Definition con_item (self : t) (n : nat) (item : Implemento.t) : t :=
  Mk (<[n := item]> (coleccion self)) (ids_en_uso self)
     (categorias_registradas self).

Definition agregar_nuevo (self : t) (implemento : Implemento.t)
  : bool * list Evento * t :=
  if decide (Implemento.identificador implemento ∈ ids_en_uso self) then
    (false,
     [Fallo ("ID duplicado al crear implemento: "
             +:+ Implemento.identificador implemento)],
     self)
  else
    (true,
     [Accion ("Implemento creado: " +:+ Implemento.titulo implemento
              +:+ " (ID: " +:+ Implemento.identificador implemento +:+ ")")],
     Mk (coleccion self ++ [implemento])
        ({[Implemento.identificador implemento]} ∪ ids_en_uso self)
        ({[Implemento.tipo implemento]} ∪ categorias_registradas self)).

Definition filtrar_stock_bajo (self : t) (limite : Z) : list Implemento.t :=
  filter (λ item, Implemento.stock item < limite) (coleccion self).

(** The five guarded assignments of [modificar_existente], in order. *)
Definition aplicar (implemento : Implemento.t) (nuevos_datos : NuevosDatos)
  : Implemento.t :=
  Implemento.Mk
    (Implemento.identificador implemento)
    (default (Implemento.titulo implemento) (nd_titulo nuevos_datos))
    (default (Implemento.tipo implemento) (nd_tipo nuevos_datos))
    (default (Implemento.stock implemento) (nd_stock nuevos_datos))
    (default (Implemento.condicion implemento) (nd_condicion nuevos_datos))
    (default (Implemento.precio_estimado implemento)
             (nd_precio_estimado nuevos_datos)).

Definition modificar_existente (self : t) (identificador : string)
    (nuevos_datos : NuevosDatos) : bool * list Evento * t :=
  match buscar_por_id self identificador with
  | None => (false, [], self)
  | Some (n, implemento) =>
      let implemento' := aplicar implemento nuevos_datos in
      (true,
       [Accion ("Implemento actualizado: " +:+ Implemento.titulo implemento'
                +:+ " (ID: " +:+ identificador +:+ ")")],
       Mk (<[n := implemento']> (coleccion self))
          (ids_en_uso self)
          (match nd_tipo nuevos_datos with
           | Some tipo => {[tipo]} ∪ categorias_registradas self
           | None => categorias_registradas self
           end))
  end.

Definition obtener_todos (self : t) : list Implemento.t := coleccion self.

(** [self.coleccion.remove(implemento)] takes out the object found, which
    sits at position [n]; [discard] takes the id out of the set. *)
Definition eliminar_del_sistema (self : t) (identificador : string)
  : bool * list Evento * t :=
  match buscar_por_id self identificador with
  | None => (false, [], self)
  | Some (n, implemento) =>
      (true,
       [Accion ("Implemento eliminado: " +:+ Implemento.titulo implemento
                +:+ " (ID: " +:+ identificador +:+ ")")],
       Mk (delete n (coleccion self))
          (ids_en_uso self ∖ {[identificador]})
          (categorias_registradas self))
  end.

End AdministradorImplementos.

(** Printed outcome of [InterfazImplementos.proceso_modificacion]. *)
Inductive MensajeImplementos : Type :=
| ImplNoEncontrado          (* "Implemento no encontrado" *)
| ImplActualizado           (* "Implemento actualizado correctamente" *)
| ImplErrorAlActualizar.    (* "Error al actualizar" *)

(** Printed outcome of the creation, deletion and damage procedures of
    [InterfazImplementos]. *)
Inductive MensajeInventario : Type :=
| CodigoYaEnUso             (* "Este código ya está en uso" *)
| CantidadNegativa          (* "La cantidad no puede ser negativa" *)
| CantidadNoValida          (* "Cantidad inválida" *)
| ValorNegativo             (* "El valor no puede ser negativo" *)
| ValorNoValido             (* "Valor inválido" *)
| ImplRegistrado            (* "Implemento registrado exitosamente" *)
| ImplNoRegistrado          (* "No se pudo registrar el implemento" *)
| ImplAusente               (* "Implemento no encontrado" *)
| ImplEliminado             (* "Implemento eliminado del sistema" *)
| ErrorAlEliminar           (* "Error al eliminar" *)
| OperacionCancelada        (* "Operación cancelada" *)
| ImplMarcadoDanado.        (* "'...' marcado como dañado" *)

Module InterfazImplementos.

(** Choice of the condition menu: [estados_map.get(opcion_estado)]. *)
Definition estados_map (opcion_estado : string) : option string :=
  if String.eqb opcion_estado "1" then Some "disponible"%string
  else if String.eqb opcion_estado "2" then Some "prestado"%string
  else if String.eqb opcion_estado "3" then Some "dañado"%string
  else if String.eqb opcion_estado "4" then Some "mantenimiento"%string
  else None.

Definition no_vacio (s : string) : option string :=
  match s with
  | EmptyString => None
  | _ => Some s
  end.

(** The lines read are, in order: the id, the new name, the new category,
    the new stock and the condition choice. [nuevo_valor] is what the
    block reading the new value leaves in the variable of that name: the
    float read, or [None] for an empty or malformed line. *)
Definition proceso_modificacion (admin : AdministradorImplementos.t)
    (e_id e_nombre e_categoria e_stock e_estado : string)
    (nuevo_valor : option float)
  : MensajeImplementos * list Evento * AdministradorImplementos.t :=
  let id_modificar := Py.strip e_id in
  match AdministradorImplementos.buscar_por_id admin id_modificar with
  | None => (ImplNoEncontrado, [], admin)
  | Some _ =>
      let nuevo_nombre := Py.strip e_nombre in
      let nueva_categoria := Py.strip e_categoria in
      let nuevo_stock_str := Py.strip e_stock in
      let nuevo_stock :=
        match nuevo_stock_str with
        | EmptyString => None
        | _ => Py.int nuevo_stock_str
        end in
      let nuevo_estado := estados_map (Py.strip e_estado) in
      let datos_actualizados :=
        MkNuevosDatos (no_vacio nuevo_nombre) (no_vacio nueva_categoria)
                      nuevo_stock nuevo_estado nuevo_valor in
      match AdministradorImplementos.modificar_existente
              admin id_modificar datos_actualizados with
      | (true, ev, admin') => (ImplActualizado, ev, admin')
      | (false, ev, admin') => (ImplErrorAlActualizar, ev, admin')
      end
  end.

(** The lines read are, in order: the id, the name, the category, the
    initial quantity and the condition choice. [valor] is what
    [float(input(...))] gives for the last line: the float read, or [None]
    when it raises [ValueError]. *)
Definition proceso_creacion (admin : AdministradorImplementos.t)
    (e_id e_nombre e_categoria e_cantidad e_estado : string)
    (valor : option float)
  : MensajeInventario * list Evento * AdministradorImplementos.t :=
  let id_impl := Py.strip e_id in
  if decide (id_impl ∈ AdministradorImplementos.ids_en_uso admin) then
    (CodigoYaEnUso,
     [Fallo ("Intento de crear implemento con ID duplicado: " +:+ id_impl)],
     admin)
  else
  let nombre := Py.strip e_nombre in
  let categoria := Py.strip e_categoria in
  match Py.int e_cantidad with
  | None => (CantidadNoValida, [], admin)
  | Some cantidad =>
  if cantidad <? 0 then (CantidadNegativa, [], admin)
  else
  let estado := default "disponible"%string (estados_map (Py.strip e_estado)) in
  match valor with
  | None => (ValorNoValido, [], admin)
  | Some valor =>
  if PrimFloat.ltb valor 0 then (ValorNegativo, [], admin)
  else
  let implemento :=
    Implemento.Mk id_impl nombre categoria cantidad estado valor in
  match AdministradorImplementos.agregar_nuevo admin implemento with
  | (true, ev, admin') => (ImplRegistrado, ev, admin')
  | (false, ev, admin') => (ImplNoRegistrado, ev, admin')
  end
  end
  end.

(** The lines read are the id and the answer to the confirmation. *)
Definition proceso_eliminacion (admin : AdministradorImplementos.t)
    (e_id e_confirmacion : string)
  : MensajeInventario * list Evento * AdministradorImplementos.t :=
  let id_eliminar := Py.strip e_id in
  match AdministradorImplementos.buscar_por_id admin id_eliminar with
  | None => (ImplAusente, [], admin)
  | Some _ =>
      let confirmacion := Py.strip (Py.lower e_confirmacion) in
      if String.eqb confirmacion "s" then
        match AdministradorImplementos.eliminar_del_sistema admin id_eliminar with
        | (true, ev, admin') => (ImplEliminado, ev, admin')
        | (false, ev, admin') => (ErrorAlEliminar, ev, admin')
        end
      else (OperacionCancelada, [], admin)
  end.

Definition proceso_marcar_danado (admin : AdministradorImplementos.t)
    (e_id : string)
  : MensajeInventario * list Evento * AdministradorImplementos.t :=
  let id_impl := Py.strip e_id in
  match AdministradorImplementos.buscar_por_id admin id_impl with
  | None => (ImplAusente, [], admin)
  | Some (n, implemento) =>
      let implemento' := Implemento.marcar_condicion implemento "dañado" in
      (ImplMarcadoDanado,
       [Accion ("Implemento marcado como dañado: "
                +:+ Implemento.titulo implemento'
                +:+ " (ID: " +:+ id_impl +:+ ")")],
       AdministradorImplementos.con_item admin n implemento')
  end.

End InterfazImplementos.

(** ** [modulo_miembros] *)

Module Miembro.

Record t : Type := Mk {
  identificador : string;
  nombres : string;
  apellidos : string;
  telefono : string;
  ubicacion : string;
  rol : string
}.

Definition nombre_completo (self : t) : string :=
  nombres self +:+ " " +:+ apellidos self.

Definition ROLES_VALIDOS : list string :=
  ["residente"; "administrador"]%string.

Definition a_diccionario (self : t) : gmap string Valor :=
  list_to_map
    [("id", VStr (identificador self));
     ("nombres", VStr (nombres self));
     ("apellidos", VStr (apellidos self));
     ("telefono", VStr (telefono self));
     ("ubicacion", VStr (ubicacion self));
     ("rol", VStr (rol self))]%string.

Definition es_admin (self : t) : bool :=
  String.eqb (rol self) "administrador".

End Miembro.

(** The [nuevos_datos] dictionary of [actualizar_info]: each key is
    present ([Some]) or absent ([None]). *)
Record NuevosDatosMiembro : Type := MkNuevosDatosMiembro {
  ndm_nombres : option string;
  ndm_apellidos : option string;
  ndm_telefono : option string;
  ndm_ubicacion : option string;
  ndm_rol : option string
}.

Module ControladorMiembros.

Record t : Type := Mk {
  registro : list Miembro.t;
  codigos_usados : gset string
}.

Definition localizar (self : t) (identificador : string)
  : option (nat * Miembro.t) :=
  list_find (λ persona, Miembro.identificador persona = identificador)
            (registro self).

Definition vacio : t := Mk [] ∅.

(** Body of the loop of [_recuperar_datos] for one line of the file. *)
Definition cargar_linea (self : t) (linea : string) : t :=
  match Py.split "," (Py.strip linea) with
  | [c0; c1; c2; c3; c4; c5] =>
      Mk (registro self ++ [Miembro.Mk c0 c1 c2 c3 c4 c5])
         ({[c0]} ∪ codigos_usados self)
  | _ => self
  end.

(** [_recuperar_datos] on a new controller; [lineas] are the lines of the
    file. *)
Definition _recuperar_datos (lineas : list string) : t :=
  foldl cargar_linea vacio lineas.

Definition inscribir (self : t) (miembro : Miembro.t)
  : bool * list Evento * t :=
  if decide (Miembro.identificador miembro ∈ codigos_usados self) then
    (false,
     [Fallo ("Código duplicado al registrar miembro: "
             +:+ Miembro.identificador miembro)],
     self)
  else
    (true,
     [Accion ("Miembro registrado: " +:+ Miembro.nombre_completo miembro
              +:+ " (ID: " +:+ Miembro.identificador miembro +:+ ")")],
     Mk (registro self ++ [miembro])
        ({[Miembro.identificador miembro]} ∪ codigos_usados self)).

Definition listar_todos (self : t) : list Miembro.t := registro self.

(** The five guarded assignments of [actualizar_info], in order. *)
Definition aplicar (miembro : Miembro.t) (nuevos_datos : NuevosDatosMiembro)
  : Miembro.t :=
  Miembro.Mk
    (Miembro.identificador miembro)
    (default (Miembro.nombres miembro) (ndm_nombres nuevos_datos))
    (default (Miembro.apellidos miembro) (ndm_apellidos nuevos_datos))
    (default (Miembro.telefono miembro) (ndm_telefono nuevos_datos))
    (default (Miembro.ubicacion miembro) (ndm_ubicacion nuevos_datos))
    (match ndm_rol nuevos_datos with
     | Some r => if decide (r ∈ Miembro.ROLES_VALIDOS) then r
                 else Miembro.rol miembro
     | None => Miembro.rol miembro
     end).

Definition actualizar_info (self : t) (identificador : string)
    (nuevos_datos : NuevosDatosMiembro) : bool * list Evento * t :=
  match localizar self identificador with
  | None => (false, [], self)
  | Some (n, miembro) =>
      let miembro' := aplicar miembro nuevos_datos in
      (true,
       [Accion ("Miembro actualizado: " +:+ Miembro.nombre_completo miembro'
                +:+ " (ID: " +:+ identificador +:+ ")")],
       Mk (<[n := miembro']> (registro self)) (codigos_usados self))
  end.

(** [self.registro.remove(miembro)] takes out the object found, which sits
    at position [n]. *)
Definition dar_de_baja (self : t) (identificador : string)
  : bool * list Evento * t :=
  match localizar self identificador with
  | None => (false, [], self)
  | Some (n, miembro) =>
      (true,
       [Accion ("Miembro dado de baja: " +:+ Miembro.nombre_completo miembro
                +:+ " (ID: " +:+ identificador +:+ ")")],
       Mk (delete n (registro self)) (codigos_usados self ∖ {[identificador]}))
  end.

Definition campos : list string :=
  ["id"; "nombres"; "apellidos"; "telefono"; "ubicacion"; "rol"]%string.

(** The text [guardar_datos] leaves in the flat file. *)
Definition guardar_datos (self : t) : string :=
  RepositorioBase.contenido_txt (Miembro.a_diccionario <$> registro self) campos.

End ControladorMiembros.

(** Printed outcome of a procedure of [PantallasMiembros]. *)
Inductive MensajeMiembros : Type :=
| CodigoYaRegistrado        (* "Este código ya está registrado" *)
| MiembroInscrito           (* "Miembro inscrito exitosamente" *)
| RegistroNoCompletado      (* "No se pudo completar el registro" *)
| MiembroAusente            (* "Miembro no encontrado" *)
| InformacionActualizada    (* "Información actualizada" *)
| ErrorAlActualizarMiembro  (* "Error al actualizar" *)
| MiembroDadoDeBaja         (* "Miembro dado de baja" *)
| ErrorEnBaja               (* "Error" *)
| BajaCancelada.            (* "Operación cancelada" *)

Module PantallasMiembros.

(** The lines read are, in order: the code, the names, the surnames, the
    telephone, the address and the choice of the kind of member. *)
Definition flujo_inscripcion (ctrl : ControladorMiembros.t)
    (e_codigo e_nombres e_apellidos e_telefono e_direccion e_tipo : string)
  : MensajeMiembros * list Evento * ControladorMiembros.t :=
  let codigo := Py.strip e_codigo in
  if decide (codigo ∈ ControladorMiembros.codigos_usados ctrl) then
    (CodigoYaRegistrado,
     [Fallo ("Intento de registro con código duplicado: " +:+ codigo)],
     ctrl)
  else
  let nombres := Py.strip e_nombres in
  let apellidos := Py.strip e_apellidos in
  let telefono := Py.strip e_telefono in
  let direccion := Py.strip e_direccion in
  let tipo_opcion := Py.strip e_tipo in
  let rol := if String.eqb tipo_opcion "1" then "residente"%string
             else "administrador"%string in
  let miembro := Miembro.Mk codigo nombres apellidos telefono direccion rol in
  match ControladorMiembros.inscribir ctrl miembro with
  | (true, ev, ctrl') => (MiembroInscrito, ev, ctrl')
  | (false, ev, ctrl') => (RegistroNoCompletado, ev, ctrl')
  end.

Definition flujo_actualizacion (ctrl : ControladorMiembros.t)
    (e_codigo e_nombres e_apellidos e_telefono e_direccion e_tipo : string)
  : MensajeMiembros * list Evento * ControladorMiembros.t :=
  let codigo := Py.strip e_codigo in
  match ControladorMiembros.localizar ctrl codigo with
  | None => (MiembroAusente, [], ctrl)
  | Some _ =>
      let nuevos_nombres := Py.strip e_nombres in
      let nuevos_apellidos := Py.strip e_apellidos in
      let nuevo_telefono := Py.strip e_telefono in
      let nueva_direccion := Py.strip e_direccion in
      let tipo_opcion := Py.strip e_tipo in
      let nuevo_rol := if String.eqb tipo_opcion "1" then "residente"%string
                       else "administrador"%string in
      let datos :=
        MkNuevosDatosMiembro (Some nuevos_nombres) (Some nuevos_apellidos)
                             (Some nuevo_telefono) (Some nueva_direccion)
                             (Some nuevo_rol) in
      match ControladorMiembros.actualizar_info ctrl codigo datos with
      | (true, ev, ctrl') => (InformacionActualizada, ev, ctrl')
      | (false, ev, ctrl') => (ErrorAlActualizarMiembro, ev, ctrl')
      end
  end.

(** The lines read are the code and the answer to the confirmation. *)
Definition flujo_baja (ctrl : ControladorMiembros.t)
    (e_codigo e_confirmacion : string)
  : MensajeMiembros * list Evento * ControladorMiembros.t :=
  let codigo := Py.strip e_codigo in
  match ControladorMiembros.localizar ctrl codigo with
  | None => (MiembroAusente, [], ctrl)
  | Some _ =>
      let confirmacion := Py.strip (Py.lower e_confirmacion) in
      if String.eqb confirmacion "s" then
        match ControladorMiembros.dar_de_baja ctrl codigo with
        | (true, ev, ctrl') => (MiembroDadoDeBaja, ev, ctrl')
        | (false, ev, ctrl') => (ErrorEnBaja, ev, ctrl')
        end
      else (BajaCancelada, [], ctrl)
  end.

End PantallasMiembros.

(** ** [modulo_asignaciones] *)

Module Asignacion.

Record t : Type := Mk {
  identificador : string;
  codigo_miembro : string;
  codigo_implemento : string;
  unidades : Z;
  fecha_salida : string;
  fecha_retorno : string;
  estado : string
}.

Definition ESTADOS : list string :=
  ["activo"; "devuelto"; "vencido"; "cancelado"]%string.

(** [self.estado = e] *)
Definition con_estado (self : t) (e : string) : t :=
  Mk (identificador self) (codigo_miembro self) (codigo_implemento self)
     (unidades self) (fecha_salida self) (fecha_retorno self) e.

(** [self.fecha_retorno = f] *)
Definition con_fecha_retorno (self : t) (f : string) : t :=
  Mk (identificador self) (codigo_miembro self) (codigo_implemento self)
     (unidades self) (fecha_salida self) f (estado self).

Definition a_diccionario (self : t) : gmap string Valor :=
  list_to_map
    [("id", VStr (identificador self));
     ("codigo_miembro", VStr (codigo_miembro self));
     ("codigo_implemento", VStr (codigo_implemento self));
     ("unidades", VInt (unidades self));
     ("fecha_salida", VStr (fecha_salida self));
     ("fecha_retorno", VStr (fecha_retorno self));
     ("estado", VStr (estado self))]%string.

(** [hoy] is the string [Utilidades.obtener_fecha_actual()] returns when
    the method runs. [None]: [comparar_fechas] raised [ValueError]. *)
Definition esta_vencido (hoy : string) (self : t) : option bool :=
  if negb (String.eqb (estado self) "activo") then Some false
  else
    c ← Utilidades.comparar_fechas hoy (fecha_retorno self);
    Some (c >? 0).

End Asignacion.

Module GestorAsignaciones.

Record t : Type := Mk {
  lista : list Asignacion.t;
  ids_usados : gset string
}.

Definition vacio : t := Mk [] ∅.

(** Body of the loop of [_cargar] for one line of the file. *)
Definition cargar_linea (self : t) (linea : string) : t :=
  match Py.split "," (Py.strip linea) with
  | [p0; p1; p2; p3; p4; p5; p6] =>
      match Py.int p3 with
      | Some n =>
          Mk (lista self ++ [Asignacion.Mk p0 p1 p2 n p4 p5 p6])
             ({[p0]} ∪ ids_usados self)
      | None => self
      end
  | _ => self
  end.

(** [_cargar] on a new manager; [lineas] are the lines of the file. *)
Definition _cargar (lineas : list string) : t :=
  foldl cargar_linea vacio lineas.

Definition crear (self : t) (asignacion : Asignacion.t)
  : bool * list Evento * t :=
  if decide (Asignacion.identificador asignacion ∈ ids_usados self) then
    (false, [], self)
  else
    (true,
     [Accion ("Asignación creada: " +:+ Asignacion.identificador asignacion)],
     Mk (lista self ++ [asignacion])
        ({[Asignacion.identificador asignacion]} ∪ ids_usados self)).

(** The position of the first assignment with that id, and the
    assignment. *)
Definition buscar (self : t) (identificador : string)
  : option (nat * Asignacion.t) :=
  list_find (λ a, Asignacion.identificador a = identificador) (lista self).

(** An attribute assignment on the object at position [k]. *)
Definition con_asignacion (self : t) (k : nat) (a : Asignacion.t) : t :=
  Mk (<[k := a]> (lista self)) (ids_usados self).

Definition obtener_todas (self : t) : list Asignacion.t := lista self.

Definition obtener_activas (self : t) : list Asignacion.t :=
  filter (λ a, Asignacion.estado a = "activo"%string) (lista self).

(** The comprehension [[a for a in l if a.esta_vencido()]]: it raises as
    soon as one call raises. *)
Fixpoint vencidas (hoy : string) (l : list Asignacion.t)
  : option (list Asignacion.t) :=
  match l with
  | [] => Some []
  | a :: l' =>
      v ← Asignacion.esta_vencido hoy a;
      r ← vencidas hoy l';
      Some (if v : bool then a :: r else r)
  end.

Definition obtener_vencidas (hoy : string) (self : t)
  : option (list Asignacion.t) :=
  vencidas hoy (lista self).

Definition obtener_por_miembro (self : t) (codigo_miembro : string)
  : list Asignacion.t :=
  filter (λ a, Asignacion.codigo_miembro a = codigo_miembro) (lista self).

Definition campos : list string :=
  ["id"; "codigo_miembro"; "codigo_implemento"; "unidades";
   "fecha_salida"; "fecha_retorno"; "estado"]%string.

(** The text [persistir] leaves in the flat file. *)
Definition persistir (self : t) : string :=
  RepositorioBase.contenido_txt (Asignacion.a_diccionario <$> lista self) campos.

End GestorAsignaciones.

(** ** [interfaz_asignaciones] *)

(** What a procedure of [PantallasAsignaciones] prints before it returns,
    or the exception that ends it. *)
Inductive Mensaje : Type :=
| IdYaExiste                  (* "Este ID ya existe" *)
| MiembroNoEncontrado         (* "Miembro no encontrado" *)
| ImplementoNoEncontrado      (* "Implemento no encontrado" *)
| CantidadInvalida            (* "Cantidad inválida" *)
| DebeIngresarNumero          (* "Debe ingresar un número" *)
| StockInsuficiente (disponible : Z)
                              (* "Stock insuficiente. Disponible: ..." *)
| FormatoFechaInvalido        (* "Formato de fecha inválido" *)
| AsignacionRegistrada        (* "Asignación registrada correctamente" *)
| ErrorAlCrear                (* "Error al crear asignación" *)
| NoEncontradaOYaProcesada    (* "Asignación no encontrada o ya procesada" *)
| DevolucionProcesada         (* "Devolución procesada correctamente" *)
| ErrorAlProcesarDevolucion   (* "Error al procesar devolución" *)
| NoEncontradaONoActiva       (* "Asignación no encontrada o no está activa" *)
| AsignacionCancelada         (* "Asignación cancelada" *)
| ErrorAlCancelar             (* "Error al cancelar" *)
| FechaInvalida               (* "Fecha inválida" *)
| DebeSerPosterior            (* "La nueva fecha debe ser posterior a la actual" *)
| FechaExtendida              (* "Fecha de retorno extendida" *)
| ExcepcionValueError.        (* uncaught ValueError *)

Module PantallasAsignaciones.

(** The three managers the screens share with the rest of the program. *)
Record t : Type := Mk {
  gestor : GestorAsignaciones.t;
  admin_impl : AdministradorImplementos.t;
  ctrl_miembros : ControladorMiembros.t
}.

(** Outcome of a procedure: what it printed, the log entries it wrote and
    the managers afterwards. *)
Record Resultado : Type := Fin {
  impreso : Mensaje;
  bitacora : list Evento;
  despues : t
}.

Definition con_gestor (self : t) (g : GestorAsignaciones.t) : t :=
  Mk g (admin_impl self) (ctrl_miembros self).

Definition con_admin_impl (self : t) (a : AdministradorImplementos.t) : t :=
  Mk (gestor self) a (ctrl_miembros self).

Definition proceso_creacion (self : t)
    (e_id e_miembro e_impl e_cantidad e_salida e_retorno : string)
  : Resultado :=
  let id_asig := Py.strip e_id in
  if decide (id_asig ∈ GestorAsignaciones.ids_usados (gestor self)) then
    Fin IdYaExiste [] self
  else
  let codigo_miembro := Py.strip e_miembro in
  match ControladorMiembros.localizar (ctrl_miembros self) codigo_miembro with
  | None =>
      Fin MiembroNoEncontrado
          [Fallo ("Asignación fallida: miembro " +:+ codigo_miembro
                  +:+ " no existe")]
          self
  | Some (_, miembro) =>
  let codigo_impl := Py.strip e_impl in
  match AdministradorImplementos.buscar_por_id (admin_impl self) codigo_impl with
  | None =>
      Fin ImplementoNoEncontrado
          [Fallo ("Asignación fallida: implemento " +:+ codigo_impl
                  +:+ " no existe")]
          self
  | Some (n, impl) =>
  match Py.int e_cantidad with
  | None => Fin DebeIngresarNumero [] self
  | Some unidades =>
  if unidades <=? 0 then Fin CantidadInvalida [] self
  else if negb (Implemento.hay_disponibilidad impl unidades) then
    Fin (StockInsuficiente (Implemento.stock impl))
        [Fallo ("Stock insuficiente: " +:+ Implemento.titulo impl
                +:+ " - Solicitado: " +:+ Py.str unidades
                +:+ ", Disponible: " +:+ Py.str (Implemento.stock impl))]
        self
  else
  let fecha_salida := Py.strip e_salida in
  let fecha_retorno := Py.strip e_retorno in
  if negb (Utilidades.validar_fecha fecha_salida)
     || negb (Utilidades.validar_fecha fecha_retorno)
  then Fin FormatoFechaInvalido [] self
  else
  let asignacion :=
    Asignacion.Mk id_asig codigo_miembro codigo_impl
                  unidades fecha_salida fecha_retorno "activo" in
  match GestorAsignaciones.crear (gestor self) asignacion with
  | (true, ev, g) =>
      let impl' := (Implemento.ajustar_stock impl (- unidades)).2 in
      Fin AsignacionRegistrada
          (ev ++ [Accion ("Asignación creada: " +:+ id_asig +:+ " - "
                          +:+ Miembro.nombre_completo miembro +:+ " - "
                          +:+ Implemento.titulo impl')])
          (Mk g (AdministradorImplementos.con_item (admin_impl self) n impl')
              (ctrl_miembros self))
  | (false, ev, g) => Fin ErrorAlCrear ev (con_gestor self g)
  end
  end
  end
  end.

Definition proceso_devolucion (self : t) (e_id : string) : Resultado :=
  let id_asig := Py.strip e_id in
  match GestorAsignaciones.buscar (gestor self) id_asig with
  | None => Fin NoEncontradaOYaProcesada [] self
  | Some (k, asignacion) =>
      if negb (String.eqb (Asignacion.estado asignacion) "activo") then
        Fin NoEncontradaOYaProcesada [] self
      else
        match AdministradorImplementos.buscar_por_id
                (admin_impl self) (Asignacion.codigo_implemento asignacion) with
        | Some (n, impl) =>
            let impl' :=
              (Implemento.ajustar_stock impl (Asignacion.unidades asignacion)).2 in
            Fin DevolucionProcesada
                [Accion ("Devolución procesada: " +:+ id_asig +:+ " - "
                         +:+ Implemento.titulo impl')]
                (Mk (GestorAsignaciones.con_asignacion (gestor self) k
                       (Asignacion.con_estado asignacion "devuelto"))
                    (AdministradorImplementos.con_item (admin_impl self) n impl')
                    (ctrl_miembros self))
        | None => Fin ErrorAlProcesarDevolucion [] self
        end
  end.

Definition proceso_cancelacion (self : t) (e_id : string) : Resultado :=
  let id_asig := Py.strip e_id in
  match GestorAsignaciones.buscar (gestor self) id_asig with
  | None => Fin NoEncontradaONoActiva [] self
  | Some (k, asignacion) =>
      if negb (String.eqb (Asignacion.estado asignacion) "activo") then
        Fin NoEncontradaONoActiva [] self
      else
        match AdministradorImplementos.buscar_por_id
                (admin_impl self) (Asignacion.codigo_implemento asignacion) with
        | Some (n, impl) =>
            let impl' :=
              (Implemento.ajustar_stock impl (Asignacion.unidades asignacion)).2 in
            Fin AsignacionCancelada
                [Accion ("Asignación cancelada: " +:+ id_asig)]
                (Mk (GestorAsignaciones.con_asignacion (gestor self) k
                       (Asignacion.con_estado asignacion "cancelado"))
                    (AdministradorImplementos.con_item (admin_impl self) n impl')
                    (ctrl_miembros self))
        | None => Fin ErrorAlCancelar [] self
        end
  end.

Definition proceso_extension (self : t) (e_id e_fecha : string) : Resultado :=
  let id_asig := Py.strip e_id in
  match GestorAsignaciones.buscar (gestor self) id_asig with
  | None => Fin NoEncontradaONoActiva [] self
  | Some (k, asignacion) =>
      if negb (String.eqb (Asignacion.estado asignacion) "activo") then
        Fin NoEncontradaONoActiva [] self
      else
        let nueva_fecha := Py.strip e_fecha in
        if negb (Utilidades.validar_fecha nueva_fecha) then
          Fin FechaInvalida [] self
        else
          match Utilidades.comparar_fechas
                  nueva_fecha (Asignacion.fecha_retorno asignacion) with
          | None => Fin ExcepcionValueError [] self
          | Some c =>
              if c <=? 0 then Fin DebeSerPosterior [] self
              else
                Fin FechaExtendida
                    [Accion ("Fecha extendida: " +:+ id_asig
                             +:+ " - Nueva fecha: " +:+ nueva_fecha)]
                    (con_gestor self
                       (GestorAsignaciones.con_asignacion (gestor self) k
                          (Asignacion.con_fecha_retorno asignacion nueva_fecha)))
          end
  end.

End PantallasAsignaciones.

(** ** [modulo_reportes] *)

Module GeneradorReportes.

Record t : Type := Mk {
  admin_impl : AdministradorImplementos.t;
  ctrl_miembros : ControladorMiembros.t;
  gestor_asig : GestorAsignaciones.t
}.

Definition implementos_stock_critico (self : t) (umbral : Z)
  : list Implemento.t :=
  AdministradorImplementos.filtrar_stock_bajo (admin_impl self) umbral.

Definition asignaciones_vigentes (self : t) : list Asignacion.t :=
  GestorAsignaciones.obtener_activas (gestor_asig self).

Definition asignaciones_atrasadas (hoy : string) (self : t)
  : option (list Asignacion.t) :=
  GestorAsignaciones.obtener_vencidas hoy (gestor_asig self).

Definition historial_miembro (self : t) (codigo_miembro : string)
  : list Asignacion.t :=
  GestorAsignaciones.obtener_por_miembro (gestor_asig self) codigo_miembro.

(** [contador[k] = contador.get(k, 0) + 1] on a dict, whose items are kept
    in the order in which their keys were first inserted. *)
Fixpoint incrementar (contador : list (string * Z)) (k : string)
  : list (string * Z) :=
  match contador with
  | [] => [(k, 1)]
  | (k', n) :: r =>
      if decide (k' = k) then (k', n + 1) :: r
      else (k', n) :: incrementar r k
  end.

(** The place of an item among the items that come after it, already
    arranged, in [sorted(..., key=lambda x: x[1], reverse=True)]: the sort
    is stable, so the item goes before the first one whose count is not
    greater than its own. *)
Fixpoint insertar (x : string * Z) (l : list (string * Z))
  : list (string * Z) :=
  match l with
  | [] => [x]
  | y :: r => if y.2 <=? x.2 then x :: y :: r else y :: insertar x r
  end.

Definition sorted_reverse (items : list (string * Z)) : list (string * Z) :=
  foldr insertar [] items.

Definition implementos_populares (self : t) : list (string * Z) :=
  let contador :=
    foldl incrementar []
      (Asignacion.codigo_implemento
         <$> GestorAsignaciones.obtener_todas (gestor_asig self)) in
  let ranking := sorted_reverse contador in
  take 10 ranking.

Definition miembros_activos (self : t) : list (string * Z) :=
  let contador :=
    foldl incrementar []
      (Asignacion.codigo_miembro
         <$> GestorAsignaciones.obtener_todas (gestor_asig self)) in
  let ranking := sorted_reverse contador in
  take 10 ranking.

End GeneradorReportes.

(** ** [MODULO_TEST] *)

Module SistemaPrincipal.

Record t : Type := Mk {
  admin_impl : AdministradorImplementos.t;
  ctrl_miembros : ControladorMiembros.t;
  gestor_asig : GestorAsignaciones.t
}.

(** The rows of the catalogue that [ver_implementos_disponibles] prints;
    it prints a warning instead when there is none. *)
Definition ver_implementos_disponibles (self : t) : list Implemento.t :=
  let implementos := AdministradorImplementos.obtener_todos (admin_impl self) in
  filter (λ i, 0 < Implemento.stock i
               ∧ Implemento.condicion i = "disponible"%string)
         implementos.

End SistemaPrincipal.

(** ** [modulo_nuevo]

    The functions of the report of overdue loans. The three lists read
    from the JSON files are arguments; a record read is the dictionary of
    its string and integer entries, the only ones the report reads.
    [None] is an exception that ends the program ([KeyError], [TypeError]
    or [ValueError]). *)
Module ModuloNuevo.

(** [a == b] on the values of a record. *)
Definition valor_igual (a b : Valor) : bool :=
  match a, b with
  | VStr s, VStr t => String.eqb s t
  | VInt x, VInt y => x =? y
  | _, _ => false
  end.

Fixpoint obtener_nombre_usuario (id_usuario : Valor)
    (usuarios : list (gmap string Valor)) : option string :=
  match usuarios with
  | [] => Some "Desconocido"%string
  | u :: resto =>
      id ← u !! "id"%string;
      if valor_igual id id_usuario then
        match u !! "nombres"%string, u !! "apellidos"%string with
        | Some (VStr nombres), Some (VStr apellidos) =>
            Some (nombres +:+ " " +:+ apellidos)
        | _, _ => None
        end
      else obtener_nombre_usuario id_usuario resto
  end.

Fixpoint obtener_nombre_herramienta (id_herramienta : Valor)
    (herramientas : list (gmap string Valor)) : option Valor :=
  match herramientas with
  | [] => Some (VStr "Desconocida")
  | h :: resto =>
      id ← h !! "id"%string;
      if valor_igual id id_herramienta then h !! "titulo"%string
      else obtener_nombre_herramienta id_herramienta resto
  end.

(** An item of the list [vencidos]. *)
Record Fila : Type := MkFila {
  id : Valor;
  usuario : string;
  herramienta : Valor;
  cantidad : Z;
  fecha_inicio : Valor;
  fecha_estimada : string;
  dias_atraso : Z
}.

(** Body of the loop of [generar_reporte] for one record [p]; the pair
    holds [vencidos] and [total_herramientas]. *)
Definition paso_reporte (hoy : Fecha)
    (usuarios herramientas : list (gmap string Valor))
    (acc : list Fila * Z) (p : gmap string Valor) : option (list Fila * Z) :=
  estado ← p !! "estado"%string;
  if valor_igual estado (VStr "activo") then
    texto ← p !! "fecha_retorno"%string;
    match texto with
    | VInt _ => None
    | VStr texto =>
        fecha_estimada ← Strptime.strptime texto;
        if fecha_menor fecha_estimada hoy then
          let dias_atraso := Date.dias_entre hoy fecha_estimada in
          codigo_miembro ← p !! "codigo_miembro"%string;
          nombre_usuario ← obtener_nombre_usuario codigo_miembro usuarios;
          codigo_implemento ← p !! "codigo_implemento"%string;
          nombre_herramienta ←
            obtener_nombre_herramienta codigo_implemento herramientas;
          id ← p !! "id"%string;
          unidades ← p !! "unidades"%string;
          fecha_salida ← p !! "fecha_salida"%string;
          match unidades with
          | VInt n =>
              Some (acc.1 ++ [MkFila id nombre_usuario nombre_herramienta n
                                fecha_salida texto dias_atraso],
                    acc.2 + n)
          | VStr _ => None
          end
        else Some acc
    end
  else Some acc.

(** The loop of [generar_reporte]. *)
Definition recorrer (hoy : Fecha)
    (prestamos usuarios herramientas : list (gmap string Valor))
  : option (list Fila * Z) :=
  foldl (λ acc p, a ← acc; paso_reporte hoy usuarios herramientas a p)
        (Some ([], 0)) prestamos.

Definition nl : string := String Py.LF EmptyString.

(** The line written for an item. *)
Definition linea (v : Fila) : string :=
  "| " +:+ str_de (id v) +:+ " | " +:+ usuario v
  +:+ " | " +:+ str_de (herramienta v) +:+ " | " +:+ Py.str (cantidad v)
  +:+ " | " +:+ str_de (fecha_inicio v) +:+ " | " +:+ fecha_estimada v
  +:+ " | " +:+ Py.str (dias_atraso v) +:+ " |" +:+ nl.

(** What [generar_reporte] does once the lists are read. *)
Inductive Salida : Type :=
| SinVencidos                 (* "No existen préstamos vencidos." *)
| ArchivoGenerado (texto : string).
                              (* the text of prestamos_vencidos.md *)

(** [hoy] is the date of [datetime.now()]. *)
Definition generar_reporte (hoy : Fecha)
    (prestamos usuarios herramientas : list (gmap string Valor))
  : option Salida :=
  '(vencidos, total_herramientas) ←
    recorrer hoy prestamos usuarios herramientas;
  match vencidos with
  | [] => Some SinVencidos
  | _ =>
      Some (ArchivoGenerado
              ("# Préstamos Vencidos - Junta Comunal" +:+ nl +:+ nl
               +:+ "| id_prestamo | usuario | herramienta | cantidad | fecha_inicio | fecha_estimada | dias_atraso |" +:+ nl
               +:+ "|-------------|---------|-------------|----------|--------------|----------------|-------------|" +:+ nl
               +:+ foldr (λ v resto, linea v +:+ resto) EmptyString vencidos
               +:+ nl
               +:+ "**Total de préstamos vencidos:** "
               +:+ Py.str (Z.of_nat (length vencidos)) +:+ nl +:+ nl
               +:+ "**Total de herramientas comprometidas:** "
               +:+ Py.str total_herramientas +:+ nl))
  end.

End ModuloNuevo.

(** ** Runs of the program *)

Abbreviation Sistema := PantallasAsignaciones.t.

(** One procedure of the assignment screens, on any input lines. *)
Inductive paso_prestamo : Sistema -> Sistema -> Prop :=
| paso_creacion s e_id e_miembro e_impl e_cantidad e_salida e_retorno :
    paso_prestamo s
      (PantallasAsignaciones.despues
         (PantallasAsignaciones.proceso_creacion
            s e_id e_miembro e_impl e_cantidad e_salida e_retorno))
| paso_devolucion s e_id :
    paso_prestamo s
      (PantallasAsignaciones.despues
         (PantallasAsignaciones.proceso_devolucion s e_id))
| paso_cancelacion s e_id :
    paso_prestamo s
      (PantallasAsignaciones.despues
         (PantallasAsignaciones.proceso_cancelacion s e_id))
| paso_extension s e_id e_fecha :
    paso_prestamo s
      (PantallasAsignaciones.despues
         (PantallasAsignaciones.proceso_extension s e_id e_fecha)).

(** A procedure of the assignment screens, or the modification procedure of
    the implement screens acting on the shared inventory manager. *)
Inductive paso : Sistema -> Sistema -> Prop :=
| paso_de_prestamo s s' : paso_prestamo s s' -> paso s s'
| paso_modificacion s e_id e_nombre e_categoria e_stock e_estado nuevo_valor :
    paso s
      (PantallasAsignaciones.con_admin_impl s
         (InterfazImplementos.proceso_modificacion
            (PantallasAsignaciones.admin_impl s)
            e_id e_nombre e_categoria e_stock e_estado nuevo_valor).2).

(** The states the program can be in: the assignment manager starts from
    [_cargar]; the other two managers start anywhere and the other screens,
    which hold no reference to the assignment manager, change them
    freely. *)
Inductive alcanzable : Sistema -> Prop :=
| alc_inicio lineas admin ctrl :
    alcanzable (PantallasAsignaciones.Mk (GestorAsignaciones._cargar lineas) admin ctrl)
| alc_prestamo s s' : alcanzable s -> paso_prestamo s s' -> alcanzable s'
| alc_otras_pantallas s admin ctrl :
    alcanzable s ->
    alcanzable (PantallasAsignaciones.Mk (PantallasAsignaciones.gestor s) admin ctrl).

Definition inventario (s : Sistema) : list Implemento.t :=
  AdministradorImplementos.coleccion (PantallasAsignaciones.admin_impl s).

Definition asignaciones (s : Sistema) : list Asignacion.t :=
  GestorAsignaciones.lista (PantallasAsignaciones.gestor s).

(** Every implement has a stock that is not negative. *)
Definition stock_no_negativo (s : Sistema) : Prop :=
  Forall (λ i, 0 <= Implemento.stock i) (inventario s).


(** Both dates of every stored assignment pass [validar_fecha]. *)
Definition fechas_validas (s : Sistema) : Prop :=
  Forall (λ a, Utilidades.validar_fecha (Asignacion.fecha_salida a) = true
               ∧ Utilidades.validar_fecha (Asignacion.fecha_retorno a) = true)
         (asignaciones s).

(** A sequence of [ajustar_stock] calls on one implement. *)
Definition ajustar_sucesivos (i : Implemento.t) (deltas : list Z) : Implemento.t :=
  foldl (λ j d, (Implemento.ajustar_stock j d).2) i deltas.

(** ** Concrete data used by the examples *)

Definition taladro : Implemento.t :=
  Implemento.Mk "T1" "Taladro" "construccion" 5 "disponible" 120.5%float.

Definition ana : Miembro.t :=
  Miembro.Mk "M1" "Ana" "Perez" "555" "Casa 1" "residente".

Definition sistema0 : Sistema :=
  PantallasAsignaciones.Mk
    GestorAsignaciones.vacio
    (AdministradorImplementos.Mk [taladro] {["T1"%string]} {["construccion"%string]})
    (ControladorMiembros.Mk [ana] {["M1"%string]}).

(** T1 after A1 took 3 of its 5 units. *)
Definition sistema_con_a1 : Sistema :=
  PantallasAsignaciones.Mk
    (GestorAsignaciones.Mk
       [Asignacion.Mk "A1" "M1" "T1" 3 "2025-01-01" "2025-01-10" "activo"]
       {["A1"%string]})
    (AdministradorImplementos.Mk
       [Implemento.con_stock taladro 2] {["T1"%string]} {["construccion"%string]})
    (ControladorMiembros.Mk [ana] {["M1"%string]}).

(** An active assignment whose implement id matches no stored implement. *)
Definition sistema_huerfano : Sistema :=
  PantallasAsignaciones.Mk
    (GestorAsignaciones.Mk
       [Asignacion.Mk "A5" "M1" "T9" 2 "2025-01-01" "2025-01-10" "activo"]
       {["A5"%string]})
    (AdministradorImplementos.Mk [taladro] {["T1"%string]} {["construccion"%string]})
    (ControladorMiembros.Mk [ana] {["M1"%string]}).

(** The state reached from [sistema0] by creating A1 for 3 units of T1 and
    then typing -10 as the new stock of T1 in the modification procedure of
    the implement screens. *)
Definition sistema_editado : Sistema :=
  let s1 :=
    PantallasAsignaciones.despues
      (PantallasAsignaciones.proceso_creacion
         sistema0 "A1" "M1" "T1" "3" "2025-01-01" "2025-01-10") in
  PantallasAsignaciones.con_admin_impl s1
    (InterfazImplementos.proceso_modificacion
       (PantallasAsignaciones.admin_impl s1) "T1" EmptyString EmptyString "-10" EmptyString None).2.

Definition a1_devuelta : Asignacion.t :=
  Asignacion.Mk "A1" "M1" "T1" 3 "2025-01-01" "2025-01-10" "devuelto".

(** A1 after its return. *)
Definition sistema_devuelto : Sistema :=
  PantallasAsignaciones.Mk
    (GestorAsignaciones.Mk [a1_devuelta] {["A1"%string]})
    (AdministradorImplementos.Mk [taladro] {["T1"%string]} {["construccion"%string]})
    (ControladorMiembros.Mk [ana] {["M1"%string]}).

(** The state reached from [sistema0] by typing -1 as the new stock of T1
    in the modification procedure of the implement screens. *)
Definition sistema_negativo : Sistema :=
  PantallasAsignaciones.con_admin_impl sistema0
    (InterfazImplementos.proceso_modificacion
       (PantallasAsignaciones.admin_impl sistema0) "T1" EmptyString EmptyString "-1" EmptyString None).2.

(** ** Records that survive the flat file *)

(** The six text fields of an assignment, in the order of the file. *)
Definition textos (a : Asignacion.t) : list string :=
  [Asignacion.identificador a; Asignacion.codigo_miembro a;
   Asignacion.codigo_implemento a; Asignacion.fecha_salida a;
   Asignacion.fecha_retorno a; Asignacion.estado a].

(** A text with no comma and no line end. *)
Definition texto_simple (t : string) : Prop :=
  Py.contiene "," t = false
  ∧ Py.contiene Py.LF t = false
  ∧ Py.contiene Py.CR t = false.

(** The text fields are simple, the id has no blank in front and the
    status has no blank behind. *)
Definition persistible (a : Asignacion.t) : Prop :=
  Forall texto_simple (textos a)
  ∧ Py.lstrip (Asignacion.identificador a) = Asignacion.identificador a
  ∧ Py.rstrip (Asignacion.estado a) = Asignacion.estado a.

(** The line [persistir] writes for an assignment. *)
Definition linea_de (a : Asignacion.t) : string :=
  RepositorioBase.linea_txt (Asignacion.a_diccionario a) GestorAsignaciones.campos.

(** ** Bookkeeping of ids and of units on loan *)

(** The set of used ids is exactly the set of ids of the stored
    assignments. *)
Definition ids_exactos (g : GestorAsignaciones.t) : Prop :=
  GestorAsignaciones.ids_usados g
  = list_to_set (Asignacion.identificador <$> GestorAsignaciones.lista g).

(** Every stored assignment is for a positive quantity. *)
Definition unidades_positivas (s : Sistema) : Prop :=
  Forall (λ a, 0 < Asignacion.unidades a) (asignaciones s).

(** The units an assignment holds of the implements with a given id: its
    quantity while it is active, nothing afterwards. *)
Definition prestado_de (id : string) (a : Asignacion.t) : Z :=
  if String.eqb (Asignacion.estado a) "activo"
     && String.eqb (Asignacion.codigo_implemento a) id
  then Asignacion.unidades a
  else 0.

(** The units on loan of the implements with a given id. *)
Definition en_prestamo (s : Sistema) (id : string) : Z :=
  foldr Z.add 0 (prestado_de id <$> asignaciones s).

(** The stock of the implement that a lookup of the id finds, 0 when it
    finds none. *)
Definition stock_de (s : Sistema) (id : string) : Z :=
  match AdministradorImplementos.buscar_por_id
          (PantallasAsignaciones.admin_impl s) id with
  | Some (_, i) => Implemento.stock i
  | None => 0
  end.

(** ** The life of one assignment *)

(** The fields of an assignment that say what was lent to whom. *)
Definition mismo_prestamo (a a' : Asignacion.t) : Prop :=
  Asignacion.identificador a' = Asignacion.identificador a
  ∧ Asignacion.codigo_miembro a' = Asignacion.codigo_miembro a
  ∧ Asignacion.codigo_implemento a' = Asignacion.codigo_implemento a
  ∧ Asignacion.unidades a' = Asignacion.unidades a
  ∧ Asignacion.fecha_salida a' = Asignacion.fecha_salida a.

(** A status stays, or goes from active to returned or cancelled. *)
Definition estado_avanza (e e' : string) : Prop :=
  e' = e
  ∨ (e = "activo"%string ∧ (e' = "devuelto"%string ∨ e' = "cancelado"%string)).

(** A due date stays, or is replaced by the text of a later date. *)
Definition retorno_avanza (f f' : string) : Prop :=
  f' = f
  ∨ ∃ d d', Strptime.strptime f = Some d
            ∧ Strptime.strptime f' = Some d'
            ∧ fecha_anterior d d'.

(** No two stored assignments share an id. *)
Definition ids_distintos (s : Sistema) : Prop :=
  NoDup (Asignacion.identificador <$> asignaciones s).

(** ** Bookkeeping of the implement and member managers *)

(** The set of used keys is the set of the keys of the stored objects, and
    no two stored objects share a key. *)
Definition en_orden {A : Type} (clave : A -> string) (l : list A)
    (usados : gset string) : Prop :=
  usados = list_to_set (clave <$> l) ∧ NoDup (clave <$> l).

Definition inventario_en_orden (admin : AdministradorImplementos.t) : Prop :=
  en_orden Implemento.identificador
    (AdministradorImplementos.coleccion admin)
    (AdministradorImplementos.ids_en_uso admin).

Definition registro_en_orden (ctrl : ControladorMiembros.t) : Prop :=
  en_orden Miembro.identificador
    (ControladorMiembros.registro ctrl)
    (ControladorMiembros.codigos_usados ctrl).

(** Every implement is in one of the four conditions. *)
Definition condiciones_validas (admin : AdministradorImplementos.t) : Prop :=
  Forall (λ i, Implemento.condicion i ∈ Implemento.ESTADOS_VALIDOS)
         (AdministradorImplementos.coleccion admin).

(** Every member has one of the two roles. *)
Definition roles_validos (ctrl : ControladorMiembros.t) : Prop :=
  Forall (λ m, Miembro.rol m ∈ Miembro.ROLES_VALIDOS)
         (ControladorMiembros.registro ctrl).

(** One procedure of the implement screens, on any input lines. *)
Inductive paso_implementos
  : AdministradorImplementos.t -> AdministradorImplementos.t -> Prop :=
| pi_creacion admin e_id e_nombre e_categoria e_cantidad e_estado valor :
    paso_implementos admin
      (InterfazImplementos.proceso_creacion
         admin e_id e_nombre e_categoria e_cantidad e_estado valor).2
| pi_modificacion admin e_id e_nombre e_categoria e_stock e_estado nuevo_valor :
    paso_implementos admin
      (InterfazImplementos.proceso_modificacion
         admin e_id e_nombre e_categoria e_stock e_estado nuevo_valor).2
| pi_eliminacion admin e_id e_confirmacion :
    paso_implementos admin
      (InterfazImplementos.proceso_eliminacion admin e_id e_confirmacion).2
| pi_marcar_danado admin e_id :
    paso_implementos admin
      (InterfazImplementos.proceso_marcar_danado admin e_id).2.

(** The procedures that hold the implement manager: those of the
    assignment screens and those of the implement screens. *)
Inductive paso_inventario : Sistema -> Sistema -> Prop :=
| pinv_prestamo s s' : paso_prestamo s s' -> paso_inventario s s'
| pinv_implementos s admin' :
    paso_implementos (PantallasAsignaciones.admin_impl s) admin' ->
    paso_inventario s (PantallasAsignaciones.con_admin_impl s admin').

(** One procedure of the member screens, on any input lines. *)
Inductive paso_miembros
  : ControladorMiembros.t -> ControladorMiembros.t -> Prop :=
| pm_inscripcion ctrl e_codigo e_nombres e_apellidos e_telefono e_direccion e_tipo :
    paso_miembros ctrl
      (PantallasMiembros.flujo_inscripcion
         ctrl e_codigo e_nombres e_apellidos e_telefono e_direccion e_tipo).2
| pm_actualizacion ctrl e_codigo e_nombres e_apellidos e_telefono e_direccion e_tipo :
    paso_miembros ctrl
      (PantallasMiembros.flujo_actualizacion
         ctrl e_codigo e_nombres e_apellidos e_telefono e_direccion e_tipo).2
| pm_baja ctrl e_codigo e_confirmacion :
    paso_miembros ctrl
      (PantallasMiembros.flujo_baja ctrl e_codigo e_confirmacion).2.

(** ** Concrete data of the member screens *)

Definition controlador0 : ControladorMiembros.t :=
  ControladorMiembros.Mk [ana] {["M1"%string]}.

(** ** Rankings *)

(** How many times a key occurs in a list of keys. *)
Definition veces (k : string) (claves : list string) : Z :=
  Z.of_nat (length (filter (λ x, x = k) claves)).

(** The order of a ranking: the count does not grow. *)
Definition no_creciente : relation (string * Z) := λ p q, q.2 <= p.2.

(** What a ranking of at most ten says about the keys it was made from:
    its keys are distinct, the count of each is the number of its
    occurrences, the counts do not grow along it, and a key left out
    occurs no more often than any key in it, which then has ten keys. *)
Definition ranking_de (claves : list string) (r : list (string * Z)) : Prop :=
  (length r <= 10)%nat
  ∧ NoDup r.*1
  ∧ (∀ k n, (k, n) ∈ r -> k ∈ claves ∧ n = veces k claves)
  ∧ StronglySorted no_creciente r
  ∧ (∀ k, k ∈ claves -> k ∉ r.*1 ->
          length r = 10%nat ∧ ∀ p, p ∈ r -> veces k claves <= p.2).

(** Assignments for the ranking examples. *)
Definition gestor_tres : GestorAsignaciones.t :=
  GestorAsignaciones.Mk
    [Asignacion.Mk "A1" "M1" "T1" 1 "2025-01-01" "2025-01-10" "devuelto";
     Asignacion.Mk "A2" "M2" "T2" 1 "2025-01-02" "2025-01-12" "activo";
     Asignacion.Mk "A3" "M1" "T2" 2 "2025-01-03" "2025-01-13" "cancelado"]
    {["A1"%string; "A2"%string; "A3"%string]}.

(** ** Members that survive the flat file *)

(** The six fields of a member, in the order of the file. *)
Definition textos_miembro (m : Miembro.t) : list string :=
  [Miembro.identificador m; Miembro.nombres m; Miembro.apellidos m;
   Miembro.telefono m; Miembro.ubicacion m; Miembro.rol m].

(** The fields are simple, the code has no blank in front and the role has
    no blank behind. *)
Definition miembro_persistible (m : Miembro.t) : Prop :=
  Forall texto_simple (textos_miembro m)
  ∧ Py.lstrip (Miembro.identificador m) = Miembro.identificador m
  ∧ Py.rstrip (Miembro.rol m) = Miembro.rol m.

(** The line [guardar_datos] writes for a member. *)
Definition linea_de_miembro (m : Miembro.t) : string :=
  RepositorioBase.linea_txt (Miembro.a_diccionario m) ControladorMiembros.campos.

(** ** Calendar dates *)

(** A date of the calendar of [datetime]. *)
Definition fecha_real (f : Fecha) : Prop :=
  1 <= anio f <= 9999
  ∧ 1 <= mes f <= 12
  ∧ 1 <= dia f <= Strptime.dias_del_mes (anio f) (mes f).

(** ** The report of overdue loans *)

(** The item of the report made from an assignment: its id, quantity and
    dates, with at least one day of delay. *)
Definition fila_de (a : Asignacion.t) (v : ModuloNuevo.Fila) : Prop :=
  ModuloNuevo.id v = VStr (Asignacion.identificador a)
  ∧ ModuloNuevo.cantidad v = Asignacion.unidades a
  ∧ ModuloNuevo.fecha_inicio v = VStr (Asignacion.fecha_salida a)
  ∧ ModuloNuevo.fecha_estimada v = Asignacion.fecha_retorno a
  ∧ 1 <= ModuloNuevo.dias_atraso v.

(** ** References between the managers *)

(** Every stored assignment names a stored member and a stored
    implement. *)
Definition referencias_validas (s : Sistema) : Prop :=
  Forall (λ a,
            is_Some (ControladorMiembros.localizar
                       (PantallasAsignaciones.ctrl_miembros s)
                       (Asignacion.codigo_miembro a))
            ∧ is_Some (AdministradorImplementos.buscar_por_id
                         (PantallasAsignaciones.admin_impl s)
                         (Asignacion.codigo_implemento a)))
         (asignaciones s).

(** * Properties *)

(** ** Lookups by id *)

Section Busqueda.
Context {A : Type} (P : A -> Prop) `{!∀ x, Decision (P x)}.

Lemma list_find_lookup (l : list A) n x :
  list_find P l = Some (n, x) -> l !! n = Some x ∧ P x.
Proof. rewrite list_find_Some. tauto. Qed.

(** Replacing the object found by another one that still satisfies the
    test leaves it the one found. *)
Lemma list_find_insert_mismo (l : list A) n x y :
  list_find P l = Some (n, x) -> P y ->
  list_find P (<[n := y]> l) = Some (n, y).
Proof.
  rewrite !list_find_Some. intros (Hn & _ & Hantes) Hy.
  split_and!; [|done|].
  - apply list_lookup_insert_eq. by eapply lookup_lt_Some.
  - intros j z Hj Hlt. rewrite list_lookup_insert_ne in Hj by lia. eauto.
Qed.

Lemma list_find_snoc_nuevo (l : list A) y :
  Forall (λ x, ¬ P x) l -> P y ->
  list_find P (l ++ [y]) = Some (length l, y).
Proof.
  intros Hl Hy. apply list_find_Some. split_and!; [|done|].
  - by rewrite lookup_app_r, Nat.sub_diag.
  - intros j z Hj Hlt. rewrite lookup_app_l in Hj by done.
    eapply Forall_lookup_1 in Hl; eauto.
Qed.
End Busqueda.

(** ** Stock adjustment and availability *)

Lemma ajustar_stock_rechaza (i : Implemento.t) (delta : Z) :
  Implemento.stock i + delta < 0 -> Implemento.ajustar_stock i delta = (false, i).
Proof.
  intros H. unfold Implemento.ajustar_stock. cbn zeta.
  by destruct (Z.ltb_spec (Implemento.stock i + delta) 0); [|lia].
Qed.

Lemma ajustar_stock_acepta (i : Implemento.t) (delta : Z) :
  0 <= Implemento.stock i + delta ->
  Implemento.ajustar_stock i delta
  = (true, Implemento.con_stock i (Implemento.stock i + delta)).
Proof.
  intros H. unfold Implemento.ajustar_stock. cbn zeta.
  by destruct (Z.ltb_spec (Implemento.stock i + delta) 0); [lia|].
Qed.

(** The stock after a call, whatever the delta. *)
Lemma ajustar_stock_stock (i : Implemento.t) (delta : Z) :
  Implemento.stock (Implemento.ajustar_stock i delta).2
  = if Implemento.stock i + delta <? 0 then Implemento.stock i
    else Implemento.stock i + delta.
Proof. unfold Implemento.ajustar_stock. cbn zeta. by case_match. Qed.

Lemma ajustar_stock_no_negativo (i : Implemento.t) (delta : Z) :
  0 <= Implemento.stock i ->
  0 <= Implemento.stock (Implemento.ajustar_stock i delta).2.
Proof.
  intros H. rewrite ajustar_stock_stock.
  destruct (Z.ltb_spec (Implemento.stock i + delta) 0); lia.
Qed.

Lemma ajustar_sucesivos_no_negativo (deltas : list Z) (i : Implemento.t) :
  0 <= Implemento.stock i ->
  0 <= Implemento.stock (ajustar_sucesivos i deltas).
Proof.
  revert i. induction deltas as [|d deltas IH]; intros i Hi; [done|].
  apply IH. by apply ajustar_stock_no_negativo.
Qed.

(** C2. For an implement with stock >= 0 and any integer delta:
    [ajustar_stock] fails and leaves the implement as it was when
    stock + delta < 0, and otherwise succeeds and sets the stock to
    stock + delta, the other fields kept; hence after any sequence of calls
    the stock is still not negative. *)
Theorem ajustar_stock_correcto (i : Implemento.t) (delta : Z) :
  0 <= Implemento.stock i ->
  (Implemento.stock i + delta < 0 ->
   Implemento.ajustar_stock i delta = (false, i))
  ∧ (¬ Implemento.stock i + delta < 0 ->
     Implemento.ajustar_stock i delta
     = (true, Implemento.Mk (Implemento.identificador i) (Implemento.titulo i)
                (Implemento.tipo i) (Implemento.stock i + delta)
                (Implemento.condicion i) (Implemento.precio_estimado i)))
  ∧ (∀ deltas : list Z, 0 <= Implemento.stock (ajustar_sucesivos i deltas)).
Proof.
  intros Hi. split_and!.
  - apply ajustar_stock_rechaza.
  - intros H. apply ajustar_stock_acepta. lia.
  - intros deltas. by apply ajustar_sucesivos_no_negativo.
Qed.

Lemma ajustar_stock_correcto_testigo :
  0 <= Implemento.stock taladro
  ∧ Implemento.ajustar_stock taladro (-6) = (false, taladro)
  ∧ Implemento.stock (Implemento.ajustar_stock taladro (-3)).2 = 2
  ∧ 0 <= Implemento.stock (ajustar_sucesivos taladro [-3; -3; 4; -7; 1]).
Proof.
  assert (H0 : 0 <= Implemento.stock taladro) by (simpl; lia).
  destruct (ajustar_stock_correcto taladro (-6) H0) as (Hrej & _ & Hsec).
  destruct (ajustar_stock_correcto taladro (-3) H0) as (_ & Hac & _).
  split_and!.
  - exact H0.
  - apply Hrej. simpl. lia.
  - rewrite Hac; [reflexivity | simpl; lia].
  - apply Hsec.
Defined.



(** ** Dates and overdue assignments *)

Lemma fecha_menor_spec (f1 f2 : Fecha) :
  fecha_menor f1 f2 = true <-> fecha_anterior f1 f2.
Proof.
  unfold fecha_menor, fecha_anterior.
  rewrite !orb_true_iff, !andb_true_iff, !orb_true_iff, !andb_true_iff,
    !Z.ltb_lt, !Z.eqb_eq.
  tauto.
Qed.

Lemma fecha_anterior_asimetrica (f1 f2 : Fecha) :
  fecha_anterior f1 f2 -> ¬ fecha_anterior f2 f1.
Proof. unfold fecha_anterior. lia. Qed.


Lemma validar_fecha_true (texto : string) :
  Utilidades.validar_fecha texto = true <-> is_Some (Strptime.strptime texto).
Proof.
  unfold Utilidades.validar_fecha.
  destruct (Strptime.strptime texto); split; intros H;
    first [done | by eexists | by destruct H].
Qed.

(** [comparar_fechas] on two strings that parse: the sign of the result. *)
Lemma comparar_fechas_signo (t1 t2 : string) (f1 f2 : Fecha) :
  Strptime.strptime t1 = Some f1 -> Strptime.strptime t2 = Some f2 ->
  ∃ c, Utilidades.comparar_fechas t1 t2 = Some c
       ∧ (c >? 0) = fecha_menor f2 f1
       ∧ (c <=? 0) = negb (fecha_menor f2 f1).
Proof.
  intros H1 H2. unfold Utilidades.comparar_fechas. rewrite H1, H2. simpl.
  destruct (fecha_menor f1 f2) eqn:E12, (fecha_menor f2 f1) eqn:E21;
    [exfalso | eexists; split_and!; reflexivity ..].
  apply fecha_menor_spec in E12, E21.
  by apply fecha_anterior_asimetrica in E12.
Qed.

Lemma comparar_fechas_Some (t1 t2 : string) (c : Z) :
  Utilidades.comparar_fechas t1 t2 = Some c ->
  ∃ f1 f2, Strptime.strptime t1 = Some f1 ∧ Strptime.strptime t2 = Some f2.
Proof.
  unfold Utilidades.comparar_fechas.
  destruct (Strptime.strptime t1) as [f1|]; [|done].
  destruct (Strptime.strptime t2) as [f2|]; [|done]. eauto.
Qed.

Lemma estado_activo_dec (a : Asignacion.t) :
  negb (String.eqb (Asignacion.estado a) "activo") = false
  <-> Asignacion.estado a = "activo"%string.
Proof. rewrite negb_false_iff. apply String.eqb_eq. Qed.

Lemma estado_no_activo_dec (a : Asignacion.t) :
  negb (String.eqb (Asignacion.estado a) "activo") = true
  <-> Asignacion.estado a ≠ "activo"%string.
Proof. rewrite negb_true_iff. apply String.eqb_neq. Qed.

(** C5. [esta_vencido] is true exactly when the status is "activo" and the
    reference date is strictly after the due date, both read as calendar
    dates (year, month, day); for a status other than "activo" it is false
    whatever the dates are, parseable or not. It is a function of the
    record and the reference date and returns nothing else: no record is
    changed by evaluating it. (On an active record it raises when one of
    the two strings is not a date.) *)
Theorem esta_vencido_sii (hoy : string) (a : Asignacion.t) :
  (Asignacion.esta_vencido hoy a = Some true <->
   Asignacion.estado a = "activo"%string
   ∧ ∃ h d, Strptime.strptime hoy = Some h
            ∧ Strptime.strptime (Asignacion.fecha_retorno a) = Some d
            ∧ fecha_anterior d h)
  ∧ (Asignacion.estado a ≠ "activo"%string ->
     Asignacion.esta_vencido hoy a = Some false)
  ∧ (∀ h d, Asignacion.estado a = "activo"%string ->
            Strptime.strptime hoy = Some h ->
            Strptime.strptime (Asignacion.fecha_retorno a) = Some d ->
            Asignacion.esta_vencido hoy a = Some (fecha_menor d h))
  ∧ (Asignacion.estado a = "activo"%string ->
     Strptime.strptime hoy = None
     ∨ Strptime.strptime (Asignacion.fecha_retorno a) = None ->
     Asignacion.esta_vencido hoy a = None).
Proof.
  assert (Hval : ∀ h d, Asignacion.estado a = "activo"%string ->
            Strptime.strptime hoy = Some h ->
            Strptime.strptime (Asignacion.fecha_retorno a) = Some d ->
            Asignacion.esta_vencido hoy a = Some (fecha_menor d h)).
  { intros h d Ha Hh Hd. unfold Asignacion.esta_vencido.
    apply estado_activo_dec in Ha. rewrite Ha.
    destruct (comparar_fechas_signo _ _ _ _ Hh Hd) as (c & -> & Hc & _).
    simpl. by rewrite Hc. }
  split_and!; [split| |exact Hval|].
  - intros H. unfold Asignacion.esta_vencido in H.
    destruct (negb _) eqn:Ha in H; [done|]. apply estado_activo_dec in Ha.
    split; [done|].
    destruct (Utilidades.comparar_fechas hoy _) as [c|] eqn:Hc; [|done].
    destruct (comparar_fechas_Some _ _ _ Hc) as (h & d & Hh & Hd).
    exists h, d. split_and!; [done..|].
    apply fecha_menor_spec.
    destruct (comparar_fechas_signo _ _ _ _ Hh Hd) as (c' & Hc' & Hs & _).
    rewrite Hc in Hc'. injection Hc' as <-. simpl in H. congruence.
  - intros (Ha & h & d & Hh & Hd & Hlt).
    rewrite (Hval h d Ha Hh Hd). f_equal. by apply fecha_menor_spec.
  - intros Ha. unfold Asignacion.esta_vencido.
    apply estado_no_activo_dec in Ha. by rewrite Ha.
  - intros Ha Hno. unfold Asignacion.esta_vencido, Utilidades.comparar_fechas.
    apply estado_activo_dec in Ha. rewrite Ha.
    destruct Hno as [-> | ->]; [done|].
    by destruct (Strptime.strptime hoy).
Qed.

Lemma esta_vencido_sii_testigo :
  Asignacion.esta_vencido "2025-02-01"
    (Asignacion.Mk "A3" "M1" "T1" 1 "2025-01-01" "2025-01-15" "activo")
  = Some true
  ∧ Asignacion.esta_vencido "2025-01-15"
      (Asignacion.Mk "A3" "M1" "T1" 1 "2025-01-01" "2025-01-15" "activo")
    = Some false
  ∧ Asignacion.esta_vencido "2025-02-01"
      (Asignacion.Mk "A3" "M1" "T1" 1 "2025-01-01" "sin fecha" "cancelado")
    = Some false.
Proof.
  split_and!.
  - apply esta_vencido_sii. split; [reflexivity|].
    exists (MkFecha 2025 2 1), (MkFecha 2025 1 15).
    split_and!; [reflexivity..|]. unfold fecha_anterior. simpl. lia.
  - eapply (proj1 (proj2 (proj2 (esta_vencido_sii _ _)))
              (MkFecha 2025 1 15) (MkFecha 2025 1 15));
      reflexivity.
  - apply esta_vencido_sii. simpl. congruence.
Defined.

(** ** Creation of an assignment *)



(** ** Extension of the due date *)



(** ** Used ids *)





Lemma buscar_lookup (g : GestorAsignaciones.t) id k a :
  GestorAsignaciones.buscar g id = Some (k, a) ->
  GestorAsignaciones.lista g !! k = Some a ∧ Asignacion.identificador a = id.
Proof. intros H. by apply list_find_lookup in H. Qed.

Lemma buscar_por_id_lookup (adm : AdministradorImplementos.t) id n i :
  AdministradorImplementos.buscar_por_id adm id = Some (n, i) ->
  AdministradorImplementos.coleccion adm !! n = Some i
  ∧ Implemento.identificador i = id.
Proof. intros H. by apply list_find_lookup in H. Qed.

(** Case analysis on the run of one procedure of the assignment screens. *)
Ltac desarmar :=
  unfold PantallasAsignaciones.proceso_devolucion,
    PantallasAsignaciones.proceso_cancelacion,
    PantallasAsignaciones.proceso_extension;
  cbn zeta;
  repeat match goal with
         | |- context [match ?x with _ => _ end] => destruct x eqn:?
         end;
  simpl.

(** The same for a creation; [tac] closes the runs that end in a refusal. *)
Ltac desarmar_creacion tac :=
  unfold PantallasAsignaciones.proceso_creacion, GestorAsignaciones.crear;
  cbn zeta;
  repeat (case_match; try tac);
  simplify_eq; simpl.



(** ** Return and cancellation *)

(** A return of an active assignment whose implement is found. *)
Lemma proceso_devolucion_hecha (s : Sistema) (e_id : string)
    (k : nat) (a : Asignacion.t) (n : nat) (impl : Implemento.t) :
  GestorAsignaciones.buscar (PantallasAsignaciones.gestor s) (Py.strip e_id)
  = Some (k, a) ->
  Asignacion.estado a = "activo"%string ->
  AdministradorImplementos.buscar_por_id
    (PantallasAsignaciones.admin_impl s) (Asignacion.codigo_implemento a)
  = Some (n, impl) ->
  PantallasAsignaciones.impreso (PantallasAsignaciones.proceso_devolucion s e_id)
  = DevolucionProcesada
  ∧ PantallasAsignaciones.despues (PantallasAsignaciones.proceso_devolucion s e_id)
    = PantallasAsignaciones.Mk
        (GestorAsignaciones.con_asignacion (PantallasAsignaciones.gestor s) k
           (Asignacion.con_estado a "devuelto"))
        (AdministradorImplementos.con_item (PantallasAsignaciones.admin_impl s) n
           (Implemento.ajustar_stock impl (Asignacion.unidades a)).2)
        (PantallasAsignaciones.ctrl_miembros s).
Proof.
  intros Hb Ha Hi. unfold PantallasAsignaciones.proceso_devolucion. cbn zeta.
  apply estado_activo_dec in Ha. by rewrite Hb, Ha, Hi.
Qed.

(** A cancellation of an active assignment whose implement is found. *)
Lemma proceso_cancelacion_hecha (s : Sistema) (e_id : string)
    (k : nat) (a : Asignacion.t) (n : nat) (impl : Implemento.t) :
  GestorAsignaciones.buscar (PantallasAsignaciones.gestor s) (Py.strip e_id)
  = Some (k, a) ->
  Asignacion.estado a = "activo"%string ->
  AdministradorImplementos.buscar_por_id
    (PantallasAsignaciones.admin_impl s) (Asignacion.codigo_implemento a)
  = Some (n, impl) ->
  PantallasAsignaciones.impreso (PantallasAsignaciones.proceso_cancelacion s e_id)
  = AsignacionCancelada
  ∧ PantallasAsignaciones.despues (PantallasAsignaciones.proceso_cancelacion s e_id)
    = PantallasAsignaciones.Mk
        (GestorAsignaciones.con_asignacion (PantallasAsignaciones.gestor s) k
           (Asignacion.con_estado a "cancelado"))
        (AdministradorImplementos.con_item (PantallasAsignaciones.admin_impl s) n
           (Implemento.ajustar_stock impl (Asignacion.unidades a)).2)
        (PantallasAsignaciones.ctrl_miembros s).
Proof.
  intros Hb Ha Hi. unfold PantallasAsignaciones.proceso_cancelacion. cbn zeta.
  apply estado_activo_dec in Ha. by rewrite Hb, Ha, Hi.
Qed.

(** ** Creation followed by return or cancellation *)




Lemma alcanzable_sistema0 : alcanzable sistema0.
Proof. exact (alc_inicio [] _ _). Qed.


(** The outcome of a return and of a cancellation of an active assignment,
    whether its implement is found or not. *)
Lemma cerrar_sin_implemento (s : Sistema) (e_id : string)
    (k : nat) (a : Asignacion.t) :
  GestorAsignaciones.buscar (PantallasAsignaciones.gestor s) (Py.strip e_id)
  = Some (k, a) ->
  Asignacion.estado a = "activo"%string ->
  AdministradorImplementos.buscar_por_id
    (PantallasAsignaciones.admin_impl s) (Asignacion.codigo_implemento a) = None ->
  PantallasAsignaciones.proceso_devolucion s e_id
  = PantallasAsignaciones.Fin ErrorAlProcesarDevolucion [] s
  ∧ PantallasAsignaciones.proceso_cancelacion s e_id
    = PantallasAsignaciones.Fin ErrorAlCancelar [] s.
Proof.
  intros Hb Ha Hi. apply estado_activo_dec in Ha.
  unfold PantallasAsignaciones.proceso_devolucion,
    PantallasAsignaciones.proceso_cancelacion. cbn zeta.
  by rewrite Hb, Ha, Hi.
Qed.

(** C7 (amended). For a return, and in the same way a cancellation, of an
    active assignment: when no stored implement has its implement id the
    procedure reports an error and changes nothing, so the status stays
    "activo" and no stock is adjusted; when the implement exists the status
    becomes "devuelto" (respectively "cancelado"), and the stock of that
    implement grows by the quantity of the assignment provided
    stock + quantity >= 0, which holds whenever the stock is not negative
    and the quantity is positive; otherwise the stock is left as it is. *)
Theorem cerrar_asignacion_correcto (s : Sistema) (e_id : string)
    (k : nat) (a : Asignacion.t) :
  GestorAsignaciones.buscar (PantallasAsignaciones.gestor s) (Py.strip e_id)
  = Some (k, a) ->
  Asignacion.estado a = "activo"%string ->
  (AdministradorImplementos.buscar_por_id
     (PantallasAsignaciones.admin_impl s) (Asignacion.codigo_implemento a) = None ->
   PantallasAsignaciones.proceso_devolucion s e_id
   = PantallasAsignaciones.Fin ErrorAlProcesarDevolucion [] s
   ∧ PantallasAsignaciones.proceso_cancelacion s e_id
     = PantallasAsignaciones.Fin ErrorAlCancelar [] s)
  ∧ (∀ (n : nat) (impl : Implemento.t),
       AdministradorImplementos.buscar_por_id
         (PantallasAsignaciones.admin_impl s) (Asignacion.codigo_implemento a)
       = Some (n, impl) ->
       (PantallasAsignaciones.impreso (PantallasAsignaciones.proceso_devolucion s e_id)
        = DevolucionProcesada
        ∧ asignaciones
            (PantallasAsignaciones.despues
               (PantallasAsignaciones.proceso_devolucion s e_id))
          = <[k := Asignacion.con_estado a "devuelto"]> (asignaciones s)
        ∧ PantallasAsignaciones.impreso
            (PantallasAsignaciones.proceso_cancelacion s e_id)
          = AsignacionCancelada
        ∧ asignaciones
            (PantallasAsignaciones.despues
               (PantallasAsignaciones.proceso_cancelacion s e_id))
          = <[k := Asignacion.con_estado a "cancelado"]> (asignaciones s))
       ∧ (0 <= Implemento.stock impl + Asignacion.unidades a ->
          inventario
            (PantallasAsignaciones.despues
               (PantallasAsignaciones.proceso_devolucion s e_id))
          = <[n := Implemento.con_stock impl
                     (Implemento.stock impl + Asignacion.unidades a)]>
              (inventario s)
          ∧ inventario
              (PantallasAsignaciones.despues
                 (PantallasAsignaciones.proceso_cancelacion s e_id))
            = <[n := Implemento.con_stock impl
                       (Implemento.stock impl + Asignacion.unidades a)]>
                (inventario s))
       ∧ (Implemento.stock impl + Asignacion.unidades a < 0 ->
          inventario
            (PantallasAsignaciones.despues
               (PantallasAsignaciones.proceso_devolucion s e_id))
          = inventario s
          ∧ inventario
              (PantallasAsignaciones.despues
                 (PantallasAsignaciones.proceso_cancelacion s e_id))
            = inventario s)).
Proof.
  intros Hb Ha. split.
  - intros Hi. by apply cerrar_sin_implemento with k a.
  - intros n impl Hi.
    destruct (proceso_devolucion_hecha s e_id k a n impl Hb Ha Hi) as [Hd1 Hd2].
    destruct (proceso_cancelacion_hecha s e_id k a n impl Hb Ha Hi) as [Hc1 Hc2].
    rewrite Hd2, Hc2. split_and!; try done.
    + intros Hs. unfold inventario. simpl.
      by rewrite ajustar_stock_acepta.
    + intros Hs. unfold inventario. simpl.
      rewrite ajustar_stock_rechaza by done. simpl.
      destruct (buscar_por_id_lookup _ _ _ _ Hi) as [Hn _].
      by rewrite !list_insert_id.
Qed.

Lemma cerrar_asignacion_correcto_testigo :
  PantallasAsignaciones.proceso_devolucion sistema_huerfano "A5"
  = PantallasAsignaciones.Fin ErrorAlProcesarDevolucion [] sistema_huerfano
  ∧ PantallasAsignaciones.proceso_cancelacion sistema_huerfano "A5"
    = PantallasAsignaciones.Fin ErrorAlCancelar [] sistema_huerfano
  ∧ inventario
      (PantallasAsignaciones.despues
         (PantallasAsignaciones.proceso_devolucion sistema_con_a1 "A1"))
    = [taladro]
  ∧ asignaciones
      (PantallasAsignaciones.despues
         (PantallasAsignaciones.proceso_cancelacion sistema_con_a1 "A1"))
    = [Asignacion.Mk "A1" "M1" "T1" 3 "2025-01-01" "2025-01-10" "cancelado"].
Proof.
  destruct (cerrar_asignacion_correcto sistema_huerfano "A5" 0%nat
              (Asignacion.Mk "A5" "M1" "T9" 2 "2025-01-01" "2025-01-10" "activo")
              eq_refl eq_refl) as [Hsin _].
  destruct (cerrar_asignacion_correcto sistema_con_a1 "A1" 0%nat
              (Asignacion.Mk "A1" "M1" "T1" 3 "2025-01-01" "2025-01-10" "activo")
              eq_refl eq_refl) as [_ Hcon].
  destruct (Hcon 0%nat (Implemento.con_stock taladro 2) eq_refl)
    as ((_ & _ & _ & Hest) & Hinc & _).
  destruct Hinc as [Hdev _]; [simpl; lia|].
  destruct (Hsin eq_refl) as [H1 H2].
  split_and!; [exact H1 | exact H2 | exact Hdev | exact Hest].
Defined.

(** C7 as stated fails: after the stock of T1 has been edited to -10, the
    return of the active assignment A1 (3 units of T1, which exists) is
    reported as processed and sets the status to "devuelto", but the stock
    of T1 is still -10, not -10 + 3. *)
Lemma devolucion_sin_incremento :
  rtc paso sistema0 sistema_editado
  ∧ GestorAsignaciones.buscar (PantallasAsignaciones.gestor sistema_editado) "A1"
    = Some (0%nat, Asignacion.Mk "A1" "M1" "T1" 3 "2025-01-01" "2025-01-10" "activo")
  ∧ AdministradorImplementos.buscar_por_id
      (PantallasAsignaciones.admin_impl sistema_editado) "T1"
    = Some (0%nat, Implemento.con_stock taladro (-10))
  ∧ PantallasAsignaciones.impreso
      (PantallasAsignaciones.proceso_devolucion sistema_editado "A1")
    = DevolucionProcesada
  ∧ Asignacion.estado
      <$> asignaciones
            (PantallasAsignaciones.despues
               (PantallasAsignaciones.proceso_devolucion sistema_editado "A1"))
    = ["devuelto"%string]
  ∧ Implemento.stock
      <$> inventario
            (PantallasAsignaciones.despues
               (PantallasAsignaciones.proceso_devolucion sistema_editado "A1"))
    = [-10]
  ∧ -10 ≠ -10 + 3.
Proof.
  split_and!; try reflexivity; [|lia].
  eapply rtc_l; [apply paso_de_prestamo, paso_creacion|].
  eapply rtc_l; [apply paso_modificacion|]. apply rtc_refl.
Qed.

(** ** What one procedure of the assignment screens changes *)

(** The list of assignments after one procedure: unchanged, or one active
    assignment with validated dates appended, or the status of one active
    assignment replaced, or the due date of one active assignment replaced
    by a validated date. *)
Lemma asignaciones_tras_paso (s s' : Sistema) :
  paso_prestamo s s' ->
  asignaciones s' = asignaciones s
  ∨ (∃ a, asignaciones s' = asignaciones s ++ [a]
          ∧ Asignacion.estado a = "activo"%string
          ∧ Utilidades.validar_fecha (Asignacion.fecha_salida a) = true
          ∧ Utilidades.validar_fecha (Asignacion.fecha_retorno a) = true)
  ∨ (∃ k a e, asignaciones s !! k = Some a
              ∧ Asignacion.estado a = "activo"%string
              ∧ asignaciones s' = <[k := Asignacion.con_estado a e]> (asignaciones s))
  ∨ (∃ k a f, asignaciones s !! k = Some a
              ∧ Asignacion.estado a = "activo"%string
              ∧ Utilidades.validar_fecha f = true
              ∧ asignaciones s'
                = <[k := Asignacion.con_fecha_retorno a f]> (asignaciones s)).
Proof.
  intros Hpaso. destruct Hpaso.
  - desarmar_creacion ltac:(by left).
    right; left. eexists. split; [reflexivity|]. simpl.
    match goal with H : orb _ _ = false |- _ =>
      apply orb_false_iff in H as [Hv1 Hv2];
      apply negb_false_iff in Hv1, Hv2 end.
    done.
  - desarmar; try (by left). right; right; left.
    match goal with H : GestorAsignaciones.buscar _ _ = Some _ |- _ =>
      apply buscar_lookup in H as [Hk _] end.
    match goal with H : negb _ = false |- _ => apply estado_activo_dec in H end.
    by eexists _, _, _.
  - desarmar; try (by left). right; right; left.
    match goal with H : GestorAsignaciones.buscar _ _ = Some _ |- _ =>
      apply buscar_lookup in H as [Hk _] end.
    match goal with H : negb _ = false |- _ => apply estado_activo_dec in H end.
    by eexists _, _, _.
  - desarmar; try (by left). right; right; right.
    match goal with H : GestorAsignaciones.buscar _ _ = Some _ |- _ =>
      apply buscar_lookup in H as [Hk _] end.
    match goal with H : negb (String.eqb _ _) = false |- _ =>
      apply estado_activo_dec in H end.
    match goal with H : negb (Utilidades.validar_fecha _) = false |- _ =>
      apply negb_false_iff in H end.
    by eexists _, _, _.
Qed.

(** The inventory after one procedure: unchanged, or one implement replaced
    by what [ajustar_stock] makes of it. *)
Lemma inventario_tras_paso (s s' : Sistema) :
  paso_prestamo s s' ->
  inventario s' = inventario s
  ∨ ∃ n impl delta,
      inventario s !! n = Some impl
      ∧ inventario s' = <[n := (Implemento.ajustar_stock impl delta).2]> (inventario s).
Proof.
  intros Hpaso. destruct Hpaso.
  - desarmar_creacion ltac:(by left).
    right.
    match goal with H : AdministradorImplementos.buscar_por_id _ _ = Some _ |- _ =>
      apply buscar_por_id_lookup in H as [Hn _] end.
    by eexists _, _, _.
  - desarmar; try (by left). right.
    match goal with H : AdministradorImplementos.buscar_por_id _ _ = Some _ |- _ =>
      apply buscar_por_id_lookup in H as [Hn _] end.
    by eexists _, _, _.
  - desarmar; try (by left). right.
    match goal with H : AdministradorImplementos.buscar_por_id _ _ = Some _ |- _ =>
      apply buscar_por_id_lookup in H as [Hn _] end.
    by eexists _, _, _.
  - desarmar; by left.
Qed.

(** ** Assignments that are no longer active *)

Lemma paso_respeta_no_activa (s s' : Sistema) (k : nat) (a : Asignacion.t) :
  paso_prestamo s s' ->
  asignaciones s !! k = Some a ->
  Asignacion.estado a ≠ "activo"%string ->
  asignaciones s' !! k = Some a.
Proof.
  intros Hp Hk Ha.
  destruct (asignaciones_tras_paso _ _ Hp)
    as [-> | [(b & -> & _) | [(k' & a' & e & Hk' & Ha' & ->)
                             | (k' & a' & f & Hk' & Ha' & _ & ->)]]].
  - done.
  - by apply lookup_app_l_Some.
  - rewrite list_lookup_insert_ne; [done|]. intros <-. congruence.
  - rewrite list_lookup_insert_ne; [done|]. intros <-. congruence.
Qed.

(** C8. An assignment whose status is not "activo" is never changed again
    by the procedures of the assignment screens (creation, return,
    cancellation, extension), in any number and order and on any input: it
    stays at its place in the list with the same status, the same dates and
    the same other fields, so it never becomes active again. The queries
    are functions of the list and change nothing. *)
Theorem no_activa_inmutable (s s' : Sistema) (k : nat) (a : Asignacion.t) :
  rtc paso_prestamo s s' ->
  asignaciones s !! k = Some a ->
  Asignacion.estado a ≠ "activo"%string ->
  asignaciones s' !! k = Some a.
Proof.
  induction 1 as [s | s s1 s' Hp _ IH]; intros Hk Ha; [done|].
  apply IH; [|done]. by eapply paso_respeta_no_activa.
Qed.

Lemma no_activa_inmutable_testigo :
  asignaciones
    (PantallasAsignaciones.despues
       (PantallasAsignaciones.proceso_extension
          (PantallasAsignaciones.despues
             (PantallasAsignaciones.proceso_cancelacion
                (PantallasAsignaciones.despues
                   (PantallasAsignaciones.proceso_devolucion sistema_devuelto "A1"))
                "A1"))
          "A1" "2030-01-01"))
  !! 0%nat
  = Some a1_devuelta.
Proof.
  apply (no_activa_inmutable sistema_devuelto).
  - eapply rtc_l; [apply paso_devolucion|].
    eapply rtc_l; [apply paso_cancelacion|].
    eapply rtc_l; [apply paso_extension|].
    apply rtc_refl.
  - reflexivity.
  - simpl. discriminate.
Defined.

(** ** Stock and the procedures that change it *)

Lemma stock_no_negativo_paso (s s' : Sistema) :
  paso_prestamo s s' -> stock_no_negativo s -> stock_no_negativo s'.
Proof.
  intros Hp Hs. unfold stock_no_negativo in *.
  destruct (inventario_tras_paso _ _ Hp) as [-> | (n & impl & delta & Hn & ->)];
    [done|].
  apply Forall_insert; [done|]. apply ajustar_stock_no_negativo.
  by apply (Forall_lookup_1 _ _ _ _ Hs Hn).
Qed.

(** C1 (amended). The procedures of the assignment screens change the
    inventory only by replacing one implement by the result of
    [ajustar_stock] on it; [ajustar_stock] refuses every delta that would
    make the stock negative and then changes nothing; so from a state where
    every stock is >= 0, any sequence of creations, returns, cancellations
    and extensions leads to a state where every stock is >= 0. *)
Theorem prestamos_conservan_stock_no_negativo :
  (∀ s s' : Sistema,
     paso_prestamo s s' ->
     inventario s' = inventario s
     ∨ ∃ n impl delta,
         inventario s !! n = Some impl
         ∧ inventario s'
           = <[n := (Implemento.ajustar_stock impl delta).2]> (inventario s))
  ∧ (∀ (i : Implemento.t) (delta : Z),
       Implemento.stock i + delta < 0 ->
       Implemento.ajustar_stock i delta = (false, i))
  ∧ (∀ s s' : Sistema,
       rtc paso_prestamo s s' -> stock_no_negativo s -> stock_no_negativo s').
Proof.
  split_and!.
  - apply inventario_tras_paso.
  - apply ajustar_stock_rechaza.
  - induction 1 as [s | s s1 s' Hp _ IH]; intros Hs; [done|].
    apply IH. by eapply stock_no_negativo_paso.
Qed.

Lemma prestamos_conservan_stock_no_negativo_testigo :
  stock_no_negativo
    (PantallasAsignaciones.despues
       (PantallasAsignaciones.proceso_devolucion
          (PantallasAsignaciones.despues
             (PantallasAsignaciones.proceso_creacion
                sistema0 "A1" "M1" "T1" "5" "2025-01-01" "2025-01-10"))
          "A1"))
  ∧ Implemento.ajustar_stock taladro (-6) = (false, taladro).
Proof.
  destruct prestamos_conservan_stock_no_negativo as (_ & Hrej & Hinv).
  split.
  - apply (Hinv sistema0).
    + eapply rtc_l; [apply paso_creacion|].
      eapply rtc_l; [apply paso_devolucion|].
      apply rtc_refl.
    + apply Forall_singleton. simpl. lia.
  - apply Hrej. simpl. lia.
Defined.

(** C1 as stated fails: one run of the modification procedure takes the
    stock of T1 from 5 to -1. The change is an assignment to the field, not
    a call of [ajustar_stock], which refuses the delta -6 on a stock of 5. *)
Lemma modificacion_deja_stock_negativo :
  stock_no_negativo sistema0
  ∧ paso sistema0 sistema_negativo
  ∧ inventario sistema_negativo = [Implemento.con_stock taladro (-1)]
  ∧ ¬ stock_no_negativo sistema_negativo
  ∧ Implemento.ajustar_stock taladro (-1 - 5) = (false, taladro).
Proof.
  split_and!.
  - apply Forall_singleton. simpl. lia.
  - apply paso_modificacion.
  - reflexivity.
  - intros H. unfold stock_no_negativo in H.
    change (inventario sistema_negativo)
      with [Implemento.con_stock taladro (-1)] in H.
    rewrite Forall_singleton in H. cbv in H. by apply H.
  - reflexivity.
Qed.

(** ** Stored dates and the overdue listing *)

Lemma fechas_validas_paso (s s' : Sistema) :
  paso_prestamo s s' -> fechas_validas s -> fechas_validas s'.
Proof.
  intros Hp Hs. unfold fechas_validas in *.
  destruct (asignaciones_tras_paso _ _ Hp)
    as [-> | [(b & -> & _ & Hb1 & Hb2) | [(k & a & e & Hk & _ & ->)
                                        | (k & a & f & Hk & _ & Hf & ->)]]].
  - done.
  - apply Forall_app. split; [done|]. by apply Forall_singleton.
  - apply Forall_insert; [done|]. simpl.
    apply (Forall_lookup_1 _ _ _ _ Hs Hk).
  - apply Forall_insert; [done|]. simpl. split; [|done].
    apply (Forall_lookup_1 _ _ _ _ Hs Hk).
Qed.

Lemma esta_vencido_no_lanza (hoy : string) (a : Asignacion.t) :
  Utilidades.validar_fecha hoy = true ->
  Utilidades.validar_fecha (Asignacion.fecha_retorno a) = true ->
  is_Some (Asignacion.esta_vencido hoy a).
Proof.
  intros Hh Ha. apply validar_fecha_true in Hh as [h Hh].
  apply validar_fecha_true in Ha as [d Hd].
  unfold Asignacion.esta_vencido. case_match; [by eexists|].
  destruct (comparar_fechas_signo _ _ _ _ Hh Hd) as (c & -> & _).
  by eexists.
Qed.

Lemma vencidas_no_lanza (hoy : string) (l : list Asignacion.t) :
  Utilidades.validar_fecha hoy = true ->
  Forall (λ a, Utilidades.validar_fecha (Asignacion.fecha_salida a) = true
               ∧ Utilidades.validar_fecha (Asignacion.fecha_retorno a) = true) l ->
  is_Some (GestorAsignaciones.vencidas hoy l).
Proof.
  intros Hh. induction 1 as [|a l [_ Ha] _ IH]; [by eexists|].
  simpl. destruct (esta_vencido_no_lanza hoy a Hh Ha) as [v ->].
  destruct IH as [r ->]. by eexists.
Qed.

(** C9 (amended). The dates that a creation or an extension stores have
    passed [validar_fecha]: if both dates of every stored assignment pass
    it, they still do after any sequence of creations, returns,
    cancellations and extensions, and then the overdue listing raises
    nothing, for any reference date that [validar_fecha] accepts. *)
Theorem fechas_validas_conservadas (s s' : Sistema) (hoy : string) :
  rtc paso_prestamo s s' ->
  fechas_validas s ->
  Utilidades.validar_fecha hoy = true ->
  fechas_validas s'
  ∧ is_Some (GestorAsignaciones.obtener_vencidas
               hoy (PantallasAsignaciones.gestor s')).
Proof.
  intros Hrtc Hs Hh.
  assert (Hs' : fechas_validas s').
  { induction Hrtc as [s | s s1 s' Hp _ IH]; [done|].
    apply IH. by eapply fechas_validas_paso. }
  split; [done|]. by apply vencidas_no_lanza.
Qed.

Lemma fechas_validas_conservadas_testigo :
  fechas_validas
    (PantallasAsignaciones.despues
       (PantallasAsignaciones.proceso_extension
          (PantallasAsignaciones.despues
             (PantallasAsignaciones.proceso_creacion
                sistema0 "A1" "M1" "T1" "3" "2025-01-01" "2025-01-10"))
          "A1" "2025-01-20"))
  ∧ is_Some
      (GestorAsignaciones.obtener_vencidas "2025-02-01"
         (PantallasAsignaciones.gestor
            (PantallasAsignaciones.despues
               (PantallasAsignaciones.proceso_extension
                  (PantallasAsignaciones.despues
                     (PantallasAsignaciones.proceso_creacion
                        sistema0 "A1" "M1" "T1" "3" "2025-01-01" "2025-01-10"))
                  "A1" "2025-01-20")))).
Proof.
  apply (fechas_validas_conservadas sistema0).
  - eapply rtc_l; [apply paso_creacion|].
    eapply rtc_l; [apply paso_extension|].
    apply rtc_refl.
  - apply Forall_nil_2.
  - reflexivity.
Defined.

(** C9 as stated fails: [_cargar] keeps a line of seven fields whose
    quantity is an integer whatever its date fields are, here "ayer" and
    "luego", which [validar_fecha] refuses; the overdue listing over the
    loaded collection then raises [ValueError]. *)
Lemma cargar_no_valida_fechas :
  GestorAsignaciones.lista
    (GestorAsignaciones._cargar ["A1,M1,T1,3,ayer,luego,activo"%string])
  = [Asignacion.Mk "A1" "M1" "T1" 3 "ayer" "luego" "activo"]
  ∧ Utilidades.validar_fecha "ayer" = false
  ∧ Utilidades.validar_fecha "luego" = false
  ∧ Asignacion.esta_vencido "2025-02-01"
      (Asignacion.Mk "A1" "M1" "T1" 3 "ayer" "luego" "activo")
    = None
  ∧ GestorAsignaciones.obtener_vencidas "2025-02-01"
      (GestorAsignaciones._cargar ["A1,M1,T1,3,ayer,luego,activo"%string])
    = None.
Proof. split_and!; reflexivity. Qed.

(** ** Examples *)

(** [strptime] with ["%Y-%m-%d"] does not require two digits for the month
    and the day. *)
Example validar_fecha_sin_ceros :
  Utilidades.validar_fecha "2025-1-5" = true
  ∧ Strptime.strptime "2025-1-5" = Some (MkFecha 2025 1 5).
Proof. split; reflexivity. Qed.

Example strptime_ejemplos :
  Strptime.strptime "2025-01-15" = Some (MkFecha 2025 1 15)
  ∧ Strptime.strptime "2024-02-29" = Some (MkFecha 2024 2 29)
  ∧ Strptime.strptime "2025-02-29" = None
  ∧ Strptime.strptime "2025-13-01" = None
  ∧ Strptime.strptime "2025-01-311" = None
  ∧ Strptime.strptime "0000-01-01" = None
  ∧ Strptime.strptime "15/01/2025" = None.
Proof. split_and!; reflexivity. Qed.

Example int_ejemplos :
  Py.int " -12 " = Some (-12)
  ∧ Py.int "1_000" = Some 1000
  ∧ Py.int "1__0" = None
  ∧ Py.int "tres" = None
  ∧ Py.int EmptyString = None.
Proof. split_and!; reflexivity. Qed.

(** [int] skips fewer characters than [str.strip] removes: a separator of
    characters 28 to 31 around the digits, or a blank behind the sign, makes
    the text no number. [proceso_creacion], which hands the typed line to
    [int] as it is, then asks for a number and changes nothing. *)
Example int_blancos_ejemplos :
  Py.strip (String "028" "5") = "5"%string
  ∧ Py.int (String "028" "5") = None
  ∧ Py.int (String "5" (String "031" EmptyString)) = None
  ∧ Py.int (String "009" "5 ") = Some 5
  ∧ Py.int "- 5" = None
  ∧ Py.cifras " +1_0 " = 2%nat
  ∧ PantallasAsignaciones.proceso_creacion
      sistema0 "A1" "M1" "T1" (String "028" "0") "2025-01-01" "2025-01-10"
    = PantallasAsignaciones.Fin DebeIngresarNumero [] sistema0
  ∧ PantallasAsignaciones.proceso_creacion
      sistema0 "A1" "M1" "T1" (String "028" "3") "2025-01-01" "2025-01-10"
    = PantallasAsignaciones.Fin DebeIngresarNumero [] sistema0.
Proof. split_and!; reflexivity. Qed.

Example split_strip_ejemplos :
  Py.split "," "a,b,,c" = ["a"; "b"; EmptyString; "c"]%string
  ∧ Py.strip "  a b  " = "a b"%string.
Proof. split; reflexivity. Qed.

(** The scenario of the specification: T1 has 5 units; A1 takes 3, a second
    request for 3 is refused, A1 is returned, and a second return of A1 is
    refused. *)
Example escenario_prestamo :
  inventario
    (PantallasAsignaciones.despues
       (PantallasAsignaciones.proceso_creacion
          sistema0 "A1" "M1" "T1" "3" "2025-01-01" "2025-01-10"))
  = [Implemento.con_stock taladro 2]
  ∧ PantallasAsignaciones.proceso_creacion
      sistema_con_a1 "A2" "M1" "T1" "3" "2025-01-01" "2025-01-10"
    = PantallasAsignaciones.Fin
        (StockInsuficiente 2)
        [Fallo "Stock insuficiente: Taladro - Solicitado: 3, Disponible: 2"]
        sistema_con_a1
  ∧ inventario
      (PantallasAsignaciones.despues
         (PantallasAsignaciones.proceso_devolucion sistema_con_a1 "A1"))
    = [taladro]
  ∧ PantallasAsignaciones.proceso_devolucion sistema_devuelto "A1"
    = PantallasAsignaciones.Fin NoEncontradaOYaProcesada [] sistema_devuelto.
Proof. split_and!; reflexivity. Qed.

(** * Further properties *)

(** ** Strings *)

Lemma append_cons (x : ascii) (a b : string) :
  String x a +:+ b = String x (a +:+ b).
Proof. reflexivity. Qed.

Lemma append_nil_l (b : string) : EmptyString +:+ b = b.
Proof. reflexivity. Qed.

Lemma append_assoc (a b c : string) : (a +:+ b) +:+ c = a +:+ (b +:+ c).
Proof.
  induction a as [|x a IH]; [done|]. rewrite !append_cons. by f_equal.
Qed.

Lemma contiene_append (c : ascii) (a b : string) :
  Py.contiene c (a +:+ b) = Py.contiene c a || Py.contiene c b.
Proof.
  induction a as [|x a IH]; [done|]. rewrite append_cons. simpl.
  rewrite IH. by rewrite orb_assoc.
Qed.

Lemma length_lstrip (s : string) : (String.length (Py.lstrip s) <= String.length s)%nat.
Proof.
  induction s as [|c s IH]; [done|]. simpl. case_match; simpl; lia.
Qed.

(** A string that [lstrip] leaves alone, followed by anything that does
    not start with a blank. *)
Lemma lstrip_fijo (s r : string) :
  Py.lstrip s = s ->
  match r with String c _ => Py.es_espacio c = false | EmptyString => True end ->
  Py.lstrip (s +:+ r) = s +:+ r.
Proof.
  destruct s as [|c s].
  - intros _. rewrite append_nil_l. destruct r as [|d r]; [done|].
    simpl. by intros ->.
  - rewrite append_cons. simpl. intros H _.
    destruct (Py.es_espacio c) eqn:E; [|done].
    pose proof (length_lstrip s) as Hl. rewrite H in Hl. simpl in Hl. lia.
Qed.

(** [rstrip] of a concatenation. *)
Lemma rstrip_append (s t : string) :
  Py.rstrip (s +:+ t)
  = match Py.rstrip t with
    | EmptyString => Py.rstrip s
    | t' => s +:+ t'
    end.
Proof.
  induction s as [|c s IH].
  - rewrite append_nil_l. by destruct (Py.rstrip t).
  - rewrite append_cons. simpl. rewrite IH.
    destruct (Py.rstrip t) as [|d t'] eqn:Et; [done|].
    by destruct s.
Qed.

(** Splitting at a separator that the first piece does not contain. *)
Lemma split_append (sep : ascii) (x r : string) :
  Py.contiene sep x = false ->
  Py.split sep (x +:+ String sep r) = x :: Py.split sep r.
Proof.
  induction x as [|c x IH].
  - intros _. rewrite append_nil_l. simpl. by rewrite Ascii.eqb_refl.
  - rewrite append_cons. simpl. intros H.
    apply orb_false_iff in H as [Hc Hx]. by rewrite Hc, (IH Hx).
Qed.

Lemma split_sin_separador (sep : ascii) (x : string) :
  Py.contiene sep x = false -> Py.split sep x = [x].
Proof.
  induction x as [|c x IH]; simpl; [done|].
  intros H. apply orb_false_iff in H as [Hc Hx]. by rewrite Hc, (IH Hx).
Qed.

(** The lines of a file that starts with a line without line ends, closed
    by a line feed. *)
Lemma lineas_append (l resto : string) :
  Py.contiene Py.LF l = false -> Py.contiene Py.CR l = false ->
  Archivo.lineas (l +:+ String Py.LF resto)
  = (l +:+ String Py.LF EmptyString) :: Archivo.lineas resto.
Proof.
  induction l as [|c l IH].
  - intros _ _. rewrite !append_nil_l. reflexivity.
  - rewrite !append_cons. simpl. intros H1 H2.
    apply orb_false_iff in H1 as [Hc1 Hl1].
    apply orb_false_iff in H2 as [Hc2 Hl2].
    by rewrite Hc1, Hc2, (IH Hl1 Hl2).
Qed.

Lemma saltar_blancos_no_blanco (c : ascii) (r : string) :
  Py.es_blanco_int c = false -> Py.saltar_blancos (String c r) = String c r.
Proof. intros H. simpl. by rewrite H. Qed.

(** The blanks behind a literal: nothing goes when the text holds no
    blank. *)
Lemma quitar_blancos_finales_sin_blancos (s : string) :
  (∀ c, Py.es_blanco_int c = true -> Py.contiene c s = false) ->
  Py.quitar_blancos_finales s = s.
Proof.
  induction s as [|d s IH]; [done|]. intros H. simpl.
  assert (Hd : Py.es_blanco_int d = false).
  { destruct (Py.es_blanco_int d) eqn:E; [|done].
    specialize (H d E). simpl in H. by rewrite Ascii.eqb_refl in H. }
  rewrite IH.
  - destruct s; [by rewrite Hd | done].
  - intros c Hc. specialize (H c Hc). simpl in H.
    by apply orb_false_iff in H as [_ H].
Qed.

Lemma blancos_int_sin_blancos (s : string) :
  (∀ c, Py.es_blanco_int c = true -> Py.contiene c s = false) ->
  Py.quitar_blancos_finales (Py.saltar_blancos s) = s.
Proof.
  intros H.
  assert (Hl : Py.saltar_blancos s = s).
  { destruct s as [|d s]; [done|]. apply saltar_blancos_no_blanco.
    destruct (Py.es_blanco_int d) eqn:E; [|done].
    specialize (H d E). simpl in H. by rewrite Ascii.eqb_refl in H. }
  rewrite Hl. by apply quitar_blancos_finales_sin_blancos.
Qed.

(** ** Decimal text of an integer *)

(** The text of a sequence of decimal digits holds nothing but digits. *)
Lemma contiene_string_of_uint (c : ascii) (d : Decimal.uint) :
  Py.es_digito c = false ->
  Py.contiene c (NilEmpty.string_of_uint d) = false.
Proof.
  intros Hc. induction d as [|d IH|d IH|d IH|d IH|d IH|d IH|d IH|d IH|d IH|d IH];
    [done|..]; cbn [NilEmpty.string_of_uint Py.contiene];
    rewrite IH, orb_false_r;
    apply Ascii.eqb_neq; intros <-; by vm_compute in Hc.
Qed.

Lemma digitos_acumulado (d : Decimal.uint) (p : positive) :
  Py.digitos (NilEmpty.string_of_uint d) (Z.pos p) true
  = Some (Z.pos (Pos.of_uint_acc d p)).
Proof.
  revert p.
  induction d as [|d IH|d IH|d IH|d IH|d IH|d IH|d IH|d IH|d IH|d IH];
    intros p; [done|..]; simpl NilEmpty.string_of_uint;
    cbn [Py.digitos Pos.of_uint_acc];
    match goal with
    | |- context [Py.es_digito ?c] => change (Py.es_digito c) with true
    end; cbv iota;
    match goal with
    | |- Py.digitos _ ?acc true = Some (Z.pos (Pos.of_uint_acc _ ?q)) =>
        replace acc with (Z.pos q)
          by (match goal with
              | |- context [Py.valor_digito ?c] =>
                  let v := eval vm_compute in (Py.valor_digito c) in
                  change (Py.valor_digito c) with v
              end; lia)
    end; apply IH.
Qed.

Lemma digitos_desde_cero (d : Decimal.uint) (b : bool) :
  d ≠ Decimal.Nil ∨ b = true ->
  Py.digitos (NilEmpty.string_of_uint d) 0 b = Some (Z.of_N (Pos.of_uint d)).
Proof.
  revert b.
  induction d as [|d IH|d IH|d IH|d IH|d IH|d IH|d IH|d IH|d IH|d IH];
    intros b Hb.
  - destruct Hb as [Hb | ->]; [done|reflexivity].
  - simpl NilEmpty.string_of_uint. cbn [Py.digitos Pos.of_uint].
    change (Py.es_digito "0") with true. cbv iota.
    change (10 * 0 + Py.valor_digito "0") with 0. apply IH. by right.
  - exact (digitos_acumulado d 1).
  - exact (digitos_acumulado d 2).
  - exact (digitos_acumulado d 3).
  - exact (digitos_acumulado d 4).
  - exact (digitos_acumulado d 5).
  - exact (digitos_acumulado d 6).
  - exact (digitos_acumulado d 7).
  - exact (digitos_acumulado d 8).
  - exact (digitos_acumulado d 9).
Qed.

Lemma digitos_to_uint (p : positive) :
  Py.digitos (NilEmpty.string_of_uint (Pos.to_uint p)) 0 false = Some (Z.pos p).
Proof.
  rewrite digitos_desde_cero by (left; apply DecimalPos.Unsigned.to_uint_nonnil).
  by rewrite DecimalPos.Unsigned.of_to.
Qed.

Lemma string_of_uint_to_uint (p : positive) :
  NilZero.string_of_uint (Pos.to_uint p) = NilEmpty.string_of_uint (Pos.to_uint p).
Proof.
  pose proof (DecimalPos.Unsigned.to_uint_nonnil p) as H.
  by destruct (Pos.to_uint p).
Qed.

(** The characters of [str(z)] are digits and the minus sign. *)
Lemma contiene_str (c : ascii) (z : Z) :
  Py.es_digito c = false -> c ≠ "-"%char -> Py.contiene c (Py.str z) = false.
Proof.
  intros Hc Hm. unfold Py.str. destruct z as [|p|p]; simpl Z.to_int.
  - change (Ascii.eqb "0" c || false = false).
    rewrite orb_false_r. apply Ascii.eqb_neq. intros <-. by vm_compute in Hc.
  - cbn [NilZero.string_of_int]. rewrite string_of_uint_to_uint.
    by apply contiene_string_of_uint.
  - cbn [NilZero.string_of_int]. rewrite string_of_uint_to_uint.
    cbn [Py.contiene].
    rewrite contiene_string_of_uint by done. rewrite orb_false_r.
    apply Ascii.eqb_neq. congruence.
Qed.

(** [int] finds no blank around [str(z)]. *)
Lemma blancos_int_str (z : Z) :
  Py.quitar_blancos_finales (Py.saltar_blancos (Py.str z)) = Py.str z.
Proof.
  apply blancos_int_sin_blancos. intros c Hc. apply contiene_str.
  - destruct c as [[] [] [] [] [] [] [] []];
      first [reflexivity | by vm_compute in Hc].
  - intros ->. by vm_compute in Hc.
Qed.

(** [int(str(z))] is [z]. *)
Lemma int_str (z : Z) : Py.int (Py.str z) = Some z.
Proof.
  unfold Py.int. rewrite blancos_int_str. unfold Py.str.
  destruct z as [|p|p]; simpl Z.to_int.
  - reflexivity.
  - cbn [NilZero.string_of_int]. rewrite string_of_uint_to_uint.
    rewrite <- digitos_to_uint.
    pose proof (DecimalPos.Unsigned.to_uint_nonnil p) as H.
    by destruct (Pos.to_uint p).
  - cbn [NilZero.string_of_int]. rewrite string_of_uint_to_uint.
    cbv iota beta. by rewrite digitos_to_uint.
Qed.

(** ** The flat file of assignments *)

Lemma linea_de_campos (a : Asignacion.t) :
  linea_de a
  = Asignacion.identificador a +:+ "," +:+ Asignacion.codigo_miembro a
    +:+ "," +:+ Asignacion.codigo_implemento a
    +:+ "," +:+ Py.str (Asignacion.unidades a)
    +:+ "," +:+ Asignacion.fecha_salida a
    +:+ "," +:+ Asignacion.fecha_retorno a
    +:+ "," +:+ Asignacion.estado a.
Proof. reflexivity. Qed.

Lemma rstrip_cons_no_blanco (c : ascii) (t : string) :
  Py.es_espacio c = false -> Py.rstrip (String c t) = String c (Py.rstrip t).
Proof. intros H. simpl. destruct (Py.rstrip t); [by rewrite H | done]. Qed.

(** [rstrip] goes through a field followed by a comma. *)
Lemma rstrip_campo (f t : string) :
  Py.rstrip (f +:+ String "," t) = f +:+ String "," (Py.rstrip t).
Proof.
  rewrite rstrip_append. by rewrite (rstrip_cons_no_blanco "," t).
Qed.

Lemma strip_linea (f0 f1 f2 f3 f4 f5 f6 : string) :
  Py.lstrip f0 = f0 -> Py.rstrip f6 = f6 ->
  Py.strip ((f0 +:+ "," +:+ f1 +:+ "," +:+ f2 +:+ "," +:+ f3 +:+ ","
             +:+ f4 +:+ "," +:+ f5 +:+ "," +:+ f6)
            +:+ String Py.LF EmptyString)
  = f0 +:+ "," +:+ f1 +:+ "," +:+ f2 +:+ "," +:+ f3 +:+ ","
    +:+ f4 +:+ "," +:+ f5 +:+ "," +:+ f6.
Proof.
  intros H0 H6. unfold Py.strip.
  rewrite !append_assoc, !append_cons, !append_nil_l.
  rewrite lstrip_fijo by done.
  rewrite !rstrip_campo. do 6 f_equal.
  rewrite rstrip_append. by rewrite H6.
Qed.

Lemma split_linea (f0 f1 f2 f3 f4 f5 f6 : string) :
  Forall (λ f, Py.contiene "," f = false) [f0; f1; f2; f3; f4; f5; f6] ->
  Py.split ","
    (f0 +:+ "," +:+ f1 +:+ "," +:+ f2 +:+ "," +:+ f3 +:+ ","
     +:+ f4 +:+ "," +:+ f5 +:+ "," +:+ f6)
  = [f0; f1; f2; f3; f4; f5; f6].
Proof.
  intros H. repeat (apply Forall_cons in H as [? H]).
  rewrite !append_cons, !append_nil_l.
  rewrite !split_append by done. by rewrite split_sin_separador.
Qed.

(** The loader reads back the line written for a record that is fit for
    the file. *)
Lemma cargar_linea_persistida (g : GestorAsignaciones.t) (a : Asignacion.t) :
  persistible a ->
  GestorAsignaciones.cargar_linea g (linea_de a +:+ String Py.LF EmptyString)
  = GestorAsignaciones.Mk
      (GestorAsignaciones.lista g ++ [a])
      ({[Asignacion.identificador a]} ∪ GestorAsignaciones.ids_usados g).
Proof.
  intros (Ht & Hid & Hest). unfold GestorAsignaciones.cargar_linea.
  rewrite linea_de_campos, strip_linea by done.
  unfold textos in Ht. repeat (apply Forall_cons in Ht as [[? _] Ht]).
  rewrite split_linea.
  - rewrite int_str. by destruct a.
  - repeat (apply Forall_cons; split; [done|]).
    apply Forall_cons; split; [by apply contiene_str|].
    repeat (apply Forall_cons; split; [done|]). apply Forall_nil_2.
Qed.

Lemma contiene_linea_de (c : ascii) (a : Asignacion.t) :
  Py.es_digito c = false -> c ≠ "-"%char -> c ≠ ","%char ->
  Forall (λ f, Py.contiene c f = false) (textos a) ->
  Py.contiene c (linea_de a) = false.
Proof.
  intros Hd Hm Hc Ht. rewrite linea_de_campos.
  unfold textos in Ht. repeat (apply Forall_cons in Ht as [? Ht]).
  assert (Hcoma : Py.contiene c "," = false).
  { cbn [Py.contiene]. rewrite orb_false_r. apply Ascii.eqb_neq. congruence. }
  rewrite !contiene_append, Hcoma, contiene_str by done.
  by repeat match goal with H : Py.contiene c _ = false |- _ => rewrite H; clear H end.
Qed.

Lemma cargar_contenido (l : list Asignacion.t) (g : GestorAsignaciones.t) :
  Forall persistible l ->
  foldl GestorAsignaciones.cargar_linea g
    (Archivo.lineas
       (RepositorioBase.contenido_txt
          (Asignacion.a_diccionario <$> l) GestorAsignaciones.campos))
  = GestorAsignaciones.Mk
      (GestorAsignaciones.lista g ++ l)
      (list_to_set (Asignacion.identificador <$> l)
       ∪ GestorAsignaciones.ids_usados g).
Proof.
  revert g. induction l as [|a l IH]; intros g Hl.
  - simpl. rewrite app_nil_r, (left_id_L ∅ (∪)). by destruct g.
  - apply Forall_cons in Hl as [Ha Hl].
    cbn [fmap list_fmap RepositorioBase.contenido_txt].
    change (RepositorioBase.linea_txt (Asignacion.a_diccionario a)
              GestorAsignaciones.campos) with (linea_de a).
    rewrite append_cons, append_nil_l.
    destruct Ha as (Ht & Hid & Hest).
    rewrite lineas_append.
    + cbn [foldl]. rewrite cargar_linea_persistida by done.
      rewrite IH by done. cbn [GestorAsignaciones.lista GestorAsignaciones.ids_usados].
      rewrite <- app_assoc. f_equal.
      cbn [list_to_set foldr]. by rewrite (assoc_L (∪)), (comm_L (∪) _ {[_]}).
    + apply contiene_linea_de; [done..|].
      eapply Forall_impl; [exact Ht|]. by intros f (_ & ? & _).
    + apply contiene_linea_de; [done..|].
      eapply Forall_impl; [exact Ht|]. by intros f (_ & _ & ?).
Qed.

(** X1. Loading the flat file that [persistir] wrote gives back the same
    assignments in the same order, and as used ids exactly their ids,
    provided that every stored assignment is fit for the file: no comma
    and no line end in its text fields, no blank in front of its id and no
    blank behind its status. *)
Theorem persistir_cargar_ida_vuelta (g : GestorAsignaciones.t) :
  Forall persistible (GestorAsignaciones.lista g) ->
  GestorAsignaciones._cargar (Archivo.lineas (GestorAsignaciones.persistir g))
  = GestorAsignaciones.Mk
      (GestorAsignaciones.lista g)
      (list_to_set (Asignacion.identificador <$> GestorAsignaciones.lista g)).
Proof.
  intros H. unfold GestorAsignaciones._cargar, GestorAsignaciones.persistir.
  rewrite cargar_contenido by done. simpl. by rewrite (right_id_L ∅ (∪)).
Qed.

Lemma persistir_cargar_ida_vuelta_testigo :
  GestorAsignaciones.lista
    (GestorAsignaciones._cargar
       (Archivo.lineas
          (GestorAsignaciones.persistir
             (GestorAsignaciones.Mk
                [Asignacion.Mk "A1" "M1" "T1" 3 "2025-01-01" "2025-01-10" "activo";
                 Asignacion.Mk "A2" "M1" "T1" (-12) "hoy" EmptyString "devuelto"]
                ∅))))
  = [Asignacion.Mk "A1" "M1" "T1" 3 "2025-01-01" "2025-01-10" "activo";
     Asignacion.Mk "A2" "M1" "T1" (-12) "hoy" EmptyString "devuelto"].
Proof.
  rewrite persistir_cargar_ida_vuelta; [reflexivity|].
  repeat (apply Forall_cons; split;
          [split_and!; [|reflexivity..];
           repeat (apply Forall_cons; split; [by split_and!|]);
           apply Forall_nil_2|]).
  apply Forall_nil_2.
Defined.

(** ** Commas in a field *)

Lemma length_split (sep : ascii) (s : string) :
  length (Py.split sep s) = S (Py.count sep s).
Proof.
  induction s as [|c s IH]; [done|]. simpl.
  destruct (Ascii.eqb c sep); simpl; [by rewrite IH|].
  destruct (Py.split sep s); simpl in *; lia.
Qed.

Lemma count_append (c : ascii) (a b : string) :
  Py.count c (a +:+ b) = (Py.count c a + Py.count c b)%nat.
Proof.
  induction a as [|x a IH]; [done|]. rewrite append_cons. simpl.
  rewrite IH. by destruct (Ascii.eqb x c).
Qed.

Lemma count_contiene (c : ascii) (s : string) :
  Py.contiene c s = true -> (1 <= Py.count c s)%nat.
Proof.
  induction s as [|x s IH]; [done|]. simpl.
  destruct (Ascii.eqb x c); simpl; [lia|]. exact IH.
Qed.

Lemma count_lstrip (c : ascii) (s : string) :
  Py.es_espacio c = false -> Py.count c (Py.lstrip s) = Py.count c s.
Proof.
  intros Hc. induction s as [|x s IH]; [done|]. simpl.
  destruct (Py.es_espacio x) eqn:Ex; [|done]. rewrite IH.
  destruct (Ascii.eqb_spec x c) as [->|]; [congruence|done].
Qed.

Lemma count_rstrip (c : ascii) (s : string) :
  Py.es_espacio c = false -> Py.count c (Py.rstrip s) = Py.count c s.
Proof.
  intros Hc. induction s as [|x s IH]; [done|]. simpl.
  destruct (Py.rstrip s) as [|y r] eqn:Er.
  - rewrite <- IH. destruct (Py.es_espacio x) eqn:Ex; simpl.
    + destruct (Ascii.eqb_spec x c) as [->|]; [congruence|done].
    + by destruct (Ascii.eqb x c).
  - rewrite <- IH. simpl. by destruct (Ascii.eqb x c).
Qed.

Lemma count_strip (c : ascii) (s : string) :
  Py.es_espacio c = false -> Py.count c (Py.strip s) = Py.count c s.
Proof.
  intros Hc. unfold Py.strip. by rewrite count_rstrip, count_lstrip.
Qed.

(** X2. A comma in a text field loses the record: whatever the other
    fields are, the loader skips the line that [persistir] writes for an
    assignment one of whose text fields holds a comma, since the line then
    splits into more than seven parts. *)
Theorem coma_pierde_registro (g : GestorAsignaciones.t) (a : Asignacion.t) :
  Exists (λ f, Py.contiene "," f = true) (textos a) ->
  GestorAsignaciones.cargar_linea g (linea_de a +:+ String Py.LF EmptyString) = g.
Proof.
  intros Hex.
  assert (Hlen : (8 <= length (Py.split ","
                   (Py.strip (linea_de a +:+ String Py.LF EmptyString))))%nat).
  { rewrite length_split, count_strip by done.
    rewrite linea_de_campos, !count_append.
    change (Py.count "," ",") with 1%nat.
    assert (1 <= Py.count "," (Asignacion.identificador a)
                 + Py.count "," (Asignacion.codigo_miembro a)
                 + Py.count "," (Asignacion.codigo_implemento a)
                 + Py.count "," (Asignacion.fecha_salida a)
                 + Py.count "," (Asignacion.fecha_retorno a)
                 + Py.count "," (Asignacion.estado a))%nat; [|lia].
    unfold textos in Hex.
    repeat (apply Exists_cons in Hex as [Hex | Hex];
            [apply count_contiene in Hex; lia|]).
    by apply Exists_nil in Hex. }
  unfold GestorAsignaciones.cargar_linea.
  destruct (Py.split _ _) as [|? [|? [|? [|? [|? [|? [|? [|? ?]]]]]]]];
    simpl in Hlen; first [lia | done].
Qed.

Lemma coma_pierde_registro_testigo :
  GestorAsignaciones._cargar
    (Archivo.lineas
       (GestorAsignaciones.persistir
          (GestorAsignaciones.Mk
             [Asignacion.Mk "A,1" "M1" "T1" 3 "2025-01-01" "2025-01-10" "activo"]
             {["A,1"%string]})))
  = GestorAsignaciones.vacio.
Proof.
  change (GestorAsignaciones.cargar_linea GestorAsignaciones.vacio
            (linea_de (Asignacion.Mk "A,1" "M1" "T1" 3 "2025-01-01" "2025-01-10"
                         "activo") +:+ String Py.LF EmptyString)
          = GestorAsignaciones.vacio).
  apply coma_pierde_registro. apply Exists_cons_hd. reflexivity.
Defined.

(** ** More on lookups *)

Section BusquedaReemplazo.
Context {A : Type} (P : A -> Prop) `{!∀ x, Decision (P x)}.

(** Replacing an object by one that passes the test exactly when the
    old one does: the lookup finds the same position, and there the new
    object if that position is the one replaced. *)
Lemma list_find_insert_igual (l : list A) (k : nat) (x y : A) :
  l !! k = Some x -> (P x <-> P y) ->
  list_find P (<[k := y]> l)
  = (λ r : nat * A, (r.1, if decide (r.1 = k) then y else r.2)) <$> list_find P l.
Proof.
  revert k. induction l as [|z l IH]; intros k Hk Hxy; [done|].
  destruct k as [|k]; simpl in Hk.
  - injection Hk as ->. cbn [list_insert]. simpl.
    repeat case_decide; try tauto; try done.
    destruct (list_find P l) as [[i w]|]; simpl; [|done].
    repeat case_decide; first [done | lia].
  - cbn [list_insert]. simpl. case_decide; [done|].
    rewrite (IH k Hk Hxy).
    destruct (list_find P l) as [[i w]|]; simpl; [|done].
    f_equal. f_equal. repeat case_decide; first [done | lia].
Qed.

Lemma list_find_snoc_otro (l : list A) (y : A) :
  ¬ P y -> list_find P (l ++ [y]) = list_find P l.
Proof.
  intros Hy. destruct (list_find P l) as [[i x]|] eqn:Hf.
  - by apply list_find_app_l.
  - apply list_find_app_None. split; [done|].
    apply list_find_None, Forall_singleton. done.
Qed.
End BusquedaReemplazo.

(** ** Everything one procedure of the assignment screens can do *)

(** A procedure of the assignment screens leaves the managers as they
    were, or registers one active assignment and takes its quantity from
    the stock, or closes one active assignment and hands its quantity to
    [ajustar_stock], or moves the due date of one active assignment to a
    later date. *)
Lemma paso_forma (s s' : Sistema) :
  paso_prestamo s s' ->
  s' = s
  ∨ (∃ n impl a,
       AdministradorImplementos.buscar_por_id
         (PantallasAsignaciones.admin_impl s) (Asignacion.codigo_implemento a)
       = Some (n, impl)
       ∧ (Asignacion.identificador a
          ∉ GestorAsignaciones.ids_usados (PantallasAsignaciones.gestor s))
       ∧ Asignacion.estado a = "activo"%string
       ∧ 0 < Asignacion.unidades a
       ∧ Asignacion.unidades a <= Implemento.stock impl
       ∧ Implemento.condicion impl = "disponible"%string
       ∧ Utilidades.validar_fecha (Asignacion.fecha_salida a) = true
       ∧ Utilidades.validar_fecha (Asignacion.fecha_retorno a) = true
       ∧ s' = PantallasAsignaciones.Mk
                (GestorAsignaciones.Mk
                   (asignaciones s ++ [a])
                   ({[Asignacion.identificador a]}
                    ∪ GestorAsignaciones.ids_usados (PantallasAsignaciones.gestor s)))
                (AdministradorImplementos.con_item
                   (PantallasAsignaciones.admin_impl s) n
                   (Implemento.con_stock impl
                      (Implemento.stock impl - Asignacion.unidades a)))
                (PantallasAsignaciones.ctrl_miembros s))
  ∨ (∃ k a n impl e,
       GestorAsignaciones.buscar
         (PantallasAsignaciones.gestor s) (Asignacion.identificador a)
       = Some (k, a)
       ∧ Asignacion.estado a = "activo"%string
       ∧ (e = "devuelto"%string ∨ e = "cancelado"%string)
       ∧ AdministradorImplementos.buscar_por_id
           (PantallasAsignaciones.admin_impl s) (Asignacion.codigo_implemento a)
         = Some (n, impl)
       ∧ s' = PantallasAsignaciones.Mk
                (GestorAsignaciones.con_asignacion
                   (PantallasAsignaciones.gestor s) k (Asignacion.con_estado a e))
                (AdministradorImplementos.con_item
                   (PantallasAsignaciones.admin_impl s) n
                   (Implemento.ajustar_stock impl (Asignacion.unidades a)).2)
                (PantallasAsignaciones.ctrl_miembros s))
  ∨ (∃ k a f d d',
       GestorAsignaciones.buscar
         (PantallasAsignaciones.gestor s) (Asignacion.identificador a)
       = Some (k, a)
       ∧ Asignacion.estado a = "activo"%string
       ∧ Strptime.strptime (Asignacion.fecha_retorno a) = Some d
       ∧ Strptime.strptime f = Some d'
       ∧ fecha_anterior d d'
       ∧ s' = PantallasAsignaciones.con_gestor s
                (GestorAsignaciones.con_asignacion
                   (PantallasAsignaciones.gestor s) k
                   (Asignacion.con_fecha_retorno a f))).
Proof.
  intros Hpaso. destruct Hpaso.
  - desarmar_creacion ltac:(first [by left | by destruct s; left]).
    right; left.
    match goal with H : orb _ _ = false |- _ =>
      apply orb_false_iff in H as [Hv1 Hv2];
      apply negb_false_iff in Hv1, Hv2 end.
    match goal with H : negb (Implemento.hay_disponibilidad _ _) = false |- _ =>
      apply negb_false_iff, andb_true_iff in H as [Hge Hcond];
      apply Z.geb_le in Hge; apply String.eqb_eq in Hcond end.
    match goal with H : (_ <=? 0) = false |- _ => apply Z.leb_gt in H end.
    rewrite ajustar_stock_acepta by lia.
    eexists _, _, (Asignacion.Mk _ _ _ _ _ _ _). simpl.
    split_and!; revgoals; [reflexivity|done..].
  - desarmar; try (by left). right; right; left.
    match goal with H : GestorAsignaciones.buscar _ _ = Some _ |- _ =>
      pose proof (buscar_lookup _ _ _ _ H) as [_ Hid]; rewrite <- Hid in H end.
    match goal with H : negb _ = false |- _ => apply estado_activo_dec in H end.
    eexists _, _, _, _, _. split_and!; [eassumption|done|by left|eassumption|done].
  - desarmar; try (by left). right; right; left.
    match goal with H : GestorAsignaciones.buscar _ _ = Some _ |- _ =>
      pose proof (buscar_lookup _ _ _ _ H) as [_ Hid]; rewrite <- Hid in H end.
    match goal with H : negb _ = false |- _ => apply estado_activo_dec in H end.
    eexists _, _, _, _, _. split_and!; [eassumption|done|by right|eassumption|done].
  - desarmar; try (by left). right; right; right.
    match goal with H : GestorAsignaciones.buscar _ _ = Some _ |- _ =>
      pose proof (buscar_lookup _ _ _ _ H) as [_ Hid]; rewrite <- Hid in H end.
    match goal with H : negb (String.eqb _ _) = false |- _ =>
      apply estado_activo_dec in H end.
    match goal with H : Utilidades.comparar_fechas _ _ = Some _ |- _ =>
      destruct (comparar_fechas_Some _ _ _ H) as (d' & d & Hd' & Hd);
      destruct (comparar_fechas_signo _ _ _ _ Hd' Hd) as (c' & Hc' & _ & Hs);
      rewrite H in Hc'; injection Hc' as <- end.
    match goal with H : (_ <=? 0) = false |- _ =>
      rewrite H in Hs; symmetry in Hs;
      apply negb_false_iff, fecha_menor_spec in Hs end.
    eexists _, _, _, d, d'. split_and!; [eassumption|done..].
Qed.

(** ** The set of used ids *)

Lemma ids_exactos_elem (g : GestorAsignaciones.t) (id : string) :
  ids_exactos g ->
  id ∈ GestorAsignaciones.ids_usados g
  <-> ∃ a, a ∈ GestorAsignaciones.lista g ∧ Asignacion.identificador a = id.
Proof.
  intros ->. rewrite elem_of_list_to_set, list_elem_of_fmap.
  split; [intros (a & -> & Ha) | intros (a & Ha & <-)]; by exists a.
Qed.

Lemma ids_exactos_append (g : GestorAsignaciones.t) (a : Asignacion.t) :
  ids_exactos g ->
  ids_exactos
    (GestorAsignaciones.Mk
       (GestorAsignaciones.lista g ++ [a])
       ({[Asignacion.identificador a]} ∪ GestorAsignaciones.ids_usados g)).
Proof.
  unfold ids_exactos. simpl. intros ->.
  rewrite fmap_app, list_to_set_app_L. simpl.
  by rewrite (right_id_L ∅ (∪)), (comm_L (∪)).
Qed.

Lemma ids_exactos_con_asignacion (g : GestorAsignaciones.t) k a b :
  GestorAsignaciones.lista g !! k = Some a ->
  Asignacion.identificador b = Asignacion.identificador a ->
  ids_exactos g ->
  ids_exactos (GestorAsignaciones.con_asignacion g k b).
Proof.
  unfold ids_exactos. simpl. intros Hk Hid ->.
  rewrite list_fmap_insert, Hid. rewrite list_insert_id; [done|].
  by rewrite list_lookup_fmap, Hk.
Qed.

Lemma ids_exactos_cargar (lineas : list string) :
  ids_exactos (GestorAsignaciones._cargar lineas).
Proof.
  unfold GestorAsignaciones._cargar.
  assert (H : ids_exactos GestorAsignaciones.vacio) by done.
  revert H. generalize GestorAsignaciones.vacio.
  induction lineas as [|l lineas IH]; intros g Hg; [done|].
  simpl. apply IH. clear IH. unfold GestorAsignaciones.cargar_linea.
  repeat case_match; try done.
  by apply (ids_exactos_append g (Asignacion.Mk _ _ _ _ _ _ _)).
Qed.

Lemma ids_exactos_paso (s s' : Sistema) :
  paso_prestamo s s' ->
  ids_exactos (PantallasAsignaciones.gestor s) ->
  ids_exactos (PantallasAsignaciones.gestor s').
Proof.
  intros Hp Hs.
  destruct (paso_forma _ _ Hp)
    as [-> | [(n & impl & a & _ & _ & _ & _ & _ & _ & _ & _ & ->)
           | [(k & a & n & impl & e & Hb & _ & _ & _ & ->)
             | (k & a & f & d & d' & Hb & _ & _ & _ & _ & ->)]]].
  - done.
  - by apply ids_exactos_append.
  - apply buscar_lookup in Hb as [Hk _].
    by apply (ids_exactos_con_asignacion _ _ a).
  - apply buscar_lookup in Hb as [Hk _].
    by apply (ids_exactos_con_asignacion _ _ a).
Qed.

Lemma alcanzable_ids_exactos (s : Sistema) :
  alcanzable s -> ids_exactos (PantallasAsignaciones.gestor s).
Proof.
  induction 1 as [lineas adm ctrl | s s' _ IH Hp | s adm ctrl _ IH].
  - apply ids_exactos_cargar.
  - by eapply ids_exactos_paso.
  - exact IH.
Qed.

(** X3. In every state the program can be in, the set of used ids of the
    assignment manager holds exactly the ids of the stored assignments: an
    id is in the set if and only if some stored assignment has it, which
    is also when [buscar] finds an assignment for it. *)
Theorem ids_usados_son_los_almacenados (s : Sistema) (id : string) :
  alcanzable s ->
  (id ∈ GestorAsignaciones.ids_usados (PantallasAsignaciones.gestor s)
   <-> ∃ a, a ∈ asignaciones s ∧ Asignacion.identificador a = id)
  ∧ (id ∈ GestorAsignaciones.ids_usados (PantallasAsignaciones.gestor s)
     <-> is_Some (GestorAsignaciones.buscar (PantallasAsignaciones.gestor s) id)).
Proof.
  intros Halc. apply alcanzable_ids_exactos in Halc.
  pose proof (ids_exactos_elem _ id Halc) as Hiff. split; [exact Hiff|].
  rewrite Hiff. unfold GestorAsignaciones.buscar. split.
  - intros (a & Ha & Hid). by eapply list_find_elem_of.
  - intros [[k a] Hf]. apply list_find_Some in Hf as (Hk & Hid & _).
    exists a. split; [|done]. by eapply list_elem_of_lookup_2.
Qed.

Lemma ids_usados_son_los_almacenados_testigo :
  ("A1"%string
   ∈ GestorAsignaciones.ids_usados
       (GestorAsignaciones._cargar
          ["A1,M1,T1,3,2025-01-01,2025-01-10,activo"%string]))
  ∧ ("A2"%string
     ∉ GestorAsignaciones.ids_usados
         (GestorAsignaciones._cargar
            ["A1,M1,T1,3,2025-01-01,2025-01-10,activo"%string])).
Proof.
  pose (s := PantallasAsignaciones.Mk
               (GestorAsignaciones._cargar
                  ["A1,M1,T1,3,2025-01-01,2025-01-10,activo"%string])
               (PantallasAsignaciones.admin_impl sistema0)
               (PantallasAsignaciones.ctrl_miembros sistema0)).
  assert (Halc : alcanzable s) by apply alc_inicio.
  split.
  - apply (ids_usados_son_los_almacenados s "A1" Halc). by eexists.
  - intros Hin.
    apply (ids_usados_son_los_almacenados s "A2" Halc) in Hin as [r Hr].
    discriminate Hr.
Defined.

(** X4. In every state the program can be in, [crear] refuses an
    assignment exactly when a stored assignment has its id, and then
    changes nothing; otherwise it appends the assignment, after which
    [buscar] finds it, at the end of the list, under its id, and finds
    under every other id what it found before. *)
Theorem crear_y_buscar (s : Sistema) (a : Asignacion.t) :
  alcanzable s ->
  ((∃ b, b ∈ asignaciones s
         ∧ Asignacion.identificador b = Asignacion.identificador a) ->
   GestorAsignaciones.crear (PantallasAsignaciones.gestor s) a
   = (false, [], PantallasAsignaciones.gestor s))
  ∧ ((∀ b, b ∈ asignaciones s ->
           Asignacion.identificador b ≠ Asignacion.identificador a) ->
     (GestorAsignaciones.crear (PantallasAsignaciones.gestor s) a).1.1 = true
     ∧ GestorAsignaciones.lista
         (GestorAsignaciones.crear (PantallasAsignaciones.gestor s) a).2
       = asignaciones s ++ [a]
     ∧ GestorAsignaciones.buscar
         (GestorAsignaciones.crear (PantallasAsignaciones.gestor s) a).2
         (Asignacion.identificador a)
       = Some (length (asignaciones s), a)
     ∧ ∀ id, id ≠ Asignacion.identificador a ->
         GestorAsignaciones.buscar
           (GestorAsignaciones.crear (PantallasAsignaciones.gestor s) a).2 id
         = GestorAsignaciones.buscar (PantallasAsignaciones.gestor s) id).
Proof.
  intros Halc. apply alcanzable_ids_exactos in Halc.
  pose proof (ids_exactos_elem _ (Asignacion.identificador a) Halc) as Hiff.
  unfold GestorAsignaciones.crear, GestorAsignaciones.buscar. split.
  - intros Hex. apply Hiff in Hex. by rewrite decide_True.
  - intros Hno. rewrite decide_False; [|intros (b & Hb & Hid)%Hiff; by eapply Hno].
    simpl. split_and!; [done..| |].
    + apply list_find_snoc_nuevo; [|done]. apply Forall_forall. exact Hno.
    + intros id Hid. apply list_find_snoc_otro. congruence.
Qed.

Lemma crear_y_buscar_testigo :
  GestorAsignaciones.crear (PantallasAsignaciones.gestor sistema0)
    (Asignacion.Mk "A1" "M1" "T1" 3 "2025-01-01" "2025-01-10" "activo")
  = (true, [Accion "Asignación creada: A1"],
     PantallasAsignaciones.gestor sistema_con_a1)
  ∧ GestorAsignaciones.buscar
      (GestorAsignaciones.crear (PantallasAsignaciones.gestor sistema0)
         (Asignacion.Mk "A1" "M1" "T1" 3 "2025-01-01" "2025-01-10" "activo")).2
      "A1"
    = Some (0%nat, Asignacion.Mk "A1" "M1" "T1" 3 "2025-01-01" "2025-01-10" "activo").
Proof.
  split; [reflexivity|].
  destruct (crear_y_buscar sistema0
              (Asignacion.Mk "A1" "M1" "T1" 3 "2025-01-01" "2025-01-10" "activo")
              alcanzable_sistema0) as [_ H].
  destruct H as (_ & _ & H & _); [|exact H].
  intros b Hb. by apply elem_of_nil in Hb.
Defined.

(** ** Units in stock and units on loan *)

Lemma suma_app (l1 l2 : list Z) :
  foldr Z.add 0 (l1 ++ l2) = foldr Z.add 0 l1 + foldr Z.add 0 l2.
Proof. induction l1 as [|x l1 IH]; simpl; lia. Qed.

Lemma suma_insert {A} (f : A -> Z) (l : list A) (k : nat) (a b : A) :
  l !! k = Some a ->
  foldr Z.add 0 (f <$> <[k := b]> l) = foldr Z.add 0 (f <$> l) - f a + f b.
Proof.
  revert k. induction l as [|x l IH]; intros k Hk; [done|].
  destruct k as [|k]; csimpl in *.
  - injection Hk as ->. lia.
  - rewrite (IH k Hk). lia.
Qed.

(** The stock found under an id after the implement at position [n],
    found under its own id, has been replaced by one with the same id. *)
Lemma stock_de_con_item (s : Sistema) g' (n : nat) (i j : Implemento.t) (id : string) :
  AdministradorImplementos.buscar_por_id
    (PantallasAsignaciones.admin_impl s) (Implemento.identificador i)
  = Some (n, i) ->
  Implemento.identificador j = Implemento.identificador i ->
  stock_de
    (PantallasAsignaciones.Mk g'
       (AdministradorImplementos.con_item (PantallasAsignaciones.admin_impl s) n j)
       (PantallasAsignaciones.ctrl_miembros s))
    id
  = if decide (id = Implemento.identificador i) then Implemento.stock j
    else stock_de s id.
Proof.
  intros Hb Hid.
  destruct (buscar_por_id_lookup _ _ _ _ Hb) as [Hn _].
  unfold stock_de, AdministradorImplementos.buscar_por_id in *. simpl.
  rewrite (list_find_insert_igual _ _ n i j Hn) by (by rewrite Hid).
  case_decide as Hd.
  - subst id. by rewrite Hb; simpl; rewrite decide_True.
  - destruct (list_find (λ item, Implemento.identificador item = id) _)
      as [[m x]|] eqn:Hf; simpl; [|done].
    apply list_find_Some in Hf as (Hm & Hx & _).
    case_decide; [|done]. congruence.
Qed.

Lemma unidades_positivas_paso (s s' : Sistema) :
  paso_prestamo s s' -> unidades_positivas s -> unidades_positivas s'.
Proof.
  intros Hp Hs. unfold unidades_positivas in *.
  destruct (paso_forma _ _ Hp)
    as [-> | [(n & impl & a & _ & _ & _ & Hq & _ & _ & _ & _ & ->)
           | [(k & a & n & impl & e & Hb & _ & _ & _ & ->)
             | (k & a & f & d & d' & Hb & _ & _ & _ & _ & ->)]]].
  - done.
  - apply Forall_app. split; [done|]. by apply Forall_singleton.
  - apply buscar_lookup in Hb as [Hk _].
    apply Forall_insert; [done|]. apply (Forall_lookup_1 _ _ _ _ Hs Hk).
  - apply buscar_lookup in Hb as [Hk _].
    apply Forall_insert; [done|]. apply (Forall_lookup_1 _ _ _ _ Hs Hk).
Qed.

Lemma prestado_de_activo (id : string) (a : Asignacion.t) :
  Asignacion.estado a = "activo"%string ->
  prestado_de id a
  = if decide (id = Asignacion.codigo_implemento a) then Asignacion.unidades a
    else 0.
Proof.
  intros Ha. unfold prestado_de. rewrite Ha. simpl.
  destruct (String.eqb_spec (Asignacion.codigo_implemento a) id);
    case_decide; congruence.
Qed.

Lemma conservacion_paso (s s' : Sistema) (id : string) :
  paso_prestamo s s' ->
  stock_no_negativo s -> unidades_positivas s ->
  stock_de s' id + en_prestamo s' id = stock_de s id + en_prestamo s id.
Proof.
  intros Hp Hstock Hpos.
  destruct (paso_forma _ _ Hp)
    as [-> | [(n & impl & a & Hi & _ & Ha & Hq & Hle & _ & _ & _ & ->)
           | [(k & a & n & impl & e & Hb & Ha & He & Hi & ->)
             | (k & a & f & d & d' & Hb & Ha & _ & _ & _ & ->)]]].
  - done.
  - destruct (buscar_por_id_lookup _ _ _ _ Hi) as [Hn Hid].
    rewrite <- Hid in Hi.
    rewrite (stock_de_con_item s _ n impl _ id Hi) by done.
    unfold en_prestamo, asignaciones. simpl.
    rewrite fmap_app, suma_app. simpl. rewrite (prestado_de_activo id a Ha).
    rewrite Hid. case_decide as Hd; [|lia].
    subst id. unfold stock_de. rewrite <- Hid, Hi. lia.
  - destruct (buscar_por_id_lookup _ _ _ _ Hi) as [Hn Hid].
    destruct (buscar_lookup _ _ _ _ Hb) as [Hk _].
    rewrite <- Hid in Hi.
    assert (H0 : 0 <= Implemento.stock impl)
      by apply (Forall_lookup_1 _ _ _ _ Hstock Hn).
    assert (Hq : 0 < Asignacion.unidades a)
      by apply (Forall_lookup_1 _ _ _ _ Hpos Hk).
    rewrite ajustar_stock_acepta by lia. simpl.
    rewrite (stock_de_con_item s _ n impl _ id Hi) by done.
    unfold en_prestamo, asignaciones. simpl.
    rewrite (suma_insert _ _ _ a _ Hk).
    rewrite (prestado_de_activo id a Ha).
    assert (Hcero : prestado_de id (Asignacion.con_estado a e) = 0).
    { unfold prestado_de. simpl. by destruct He as [-> | ->]. }
    rewrite Hcero, Hid. case_decide as Hd; [|lia].
    subst id. unfold stock_de. rewrite <- Hid, Hi. simpl. lia.
  - destruct (buscar_lookup _ _ _ _ Hb) as [Hk _].
    unfold en_prestamo, asignaciones, stock_de. simpl.
    rewrite (suma_insert _ _ _ a _ Hk).
    assert (Higual : prestado_de id (Asignacion.con_fecha_retorno a f)
                     = prestado_de id a) by done.
    rewrite Higual. lia.
Qed.

(** X5. Units are neither lost nor made by the procedures of the
    assignment screens: from a state where every stock is >= 0 and every
    stored quantity is > 0, after any sequence of creations, returns,
    cancellations and extensions, for every implement id, the stock found
    under that id plus the quantities of the active assignments for that
    id is what it was at the start, and both conditions still hold. *)
Theorem conservacion_de_unidades (s s' : Sistema) :
  rtc paso_prestamo s s' ->
  stock_no_negativo s ->
  unidades_positivas s ->
  (∀ id, stock_de s' id + en_prestamo s' id = stock_de s id + en_prestamo s id)
  ∧ stock_no_negativo s'
  ∧ unidades_positivas s'.
Proof.
  induction 1 as [s | s s1 s' Hp _ IH]; intros Hstock Hpos; [done|].
  destruct IH as (Hc & Hs' & Hp').
  - by eapply stock_no_negativo_paso.
  - by eapply unidades_positivas_paso.
  - split_and!; [|done..]. intros id. rewrite Hc.
    by apply conservacion_paso.
Qed.

Lemma conservacion_de_unidades_testigo :
  stock_de
    (PantallasAsignaciones.despues
       (PantallasAsignaciones.proceso_creacion
          (PantallasAsignaciones.despues
             (PantallasAsignaciones.proceso_cancelacion sistema_con_a1 "A1"))
          "A7" "M1" "T1" "4" "2025-03-01" "2025-03-09"))
    "T1"
  + en_prestamo
      (PantallasAsignaciones.despues
         (PantallasAsignaciones.proceso_creacion
            (PantallasAsignaciones.despues
               (PantallasAsignaciones.proceso_cancelacion sistema_con_a1 "A1"))
            "A7" "M1" "T1" "4" "2025-03-01" "2025-03-09"))
      "T1"
  = 5.
Proof.
  change 5 with (stock_de sistema_con_a1 "T1" + en_prestamo sistema_con_a1 "T1").
  apply (conservacion_de_unidades sistema_con_a1).
  - eapply rtc_l; [apply paso_cancelacion|].
    eapply rtc_l; [apply paso_creacion|].
    apply rtc_refl.
  - apply Forall_singleton. simpl. lia.
  - apply Forall_singleton. simpl. lia.
Defined.

(** ** The life of one assignment *)

Lemma fecha_anterior_transitiva (f1 f2 f3 : Fecha) :
  fecha_anterior f1 f2 -> fecha_anterior f2 f3 -> fecha_anterior f1 f3.
Proof. unfold fecha_anterior. lia. Qed.

Lemma estado_avanza_transitiva (e1 e2 e3 : string) :
  estado_avanza e1 e2 -> estado_avanza e2 e3 -> estado_avanza e1 e3.
Proof.
  unfold estado_avanza.
  intros [-> | (-> & H12)] [-> | (H2 & H23)]; auto.
Qed.

Lemma retorno_avanza_transitiva (f1 f2 f3 : string) :
  retorno_avanza f1 f2 -> retorno_avanza f2 f3 -> retorno_avanza f1 f3.
Proof.
  intros [-> | (d1 & d2 & H1 & H2 & H12)] [-> | (d2' & d3 & H2' & H3 & H23)].
  - by left.
  - right. by exists d2', d3.
  - right. by exists d1, d2.
  - right. exists d1, d3. split_and!; [done..|].
    rewrite H2 in H2'. injection H2' as <-.
    by eapply fecha_anterior_transitiva.
Qed.

Lemma vida_paso (s s' : Sistema) (k : nat) (a : Asignacion.t) :
  paso_prestamo s s' ->
  asignaciones s !! k = Some a ->
  ∃ a', asignaciones s' !! k = Some a'
        ∧ mismo_prestamo a a'
        ∧ estado_avanza (Asignacion.estado a) (Asignacion.estado a')
        ∧ retorno_avanza (Asignacion.fecha_retorno a) (Asignacion.fecha_retorno a').
Proof.
  intros Hp Hk.
  assert (Higual : mismo_prestamo a a
                   ∧ estado_avanza (Asignacion.estado a) (Asignacion.estado a)
                   ∧ retorno_avanza (Asignacion.fecha_retorno a)
                                    (Asignacion.fecha_retorno a))
    by (split_and!; [done | by left | by left]).
  destruct (paso_forma _ _ Hp)
    as [-> | [(n & impl & b & _ & _ & _ & _ & _ & _ & _ & _ & ->)
           | [(k' & b & n & impl & e & Hb & Ha & He & _ & ->)
             | (k' & b & f & d & d' & Hb & Ha & Hd & Hd' & Hlt & ->)]]].
  - by exists a.
  - exists a. split; [|done]. by apply lookup_app_l_Some.
  - apply buscar_lookup in Hb as [Hk' _].
    destruct (decide (k = k')) as [-> | Hne].
    + assert (b = a) as -> by (unfold asignaciones in Hk; congruence).
      exists (Asignacion.con_estado a e). split_and!.
      * apply list_lookup_insert_eq. by eapply lookup_lt_Some.
      * done.
      * right. by split.
      * by left.
    + exists a. split; [|done].
      unfold asignaciones. simpl. by rewrite list_lookup_insert_ne.
  - apply buscar_lookup in Hb as [Hk' _].
    destruct (decide (k = k')) as [-> | Hne].
    + assert (b = a) as -> by (unfold asignaciones in Hk; congruence).
      exists (Asignacion.con_fecha_retorno a f). split_and!.
      * apply list_lookup_insert_eq. by eapply lookup_lt_Some.
      * done.
      * by left.
      * right. by exists d, d'.
    + exists a. split; [|done].
      unfold asignaciones. simpl. by rewrite list_lookup_insert_ne.
Qed.

(** X6. The life of a stored assignment under the procedures of the
    assignment screens, in any number and order and on any input: it keeps
    its place in the list, its id, its member, its implement, its quantity
    and its start date; its status stays as it is or goes from "activo" to
    "devuelto" or "cancelado" (no procedure ever writes "vencido"); its due
    date stays as it is or becomes the text of a strictly later date. *)
Theorem vida_de_una_asignacion (s s' : Sistema) (k : nat) (a : Asignacion.t) :
  rtc paso_prestamo s s' ->
  asignaciones s !! k = Some a ->
  ∃ a', asignaciones s' !! k = Some a'
        ∧ mismo_prestamo a a'
        ∧ estado_avanza (Asignacion.estado a) (Asignacion.estado a')
        ∧ retorno_avanza (Asignacion.fecha_retorno a) (Asignacion.fecha_retorno a').
Proof.
  intros Hrtc. revert a.
  induction Hrtc as [s | s s1 s' Hp _ IH]; intros a Hk.
  - exists a. split_and!; [done | done | by left | by left].
  - destruct (vida_paso _ _ _ _ Hp Hk) as (a1 & Hk1 & Hm1 & He1 & Hf1).
    destruct (IH _ Hk1) as (a' & Hk' & Hm' & He' & Hf').
    exists a'. split_and!; [done| | |].
    + destruct Hm1 as (? & ? & ? & ? & ?), Hm' as (? & ? & ? & ? & ?).
      unfold mismo_prestamo. split_and!; congruence.
    + by eapply estado_avanza_transitiva.
    + by eapply retorno_avanza_transitiva.
Qed.

Lemma vida_de_una_asignacion_testigo :
  ∃ a', asignaciones
          (PantallasAsignaciones.despues
             (PantallasAsignaciones.proceso_devolucion
                (PantallasAsignaciones.despues
                   (PantallasAsignaciones.proceso_extension
                      sistema_con_a1 "A1" "2025-02-01"))
                "A1"))
        !! 0%nat = Some a'
        ∧ mismo_prestamo
            (Asignacion.Mk "A1" "M1" "T1" 3 "2025-01-01" "2025-01-10" "activo") a'
        ∧ estado_avanza "activo" (Asignacion.estado a')
        ∧ retorno_avanza "2025-01-10" (Asignacion.fecha_retorno a').
Proof.
  apply (vida_de_una_asignacion sistema_con_a1).
  - eapply rtc_l; [apply paso_extension|].
    eapply rtc_l; [apply paso_devolucion|].
    apply rtc_refl.
  - reflexivity.
Defined.

(** ** Ids that stay distinct *)

Section ClavesDistintas.
Context {A : Type} (clave : A -> string).

(** Among objects with distinct keys, the lookup of an object's key finds
    that object. *)
Lemma list_find_clave (l : list A) (k : nat) (x : A) :
  NoDup (clave <$> l) -> l !! k = Some x ->
  list_find (λ y, clave y = clave x) l = Some (k, x).
Proof.
  intros Hnd Hk. apply list_find_Some. split_and!; [done..|].
  intros j y Hj Hlt Hy.
  assert (j = k); [|lia].
  apply (NoDup_lookup (clave <$> l) j k (clave x) Hnd);
    rewrite list_lookup_fmap.
  - by rewrite Hj, <- Hy.
  - by rewrite Hk.
Qed.

Lemma claves_tras_reemplazo (l : list A) (k : nat) (x y : A) :
  l !! k = Some x -> clave y = clave x ->
  clave <$> <[k := y]> l = clave <$> l.
Proof.
  intros Hk Hy. rewrite list_fmap_insert, Hy.
  apply list_insert_id. by rewrite list_lookup_fmap, Hk.
Qed.
End ClavesDistintas.

Lemma ids_distintos_paso (s s' : Sistema) :
  paso_prestamo s s' ->
  ids_exactos (PantallasAsignaciones.gestor s) ->
  ids_distintos s -> ids_distintos s'.
Proof.
  intros Hp Hex Hnd. unfold ids_distintos in *.
  destruct (paso_forma _ _ Hp)
    as [-> | [(n & impl & a & _ & Hid & _ & _ & _ & _ & _ & _ & ->)
           | [(k & a & n & impl & e & Hb & _ & _ & _ & ->)
             | (k & a & f & d & d' & Hb & _ & _ & _ & _ & ->)]]].
  - done.
  - unfold asignaciones. simpl. rewrite fmap_app. simpl.
    apply NoDup_app. split_and!; [done| |apply NoDup_singleton].
    intros id Hin ->%list_elem_of_singleton. apply Hid.
    rewrite Hex. by apply elem_of_list_to_set.
  - apply buscar_lookup in Hb as [Hk _].
    unfold asignaciones. simpl.
    by rewrite (claves_tras_reemplazo _ _ _ a).
  - apply buscar_lookup in Hb as [Hk _].
    unfold asignaciones. simpl.
    by rewrite (claves_tras_reemplazo _ _ _ a).
Qed.

(** X7. Ids stay distinct. The loader accepts repeated ids, so a state
    the program is in may hold two assignments under one id; but from a
    state where the ids of the stored assignments are distinct, the
    procedures of the assignment screens, in any number and order, lead to
    states where they are distinct, and there every stored assignment is
    the one [buscar] finds under its id, at its place. *)
Theorem ids_distintos_conservados (s s' : Sistema) :
  alcanzable s ->
  ids_distintos s ->
  rtc paso_prestamo s s' ->
  ids_distintos s'
  ∧ ∀ k a, asignaciones s' !! k = Some a ->
           GestorAsignaciones.buscar
             (PantallasAsignaciones.gestor s') (Asignacion.identificador a)
           = Some (k, a).
Proof.
  intros Halc Hnd Hrtc.
  assert (Hs' : ids_distintos s').
  { induction Hrtc as [s | s s1 s' Hp _ IH]; [done|].
    apply IH; [by eapply alc_prestamo|].
    eapply ids_distintos_paso; [done| |done].
    by apply alcanzable_ids_exactos. }
  split; [done|]. intros k a Hk.
  by apply (list_find_clave Asignacion.identificador).
Qed.

Lemma ids_distintos_conservados_testigo :
  GestorAsignaciones.buscar
    (PantallasAsignaciones.gestor
       (PantallasAsignaciones.despues
          (PantallasAsignaciones.proceso_creacion
             (PantallasAsignaciones.despues
                (PantallasAsignaciones.proceso_creacion
                   sistema0 "A1" "M1" "T1" "3" "2025-01-01" "2025-01-10"))
             "A2" "M1" "T1" "1" "2025-01-02" "2025-01-12")))
    "A2"
  = Some (1%nat, Asignacion.Mk "A2" "M1" "T1" 1 "2025-01-02" "2025-01-12" "activo").
Proof.
  refine (proj2 (ids_distintos_conservados sistema0 _ alcanzable_sistema0 _ _)
            1%nat (Asignacion.Mk "A2" "M1" "T1" 1 "2025-01-02" "2025-01-12" "activo")
            _).
  - apply NoDup_nil_2.
  - eapply rtc_l; [apply paso_creacion|].
    eapply rtc_l; [apply paso_creacion|].
    apply rtc_refl.
  - reflexivity.
Defined.

(** ** The overdue listing *)

Lemma esta_vencido_es_activo (hoy : string) (a : Asignacion.t) :
  Asignacion.esta_vencido hoy a = Some true ->
  Asignacion.estado a = "activo"%string.
Proof.
  unfold Asignacion.esta_vencido.
  destruct (negb _) eqn:Ha; [done|]. intros _. by apply estado_activo_dec.
Qed.

Lemma vencidas_forma (hoy : string) (l : list Asignacion.t) :
  match GestorAsignaciones.vencidas hoy l with
  | Some r =>
      r `sublist_of` filter (λ a, Asignacion.estado a = "activo"%string) l
      ∧ (∀ a, a ∈ r <-> a ∈ l ∧ Asignacion.esta_vencido hoy a = Some true)
      ∧ (∀ a, a ∈ l -> is_Some (Asignacion.esta_vencido hoy a))
  | None => ∃ a, a ∈ l ∧ Asignacion.esta_vencido hoy a = None
  end.
Proof.
  induction l as [|b l IH].
  - simpl. split_and!; [done| |].
    + intros a. rewrite elem_of_nil. tauto.
    + intros a Ha. by apply elem_of_nil in Ha.
  - simpl. destruct (Asignacion.esta_vencido hoy b) as [v|] eqn:Hb; simpl.
    2:{ exists b. split; [apply list_elem_of_here | done]. }
    destruct (GestorAsignaciones.vencidas hoy l) as [r|]; simpl.
    2:{ destruct IH as (a & Ha & Hno). exists a.
        split; [by apply list_elem_of_further | done]. }
    destruct IH as (Hsub & Hmem & Htot). split_and!.
    + rewrite filter_cons. destruct v.
      * rewrite decide_True by by eapply esta_vencido_es_activo.
        by apply sublist_skip.
      * case_decide; [by apply sublist_cons | done].
    + intros a. destruct v.
      * rewrite !elem_of_cons, Hmem. split.
        -- intros [-> | [Ha Hv]]; [by split; [left|] | by split; [right|]].
        -- intros [[-> | Ha] Hv]; [by left | by right].
      * rewrite Hmem, elem_of_cons. split.
        -- intros [Ha Hv]. by split; [right|].
        -- intros [[-> | Ha] Hv]; [congruence | done].
    + intros a [-> | Ha]%elem_of_cons; [by eexists | by apply Htot].
Qed.

(** X8. The overdue listing. When it returns, it is a sub-list, in the
    order of the collection, of the active listing, it holds exactly the
    stored assignments for which [esta_vencido] is true, and
    [esta_vencido] raised for no stored assignment; and it raises only
    when [esta_vencido] raises for a stored assignment: one active record
    with a due date that is no date makes the whole listing fail. *)
Theorem vencidas_entre_activas (hoy : string) (g : GestorAsignaciones.t) :
  match GestorAsignaciones.obtener_vencidas hoy g with
  | Some r =>
      r `sublist_of` GestorAsignaciones.obtener_activas g
      ∧ (∀ a, a ∈ r <-> a ∈ GestorAsignaciones.lista g
                        ∧ Asignacion.esta_vencido hoy a = Some true)
      ∧ (∀ a, a ∈ GestorAsignaciones.lista g ->
              is_Some (Asignacion.esta_vencido hoy a))
  | None =>
      ∃ a, a ∈ GestorAsignaciones.lista g
           ∧ Asignacion.esta_vencido hoy a = None
  end.
Proof. apply vencidas_forma. Qed.

(** ** Bookkeeping of keys *)

Section Libros.
Context {A : Type} (clave : A -> string).

Lemma en_orden_snoc (l : list A) (u : gset string) (x : A) :
  en_orden clave l u -> clave x ∉ u ->
  en_orden clave (l ++ [x]) ({[clave x]} ∪ u).
Proof.
  intros [-> Hnd] Hx. split.
  - rewrite fmap_app, list_to_set_app_L. simpl.
    by rewrite (right_id_L ∅ (∪)), (comm_L (∪)).
  - rewrite fmap_app. simpl.
    apply NoDup_app. split_and!; [done| |apply NoDup_singleton].
    intros id Hin ->%list_elem_of_singleton. apply Hx.
    by apply elem_of_list_to_set.
Qed.

Lemma en_orden_reemplazo (l : list A) (u : gset string) (n : nat) (x y : A) :
  en_orden clave l u -> l !! n = Some x -> clave y = clave x ->
  en_orden clave (<[n := y]> l) u.
Proof.
  intros [Hu Hnd] Hn Hy. unfold en_orden.
  by rewrite (claves_tras_reemplazo clave l n x y).
Qed.

Lemma en_orden_delete (l : list A) (u : gset string) (n : nat) (x : A) :
  en_orden clave l u -> l !! n = Some x ->
  en_orden clave (delete n l) (u ∖ {[clave x]}).
Proof.
  intros [-> Hnd] Hn. unfold en_orden. rewrite list_fmap_delete.
  assert (Hk : (clave <$> l) !! n = Some (clave x))
    by by rewrite list_lookup_fmap, Hn.
  split; [|exact (sublist_NoDup _ _ Hnd (sublist_delete _ _))].
  rewrite <- (take_drop_middle _ _ _ Hk) in Hnd |- * at 1.
  rewrite delete_take_drop.
  apply NoDup_app in Hnd as (_ & Hizq & Hder).
  apply NoDup_cons in Hder as [Hder _].
  apply set_eq. intros id.
  rewrite elem_of_difference, !elem_of_list_to_set, !elem_of_app,
    elem_of_cons, elem_of_singleton.
  split.
  - intros [[Hin | [-> | Hin]] Hne]; [by left | done | by right].
  - intros [Hin | Hin].
    + split; [by left|]. intros ->. eapply Hizq; [done|]. apply list_elem_of_here.
    + split; [by right; right|]. by intros ->.
Qed.

Lemma en_orden_busqueda (l : list A) (u : gset string) (id : string) :
  en_orden clave l u ->
  id ∈ u <-> is_Some (list_find (λ y, clave y = id) l).
Proof.
  intros [-> _]. rewrite elem_of_list_to_set, list_elem_of_fmap. split.
  - intros (x & -> & Hx). by eapply list_find_elem_of.
  - intros [[k x] Hf]. apply list_find_Some in Hf as (Hk & Hid & _).
    exists x. split; [done|]. by eapply list_elem_of_lookup_2.
Qed.

(** After the object found under a key is taken out, the key finds
    nothing. *)
Lemma en_orden_delete_busqueda (l : list A) (u : gset string) (n : nat) (x : A) :
  en_orden clave l u -> l !! n = Some x ->
  list_find (λ y, clave y = clave x) (delete n l) = None.
Proof.
  intros Hl Hn. pose proof (en_orden_delete _ _ _ _ Hl Hn) as Hd.
  destruct (list_find _ (delete n l)) as [r|] eqn:Hf; [|done].
  exfalso.
  assert (Hin : clave x ∈ u ∖ {[clave x]})
    by (apply (en_orden_busqueda _ _ _ Hd); by eexists).
  apply elem_of_difference in Hin as [_ Hno]. apply Hno.
  by apply elem_of_singleton.
Qed.
End Libros.

(** ** Everything one procedure of the implement screens can do *)

Lemma estados_map_valido (opcion estado : string) :
  InterfazImplementos.estados_map opcion = Some estado ->
  estado ∈ Implemento.ESTADOS_VALIDOS.
Proof.
  unfold InterfazImplementos.estados_map, Implemento.ESTADOS_VALIDOS.
  repeat case_match; intros Heq; simplify_eq;
    repeat first [apply list_elem_of_here | apply list_elem_of_further].
Qed.

(** A procedure of the implement screens leaves the manager as it was, or
    appends an implement with an id not in use, a stock that is not
    negative and one of the four conditions, or edits the implement found
    under an id, or takes out the implement found under an id, or changes
    the condition of the implement found under an id to "dañado". *)
Lemma paso_implementos_forma (admin admin' : AdministradorImplementos.t) :
  paso_implementos admin admin' ->
  admin' = admin
  ∨ (∃ i, (Implemento.identificador i
           ∉ AdministradorImplementos.ids_en_uso admin)
          ∧ 0 <= Implemento.stock i
          ∧ Implemento.condicion i ∈ Implemento.ESTADOS_VALIDOS
          ∧ admin'
            = AdministradorImplementos.Mk
                (AdministradorImplementos.coleccion admin ++ [i])
                ({[Implemento.identificador i]}
                 ∪ AdministradorImplementos.ids_en_uso admin)
                ({[Implemento.tipo i]}
                 ∪ AdministradorImplementos.categorias_registradas admin))
  ∨ (∃ n i nd cats,
       AdministradorImplementos.buscar_por_id admin (Implemento.identificador i)
       = Some (n, i)
       ∧ (∀ c, nd_condicion nd = Some c -> c ∈ Implemento.ESTADOS_VALIDOS)
       ∧ admin'
         = AdministradorImplementos.Mk
             (<[n := AdministradorImplementos.aplicar i nd]>
                (AdministradorImplementos.coleccion admin))
             (AdministradorImplementos.ids_en_uso admin)
             cats)
  ∨ (∃ n i,
       AdministradorImplementos.buscar_por_id admin (Implemento.identificador i)
       = Some (n, i)
       ∧ admin'
         = AdministradorImplementos.Mk
             (delete n (AdministradorImplementos.coleccion admin))
             (AdministradorImplementos.ids_en_uso admin
              ∖ {[Implemento.identificador i]})
             (AdministradorImplementos.categorias_registradas admin))
  ∨ (∃ n i,
       AdministradorImplementos.buscar_por_id admin (Implemento.identificador i)
       = Some (n, i)
       ∧ admin'
         = AdministradorImplementos.con_item admin n
             (Implemento.con_condicion i "dañado")).
Proof.
  intros Hp. destruct Hp.
  - unfold InterfazImplementos.proceso_creacion,
      AdministradorImplementos.agregar_nuevo.
    cbn zeta. repeat case_match; simplify_eq; try (by left).
    right; left. eexists (Implemento.Mk _ _ _ _ _ _). simpl.
    split_and!; [done| | |reflexivity].
    + match goal with H : (_ <? 0) = false |- _ => by apply Z.ltb_ge in H end.
    + destruct (InterfazImplementos.estados_map _) as [e|] eqn:He; simpl.
      * by eapply estados_map_valido.
      * apply list_elem_of_here.
  - unfold InterfazImplementos.proceso_modificacion,
      AdministradorImplementos.modificar_existente.
    cbn zeta. repeat case_match; simplify_eq; try (by left).
    all: right; right; left.
    all: match goal with
         | H : AdministradorImplementos.buscar_por_id _ _ = Some _ |- _ =>
             pose proof (buscar_por_id_lookup _ _ _ _ H) as [_ Hid];
             rewrite <- Hid in H
         end.
    all: eexists _, _, (MkNuevosDatos _ _ _ _ _), _.
    all: split_and!; [eassumption| |reflexivity].
    all: simpl; intros c Hc; by eapply estados_map_valido.
  - unfold InterfazImplementos.proceso_eliminacion,
      AdministradorImplementos.eliminar_del_sistema.
    cbn zeta. repeat case_match; simplify_eq; try (by left).
    all: right; right; right; left.
    all: match goal with
         | H : AdministradorImplementos.buscar_por_id _ _ = Some _ |- _ =>
             pose proof (buscar_por_id_lookup _ _ _ _ H) as [_ Hid];
             rewrite <- Hid in H |- *
         end.
    all: eexists _, _; split; [eassumption|reflexivity].
  - unfold InterfazImplementos.proceso_marcar_danado.
    cbn zeta. repeat case_match; simplify_eq; try (by left).
    all: right; right; right; right.
    all: match goal with
         | H : AdministradorImplementos.buscar_por_id _ _ = Some _ |- _ =>
             pose proof (buscar_por_id_lookup _ _ _ _ H) as [_ Hid];
             rewrite <- Hid in H
         end.
    all: eexists _, _; split; [eassumption|]; simpl; done.
Qed.

(** ** The books of the implement manager *)

Lemma ajustar_stock_identificador (i : Implemento.t) (delta : Z) :
  Implemento.identificador (Implemento.ajustar_stock i delta).2
  = Implemento.identificador i.
Proof. unfold Implemento.ajustar_stock. cbn zeta. by case_match. Qed.

Lemma ajustar_stock_condicion (i : Implemento.t) (delta : Z) :
  Implemento.condicion (Implemento.ajustar_stock i delta).2
  = Implemento.condicion i.
Proof. unfold Implemento.ajustar_stock. cbn zeta. by case_match. Qed.

(** What a procedure of the assignment screens does to the implement
    manager: nothing, or it replaces the implement found under an id by
    one with the same id and the same condition. *)
Lemma admin_tras_paso_prestamo (s s' : Sistema) :
  paso_prestamo s s' ->
  PantallasAsignaciones.admin_impl s' = PantallasAsignaciones.admin_impl s
  ∨ ∃ n i j,
      AdministradorImplementos.coleccion (PantallasAsignaciones.admin_impl s) !! n
      = Some i
      ∧ Implemento.identificador j = Implemento.identificador i
      ∧ Implemento.condicion j = Implemento.condicion i
      ∧ PantallasAsignaciones.admin_impl s'
        = AdministradorImplementos.con_item
            (PantallasAsignaciones.admin_impl s) n j.
Proof.
  intros Hp.
  destruct (paso_forma _ _ Hp)
    as [-> | [(n & impl & a & Hi & _ & _ & _ & _ & _ & _ & _ & ->)
           | [(k & a & n & impl & e & _ & _ & _ & Hi & ->)
             | (k & a & f & d & d' & _ & _ & _ & _ & _ & ->)]]].
  - by left.
  - right. apply buscar_por_id_lookup in Hi as [Hn _].
    eexists n, impl, _. simpl. split_and!; revgoals; [reflexivity|done..].
  - right. apply buscar_por_id_lookup in Hi as [Hn _].
    eexists n, impl, _. simpl. split_and!; revgoals; [reflexivity| | |done].
    + apply ajustar_stock_condicion.
    + apply ajustar_stock_identificador.
  - by left.
Qed.

Lemma inventario_en_orden_paso (s s' : Sistema) :
  paso_inventario s s' ->
  inventario_en_orden (PantallasAsignaciones.admin_impl s) ->
  inventario_en_orden (PantallasAsignaciones.admin_impl s').
Proof.
  unfold inventario_en_orden. intros [s0 s0' Hp | s0 admin' Hp] Hs.
  - destruct (admin_tras_paso_prestamo _ _ Hp)
      as [-> | (n & i & j & Hn & Hid & _ & ->)]; [done|].
    by eapply en_orden_reemplazo.
  - simpl.
    destruct (paso_implementos_forma _ _ Hp)
      as [-> | [(i & Hno & _ & _ & ->)
             | [(n & i & nd & cats & Hb & _ & ->)
               | [(n & i & Hb & ->) | (n & i & Hb & ->)]]]]; simpl.
    + done.
    + by apply en_orden_snoc.
    + apply buscar_por_id_lookup in Hb as [Hn _].
      by eapply en_orden_reemplazo.
    + apply buscar_por_id_lookup in Hb as [Hn _].
      by apply en_orden_delete.
    + apply buscar_por_id_lookup in Hb as [Hn _].
      by eapply en_orden_reemplazo.
Qed.

(** X9. The books of the implement manager. The loader accepts repeated
    ids; but from a state where the set of ids in use is the set of the ids
    of the stored implements and these are distinct, every procedure that
    holds the manager (creation, edition, deletion and damage marking of
    the implement screens; creation, return, cancellation and extension of
    the assignment screens), in any number and order, leads to such a
    state, and there an id is in use exactly when [buscar_por_id] finds an
    implement: a deleted id is free again and finds nothing. *)
Theorem inventario_en_orden_conservado (s s' : Sistema) :
  rtc paso_inventario s s' ->
  inventario_en_orden (PantallasAsignaciones.admin_impl s) ->
  inventario_en_orden (PantallasAsignaciones.admin_impl s')
  ∧ ∀ id, id ∈ AdministradorImplementos.ids_en_uso
                 (PantallasAsignaciones.admin_impl s')
          <-> is_Some (AdministradorImplementos.buscar_por_id
                         (PantallasAsignaciones.admin_impl s') id).
Proof.
  intros Hrtc Hs.
  assert (Hs' : inventario_en_orden (PantallasAsignaciones.admin_impl s')).
  { induction Hrtc as [s | s s1 s' Hp _ IH]; [done|].
    apply IH. by eapply inventario_en_orden_paso. }
  split; [done|]. intros id.
  by apply (en_orden_busqueda Implemento.identificador).
Qed.

Lemma inventario_en_orden_conservado_testigo :
  AdministradorImplementos.buscar_por_id
    (InterfazImplementos.proceso_eliminacion
       (InterfazImplementos.proceso_creacion
          (PantallasAsignaciones.admin_impl sistema0)
          "P1" "Pala" "jardineria" "4" "1" (Some 35%float)).2
       "T1" " S ").2
    "T1"
  = None
  ∧ is_Some
      (AdministradorImplementos.buscar_por_id
         (InterfazImplementos.proceso_eliminacion
            (InterfazImplementos.proceso_creacion
               (PantallasAsignaciones.admin_impl sistema0)
               "P1" "Pala" "jardineria" "4" "1" (Some 35%float)).2
            "T1" " S ").2
         "P1").
Proof.
  pose (a1 := (InterfazImplementos.proceso_creacion
                 (PantallasAsignaciones.admin_impl sistema0)
                 "P1" "Pala" "jardineria" "4" "1" (Some 35%float)).2).
  pose (a2 := (InterfazImplementos.proceso_eliminacion a1 "T1" " S ").2).
  assert (Hrtc : rtc paso_inventario sistema0
                   (PantallasAsignaciones.con_admin_impl
                      (PantallasAsignaciones.con_admin_impl sistema0 a1) a2)).
  { eapply rtc_l; [apply pinv_implementos, pi_creacion|].
    eapply rtc_l; [apply pinv_implementos, pi_eliminacion|].
    apply rtc_refl. }
  assert (H0 : inventario_en_orden (PantallasAsignaciones.admin_impl sistema0)).
  { split; simpl.
    - by rewrite (right_id_L ∅ (∪)).
    - apply NoDup_singleton. }
  destruct (inventario_en_orden_conservado _ _ Hrtc H0) as [_ Hiff].
  split.
  - destruct (AdministradorImplementos.buscar_por_id _ "T1") eqn:Hb; [|done].
    exfalso. assert (His : is_Some (AdministradorImplementos.buscar_por_id a2 "T1"))
      by by eexists.
    apply Hiff in His. vm_compute in Hb. discriminate Hb.
  - apply Hiff. simpl. vm_compute. reflexivity.
Defined.

(** ** The condition of an implement *)

Lemma condiciones_validas_paso (s s' : Sistema) :
  paso_inventario s s' ->
  condiciones_validas (PantallasAsignaciones.admin_impl s) ->
  condiciones_validas (PantallasAsignaciones.admin_impl s').
Proof.
  unfold condiciones_validas. intros [s0 s0' Hp | s0 admin' Hp] Hs.
  - destruct (admin_tras_paso_prestamo _ _ Hp)
      as [-> | (n & i & j & Hn & _ & Hc & ->)]; [done|].
    simpl. apply Forall_insert; [done|]. rewrite Hc.
    apply (Forall_lookup_1 _ _ _ _ Hs Hn).
  - simpl.
    destruct (paso_implementos_forma _ _ Hp)
      as [-> | [(i & _ & _ & Hc & ->)
             | [(n & i & nd & cats & Hb & Hc & ->)
               | [(n & i & Hb & ->) | (n & i & Hb & ->)]]]]; simpl.
    + done.
    + apply Forall_app. split; [done|]. by apply Forall_singleton.
    + apply buscar_por_id_lookup in Hb as [Hn _].
      apply Forall_insert; [done|]. simpl.
      destruct (nd_condicion nd) as [c|]; simpl; [by apply Hc|].
      apply (Forall_lookup_1 _ _ _ _ Hs Hn).
    + by apply Forall_delete.
    + apply Forall_insert; [done|]. simpl.
      do 2 apply list_elem_of_further. apply list_elem_of_here.
Qed.

(** X10. The condition of an implement. The loader keeps whatever text
    the file has as condition; but if every stored implement is in one of
    the four conditions ("disponible", "prestado", "dañado",
    "mantenimiento"), it still is after the procedures of the implement
    screens and of the assignment screens, in any number and order and on
    any input. *)
Theorem condiciones_validas_conservadas (s s' : Sistema) :
  rtc paso_inventario s s' ->
  condiciones_validas (PantallasAsignaciones.admin_impl s) ->
  condiciones_validas (PantallasAsignaciones.admin_impl s').
Proof.
  induction 1 as [s | s s1 s' Hp _ IH]; intros Hs; [done|].
  apply IH. by eapply condiciones_validas_paso.
Qed.

Lemma condiciones_validas_conservadas_testigo :
  condiciones_validas
    (InterfazImplementos.proceso_marcar_danado
       (InterfazImplementos.proceso_creacion
          (PantallasAsignaciones.admin_impl sistema0)
          "P1" "Pala" "jardineria" "4" "9" (Some 35%float)).2
       "T1").2.
Proof.
  pose (a1 := (InterfazImplementos.proceso_creacion
                 (PantallasAsignaciones.admin_impl sistema0)
                 "P1" "Pala" "jardineria" "4" "9" (Some 35%float)).2).
  pose (a2 := (InterfazImplementos.proceso_marcar_danado a1 "T1").2).
  apply (condiciones_validas_conservadas sistema0
           (PantallasAsignaciones.con_admin_impl
              (PantallasAsignaciones.con_admin_impl sistema0 a1) a2)).
  - eapply rtc_l; [apply pinv_implementos, pi_creacion|].
    eapply rtc_l; [apply pinv_implementos, pi_marcar_danado|].
    apply rtc_refl.
  - apply Forall_singleton. apply list_elem_of_here.
Defined.

(** ** An implement that is not available *)

(** A request for an implement whose condition is not "disponible" is
    refused and changes nothing. *)
Lemma proceso_creacion_no_disponible (s : Sistema)
    (e_id e_miembro e_impl e_cantidad e_salida e_retorno : string)
    (n : nat) (i : Implemento.t) :
  AdministradorImplementos.buscar_por_id
    (PantallasAsignaciones.admin_impl s) (Py.strip e_impl) = Some (n, i) ->
  Implemento.condicion i ≠ "disponible"%string ->
  PantallasAsignaciones.despues
    (PantallasAsignaciones.proceso_creacion
       s e_id e_miembro e_impl e_cantidad e_salida e_retorno) = s
  ∧ PantallasAsignaciones.impreso
      (PantallasAsignaciones.proceso_creacion
         s e_id e_miembro e_impl e_cantidad e_salida e_retorno)
    ≠ AsignacionRegistrada.
Proof.
  intros Hb Hc. unfold PantallasAsignaciones.proceso_creacion. cbn zeta.
  rewrite Hb.
  assert (Hno : ∀ q, Implemento.hay_disponibilidad i q = false).
  { intros q. unfold Implemento.hay_disponibilidad.
    apply andb_false_iff. right. by apply String.eqb_neq. }
  repeat case_match; simplify_eq; simpl; try done.
  all: match goal with
       | H : negb (Implemento.hay_disponibilidad _ _) = false |- _ =>
           rewrite Hno in H; discriminate H
       end.
Qed.

(** X11. A damaged implement is not lent. After the damage procedure of
    the implement screens has found an implement, every run of the creation
    procedure of the assignment screens that asks for the id typed there is
    refused and changes nothing, whatever the quantity and the stock; the
    damage procedure itself leaves the stock and the other implements as
    they were. *)
Theorem danado_no_se_presta (s : Sistema) (e_danado : string)
    (e_id e_miembro e_impl e_cantidad e_salida e_retorno : string) :
  is_Some (AdministradorImplementos.buscar_por_id
             (PantallasAsignaciones.admin_impl s) (Py.strip e_danado)) ->
  Py.strip e_impl = Py.strip e_danado ->
  let s' := PantallasAsignaciones.con_admin_impl s
              (InterfazImplementos.proceso_marcar_danado
                 (PantallasAsignaciones.admin_impl s) e_danado).2 in
  PantallasAsignaciones.despues
    (PantallasAsignaciones.proceso_creacion
       s' e_id e_miembro e_impl e_cantidad e_salida e_retorno) = s'
  ∧ PantallasAsignaciones.impreso
      (PantallasAsignaciones.proceso_creacion
         s' e_id e_miembro e_impl e_cantidad e_salida e_retorno)
    ≠ AsignacionRegistrada
  ∧ Implemento.stock <$> inventario s' = Implemento.stock <$> inventario s
  ∧ length (inventario s') = length (inventario s).
Proof.
  intros [[n i] Hb] Himpl s'.
  assert (Hadm : PantallasAsignaciones.admin_impl s'
                 = AdministradorImplementos.con_item
                     (PantallasAsignaciones.admin_impl s) n
                     (Implemento.con_condicion i "dañado")).
  { unfold s', InterfazImplementos.proceso_marcar_danado. cbn zeta.
    by rewrite Hb. }
  pose proof (buscar_por_id_lookup _ _ _ _ Hb) as [Hn Hid].
  assert (Hb' : AdministradorImplementos.buscar_por_id
                  (PantallasAsignaciones.admin_impl s') (Py.strip e_impl)
                = Some (n, Implemento.con_condicion i "dañado")).
  { rewrite Hadm, Himpl.
    by apply (list_find_insert_mismo _ _ n i). }
  destruct (proceso_creacion_no_disponible s' e_id e_miembro e_impl
              e_cantidad e_salida e_retorno _ _ Hb') as [H1 H2]; [done|].
  split_and!; [done..| |].
  - unfold inventario. rewrite Hadm. simpl.
    rewrite list_fmap_insert. simpl. apply list_insert_id.
    by rewrite list_lookup_fmap, Hn.
  - unfold inventario. rewrite Hadm. simpl. apply length_insert.
Qed.

Lemma danado_no_se_presta_testigo :
  PantallasAsignaciones.impreso
    (PantallasAsignaciones.proceso_creacion
       (PantallasAsignaciones.con_admin_impl sistema0
          (InterfazImplementos.proceso_marcar_danado
             (PantallasAsignaciones.admin_impl sistema0) " T1").2)
       "A1" "M1" "T1 " "1" "2025-01-01" "2025-01-10")
  ≠ AsignacionRegistrada.
Proof.
  refine (proj1 (proj2 (danado_no_se_presta sistema0 " T1"
                          "A1" "M1" "T1 " "1" "2025-01-01" "2025-01-10" _ _))).
  - by eexists.
  - reflexivity.
Defined.

(** ** Deleting an implement that is on loan *)

(** X12. The deletion procedure of the implement screens does not look at
    the assignments. With the books of the implement manager in order, it
    deletes, once confirmed, an implement for which an active assignment
    is stored; the assignment stays as it is, and from then on its return
    and its cancellation end with the error message and change nothing. *)
Theorem baja_con_prestamo_activo (s : Sistema) (e_id e_confirmacion e_asig : string)
    (k : nat) (a : Asignacion.t) :
  inventario_en_orden (PantallasAsignaciones.admin_impl s) ->
  GestorAsignaciones.buscar (PantallasAsignaciones.gestor s) (Py.strip e_asig)
  = Some (k, a) ->
  Asignacion.estado a = "activo"%string ->
  Py.strip e_id = Asignacion.codigo_implemento a ->
  is_Some (AdministradorImplementos.buscar_por_id
             (PantallasAsignaciones.admin_impl s) (Py.strip e_id)) ->
  Py.strip (Py.lower e_confirmacion) = "s"%string ->
  let r := InterfazImplementos.proceso_eliminacion
             (PantallasAsignaciones.admin_impl s) e_id e_confirmacion in
  let s' := PantallasAsignaciones.con_admin_impl s r.2 in
  r.1.1 = ImplEliminado
  ∧ asignaciones s' = asignaciones s
  ∧ PantallasAsignaciones.proceso_devolucion s' e_asig
    = PantallasAsignaciones.Fin ErrorAlProcesarDevolucion [] s'
  ∧ PantallasAsignaciones.proceso_cancelacion s' e_asig
    = PantallasAsignaciones.Fin ErrorAlCancelar [] s'.
Proof.
  intros Hord Ha Hact Hid [[n i] Hb] Hconf r s'.
  pose proof (buscar_por_id_lookup _ _ _ _ Hb) as [Hn Hi].
  assert (Hr : r = (ImplEliminado,
                    [Accion ("Implemento eliminado: " +:+ Implemento.titulo i
                             +:+ " (ID: " +:+ Py.strip e_id +:+ ")")],
                    AdministradorImplementos.Mk
                      (delete n (AdministradorImplementos.coleccion
                                   (PantallasAsignaciones.admin_impl s)))
                      (AdministradorImplementos.ids_en_uso
                         (PantallasAsignaciones.admin_impl s)
                       ∖ {[Py.strip e_id]})
                      (AdministradorImplementos.categorias_registradas
                         (PantallasAsignaciones.admin_impl s)))).
  { unfold r, InterfazImplementos.proceso_eliminacion,
      AdministradorImplementos.eliminar_del_sistema. cbn zeta.
    by rewrite Hb, Hconf. }
  assert (Hno : AdministradorImplementos.buscar_por_id
                  (PantallasAsignaciones.admin_impl s')
                  (Asignacion.codigo_implemento a) = None).
  { unfold s'. rewrite Hr, <- Hid, <- Hi. simpl.
    by apply (en_orden_delete_busqueda Implemento.identificador _ _ _ _ Hord). }
  apply estado_activo_dec in Hact.
  split_and!.
  - by rewrite Hr.
  - done.
  - unfold PantallasAsignaciones.proceso_devolucion. cbn zeta.
    change (PantallasAsignaciones.gestor s') with (PantallasAsignaciones.gestor s).
    by rewrite Ha, Hact, Hno.
  - unfold PantallasAsignaciones.proceso_cancelacion. cbn zeta.
    change (PantallasAsignaciones.gestor s') with (PantallasAsignaciones.gestor s).
    by rewrite Ha, Hact, Hno.
Qed.

Lemma baja_con_prestamo_activo_testigo :
  PantallasAsignaciones.impreso
    (PantallasAsignaciones.proceso_devolucion
       (PantallasAsignaciones.con_admin_impl sistema_con_a1
          (InterfazImplementos.proceso_eliminacion
             (PantallasAsignaciones.admin_impl sistema_con_a1) "T1" "S").2)
       "A1")
  = ErrorAlProcesarDevolucion.
Proof.
  assert (Hord : inventario_en_orden
                   (PantallasAsignaciones.admin_impl sistema_con_a1)).
  { split; simpl.
    - by rewrite (right_id_L ∅ (∪)).
    - apply NoDup_singleton. }
  destruct (baja_con_prestamo_activo sistema_con_a1 "T1" "S" "A1" 0%nat
              (Asignacion.Mk "A1" "M1" "T1" 3 "2025-01-01" "2025-01-10" "activo")
              Hord)
    as (_ & _ & Hdev & _); [reflexivity..| by eexists | reflexivity |].
  by rewrite Hdev.
Defined.

(** ** Editing an implement and changing nothing *)




(** ** Everything one procedure of the member screens can do *)

Lemma localizar_lookup (ctrl : ControladorMiembros.t) (id : string)
    (n : nat) (m : Miembro.t) :
  ControladorMiembros.localizar ctrl id = Some (n, m) ->
  ControladorMiembros.registro ctrl !! n = Some m
  ∧ Miembro.identificador m = id.
Proof. intros H. by apply list_find_lookup in H. Qed.

(** A procedure of the member screens leaves the controller as it was, or
    appends a member with a code not in use and one of the two roles, or
    replaces the member found under a code by one with the same code and
    one of the two roles, or takes out the member found under a code. *)
Lemma paso_miembros_forma (ctrl ctrl' : ControladorMiembros.t) :
  paso_miembros ctrl ctrl' ->
  ctrl' = ctrl
  ∨ (∃ m, (Miembro.identificador m ∉ ControladorMiembros.codigos_usados ctrl)
          ∧ Miembro.rol m ∈ Miembro.ROLES_VALIDOS
          ∧ ctrl'
            = ControladorMiembros.Mk
                (ControladorMiembros.registro ctrl ++ [m])
                ({[Miembro.identificador m]}
                 ∪ ControladorMiembros.codigos_usados ctrl))
  ∨ (∃ n m m',
       ControladorMiembros.localizar ctrl (Miembro.identificador m)
       = Some (n, m)
       ∧ Miembro.identificador m' = Miembro.identificador m
       ∧ Miembro.rol m' ∈ Miembro.ROLES_VALIDOS
       ∧ ctrl'
         = ControladorMiembros.Mk
             (<[n := m']> (ControladorMiembros.registro ctrl))
             (ControladorMiembros.codigos_usados ctrl))
  ∨ (∃ n m,
       ControladorMiembros.localizar ctrl (Miembro.identificador m)
       = Some (n, m)
       ∧ ctrl'
         = ControladorMiembros.Mk
             (delete n (ControladorMiembros.registro ctrl))
             (ControladorMiembros.codigos_usados ctrl
              ∖ {[Miembro.identificador m]})).
Proof.
  intros Hp. destruct Hp.
  - unfold PantallasMiembros.flujo_inscripcion, ControladorMiembros.inscribir.
    cbn zeta. repeat case_match; simplify_eq; try (by left).
    all: right; left; eexists (Miembro.Mk _ _ _ _ _ _); simpl.
    all: split_and!; [done| |reflexivity].
    all: repeat first [apply list_elem_of_here | apply list_elem_of_further].
  - unfold PantallasMiembros.flujo_actualizacion,
      ControladorMiembros.actualizar_info.
    cbn zeta. repeat case_match; simplify_eq; try (by left).
    all: right; right; left.
    all: match goal with
         | H : ControladorMiembros.localizar _ _ = Some _ |- _ =>
             pose proof (localizar_lookup _ _ _ _ H) as [_ Hid];
             rewrite <- Hid in H
         end.
    all: eexists _, _, _; split_and!; revgoals; [reflexivity| | |eassumption].
    all: simpl; try done.
    all: repeat first [apply list_elem_of_here | apply list_elem_of_further].
  - unfold PantallasMiembros.flujo_baja, ControladorMiembros.dar_de_baja.
    cbn zeta. repeat case_match; simplify_eq; try (by left).
    all: right; right; right.
    all: match goal with
         | H : ControladorMiembros.localizar _ _ = Some _ |- _ =>
             pose proof (localizar_lookup _ _ _ _ H) as [_ Hid];
             rewrite <- Hid in H |- *
         end.
    all: eexists _, _; split; [eassumption|reflexivity].
Qed.

(** ** The books of the member controller *)

Lemma registro_en_orden_paso (ctrl ctrl' : ControladorMiembros.t) :
  paso_miembros ctrl ctrl' ->
  registro_en_orden ctrl -> registro_en_orden ctrl'.
Proof.
  unfold registro_en_orden. intros Hp Hs.
  destruct (paso_miembros_forma _ _ Hp)
    as [-> | [(m & Hno & _ & ->)
           | [(n & m & m' & Hb & Hid & _ & ->) | (n & m & Hb & ->)]]]; simpl.
  - done.
  - by apply en_orden_snoc.
  - apply localizar_lookup in Hb as [Hn _]. by eapply en_orden_reemplazo.
  - apply localizar_lookup in Hb as [Hn _]. by apply en_orden_delete.
Qed.

(** X14. The books of the member controller. The loader accepts repeated
    codes; but from a state where the set of used codes is the set of the
    codes of the stored members and these are distinct, the procedures of
    the member screens (inscription, update, removal), in any number and
    order and on any input, lead to such a state, and there a code is used
    exactly when [localizar] finds a member: the code of a removed member
    is free again and finds nobody. *)
Theorem registro_en_orden_conservado (ctrl ctrl' : ControladorMiembros.t) :
  rtc paso_miembros ctrl ctrl' ->
  registro_en_orden ctrl ->
  registro_en_orden ctrl'
  ∧ ∀ id, id ∈ ControladorMiembros.codigos_usados ctrl'
          <-> is_Some (ControladorMiembros.localizar ctrl' id).
Proof.
  intros Hrtc Hs.
  assert (Hs' : registro_en_orden ctrl').
  { induction Hrtc as [c | c c1 c' Hp _ IH]; [done|].
    apply IH. by eapply registro_en_orden_paso. }
  split; [done|]. intros id.
  by apply (en_orden_busqueda Miembro.identificador).
Qed.

Lemma registro_en_orden_conservado_testigo :
  ControladorMiembros.localizar
    (PantallasMiembros.flujo_baja
       (PantallasMiembros.flujo_inscripcion
          controlador0 "M2" "Luis" "Rojas" "556" "Casa 2" "1").2
       "M1" "s").2
    "M1"
  = None.
Proof.
  pose (c1 := (PantallasMiembros.flujo_inscripcion
                 controlador0 "M2" "Luis" "Rojas" "556" "Casa 2" "1").2).
  pose (c2 := (PantallasMiembros.flujo_baja c1 "M1" "s").2).
  assert (Hrtc : rtc paso_miembros controlador0 c2).
  { eapply rtc_l; [apply pm_inscripcion|].
    eapply rtc_l; [apply pm_baja|].
    apply rtc_refl. }
  assert (H0 : registro_en_orden controlador0).
  { split; simpl.
    - by rewrite (right_id_L ∅ (∪)).
    - apply NoDup_singleton. }
  destruct (registro_en_orden_conservado _ _ Hrtc H0) as [_ Hiff].
  destruct (ControladorMiembros.localizar _ "M1") eqn:Hb; [|done].
  exfalso. vm_compute in Hb. discriminate Hb.
Defined.

(** ** The role of a member *)

Lemma roles_validos_paso (ctrl ctrl' : ControladorMiembros.t) :
  paso_miembros ctrl ctrl' -> roles_validos ctrl -> roles_validos ctrl'.
Proof.
  unfold roles_validos. intros Hp Hs.
  destruct (paso_miembros_forma _ _ Hp)
    as [-> | [(m & _ & Hr & ->)
           | [(n & m & m' & _ & _ & Hr & ->) | (n & m & _ & ->)]]]; simpl.
  - done.
  - apply Forall_app. split; [done|]. by apply Forall_singleton.
  - by apply Forall_insert.
  - by apply Forall_delete.
Qed.

(** X15. The role of a member. The loader keeps whatever text the file has
    as role; but if every stored member has one of the two roles
    ("residente", "administrador"), every stored member still has one
    after the procedures of the member screens, in any number and order
    and on any input. *)
Theorem roles_validos_conservados (ctrl ctrl' : ControladorMiembros.t) :
  rtc paso_miembros ctrl ctrl' ->
  roles_validos ctrl -> roles_validos ctrl'.
Proof.
  induction 1 as [c | c c1 c' Hp _ IH]; intros Hs; [done|].
  apply IH. by eapply roles_validos_paso.
Qed.

Lemma roles_validos_conservados_testigo :
  roles_validos
    (PantallasMiembros.flujo_actualizacion
       (PantallasMiembros.flujo_inscripcion
          controlador0 "M2" "Luis" "Rojas" "556" "Casa 2" "jefe").2
       "M1" "Ana" "Perez" "555" "Casa 1" EmptyString).2.
Proof.
  pose (c1 := (PantallasMiembros.flujo_inscripcion
                 controlador0 "M2" "Luis" "Rojas" "556" "Casa 2" "jefe").2).
  apply (roles_validos_conservados controlador0
           (PantallasMiembros.flujo_actualizacion
              c1 "M1" "Ana" "Perez" "555" "Casa 1" EmptyString).2).
  - eapply rtc_l; [apply pm_inscripcion|].
    eapply rtc_l; [apply pm_actualizacion|].
    apply rtc_refl.
  - apply Forall_singleton. apply list_elem_of_here.
Defined.

(** ** Updating a member *)



(** ** Rankings *)

Lemma veces_snoc (k k' : string) (l : list string) :
  veces k (l ++ [k']) = veces k l + (if decide (k' = k) then 1 else 0).
Proof.
  unfold veces. rewrite filter_app, length_app, filter_cons, filter_nil.
  case_decide; simpl; lia.
Qed.

Lemma veces_positivo (k : string) (l : list string) :
  0 < veces k l <-> k ∈ l.
Proof.
  unfold veces. induction l as [|x l IH].
  - simpl. rewrite elem_of_nil. lia.
  - rewrite filter_cons, elem_of_cons. case_decide; simpl.
    + subst x. split; [by left | lia].
    + rewrite IH. split; [by right|]. intros [-> | H']; [done|done].
Qed.

Lemma veces_no_negativo (k : string) (l : list string) : 0 <= veces k l.
Proof. unfold veces. lia. Qed.

Lemma incrementar_claves (c : list (string * Z)) (k : string) :
  (GeneradorReportes.incrementar c k).*1
  = if decide (k ∈ c.*1) then c.*1 else c.*1 ++ [k].
Proof.
  induction c as [|[k' n] c IH]; [done|]. csimpl.
  destruct (decide (k' = k)) as [-> | Hne]; csimpl.
  - rewrite decide_True; [done|]. apply list_elem_of_here.
  - rewrite IH. destruct (decide (k ∈ c.*1)) as [Hin | Hno].
    + rewrite decide_True; [done|]. by apply list_elem_of_further.
    + rewrite decide_False; [done|].
      intros [-> | Hin]%elem_of_cons; done.
Qed.

Lemma incrementar_NoDup (c : list (string * Z)) (k : string) :
  NoDup c.*1 -> NoDup (GeneradorReportes.incrementar c k).*1.
Proof.
  intros Hnd. rewrite incrementar_claves. case_decide; [done|].
  apply NoDup_app. split_and!; [done| |apply NoDup_singleton].
  by intros x Hx ->%list_elem_of_singleton.
Qed.

(** The items after one more occurrence of [k]: those of the other keys,
    and [k] with one more than it had, or with 1 when it had nothing. *)
Lemma incrementar_elem (c : list (string * Z)) (k k0 : string) (n : Z) :
  NoDup c.*1 ->
  (k0, n) ∈ GeneradorReportes.incrementar c k
  <-> (k0 ≠ k ∧ (k0, n) ∈ c)
      ∨ (k0 = k ∧ ((∃ n0, (k, n0) ∈ c ∧ n = n0 + 1) ∨ ((k ∉ c.*1) ∧ n = 1))).
Proof.
  induction c as [|[k' n'] c IH]; intros Hnd.
  - csimpl. rewrite list_elem_of_singleton. split.
    + intros [= -> ->]. right. split; [done|]. right. split; [|done].
      apply not_elem_of_nil.
    + intros [[_ H] | [-> [(n0 & H & _) | [_ ->]]]]; [|by apply elem_of_nil in H|done].
      by apply elem_of_nil in H.
  - csimpl in Hnd. apply NoDup_cons in Hnd as [Hk' Hnd]. csimpl.
    assert (Hfuera : ∀ m, (k', m) ∈ c -> False).
    { intros m Hm. apply Hk'. apply list_elem_of_fmap. by exists (k', m). }
    destruct (decide (k' = k)) as [-> | Hne].
    + rewrite elem_of_cons. setoid_rewrite elem_of_cons. naive_solver.
    + rewrite elem_of_cons, (IH Hnd). setoid_rewrite elem_of_cons. naive_solver.
Qed.

(** The counter after all the keys: distinct keys, each with the number of
    its occurrences. *)
Lemma contador_correcto (claves : list string) :
  NoDup (foldl GeneradorReportes.incrementar [] claves).*1
  ∧ ∀ k n, (k, n) ∈ foldl GeneradorReportes.incrementar [] claves
           <-> k ∈ claves ∧ n = veces k claves.
Proof.
  induction claves as [|k' claves [IHnd IH]] using rev_ind.
  - simpl. split; [apply NoDup_nil_2|]. intros k n.
    rewrite !elem_of_nil. tauto.
  - rewrite foldl_app. simpl. split; [by apply incrementar_NoDup|].
    set (c := foldl GeneradorReportes.incrementar [] claves) in *.
    intros k n.
    rewrite (incrementar_elem _ _ _ _ IHnd), elem_of_app,
      list_elem_of_singleton, veces_snoc.
    assert (Hclaves : k' ∈ c.*1 <-> k' ∈ claves).
    { rewrite list_elem_of_fmap. split.
      - intros ([k1 n1] & -> & Hin%IH). by destruct Hin.
      - intros Hin. exists (k', veces k' claves). split; [done|]. by apply IH. }
    assert (Hcero : k' ∉ claves -> veces k' claves = 0).
    { intros Hno. pose proof (veces_no_negativo k' claves).
      destruct (decide (0 < veces k' claves)) as [Hpos%veces_positivo|]; [done|lia]. }
    rewrite Hclaves. setoid_rewrite IH.
    destruct (decide (k' = k)) as [-> | Hne].
    + destruct (decide (k ∈ claves)) as [Hin | Hno].
      * naive_solver.
      * specialize (Hcero Hno). naive_solver lia.
    + rewrite Z.add_0_r. naive_solver.
Qed.

Lemma insertar_Permutation (x : string * Z) (l : list (string * Z)) :
  GeneradorReportes.insertar x l ≡ₚ x :: l.
Proof.
  induction l as [|y l IH]; [done|]. simpl. case_match; [done|].
  rewrite IH. apply Permutation_swap.
Qed.

Lemma sorted_reverse_Permutation (l : list (string * Z)) :
  GeneradorReportes.sorted_reverse l ≡ₚ l.
Proof.
  induction l as [|x l IH]; [done|].
  unfold GeneradorReportes.sorted_reverse in *. simpl.
  by rewrite insertar_Permutation, IH.
Qed.

Lemma insertar_ordenado (x : string * Z) (l : list (string * Z)) :
  StronglySorted no_creciente l ->
  StronglySorted no_creciente (GeneradorReportes.insertar x l).
Proof.
  induction 1 as [|y l Hl IH Hy]; simpl.
  - apply SSorted_cons; [apply SSorted_nil | apply Forall_nil_2].
  - destruct (Z.leb_spec y.2 x.2) as [Hle | Hgt].
    + apply SSorted_cons; [by apply SSorted_cons|].
      apply Forall_cons. split; [done|].
      eapply Forall_impl; [exact Hy|]. unfold no_creciente. intros z Hz. lia.
    + apply SSorted_cons; [done|].
      rewrite insertar_Permutation. apply Forall_cons. split; [|done].
      unfold no_creciente. lia.
Qed.

Lemma sorted_reverse_ordenado (l : list (string * Z)) :
  StronglySorted no_creciente (GeneradorReportes.sorted_reverse l).
Proof.
  induction l as [|x l IH]; [apply SSorted_nil|].
  by apply insertar_ordenado.
Qed.

(** The first ten of the arranged counter are a ranking of the keys. *)
Lemma ranking_correcto (claves : list string) :
  ranking_de claves
    (take 10 (GeneradorReportes.sorted_reverse
                (foldl GeneradorReportes.incrementar [] claves))).
Proof.
  destruct (contador_correcto claves) as [Hnd Hc].
  set (c := foldl GeneradorReportes.incrementar [] claves) in *.
  pose proof (sorted_reverse_Permutation c) as Hperm.
  pose proof (sorted_reverse_ordenado c) as Hsort.
  set (o := GeneradorReportes.sorted_reverse c) in *.
  assert (Hsub : take 10 o `sublist_of` o) by apply sublist_take.
  rewrite <- (take_drop 10 o) in Hsort.
  unfold ranking_de. split_and!.
  - rewrite length_take. lia.
  - eapply sublist_NoDup; [|by apply fmap_sublist].
    by rewrite Hperm.
  - intros k n Hin. apply Hc. rewrite <- Hperm.
    by eapply elem_of_sublist.
  - by eapply StronglySorted_app_1_l.
  - intros k Hk Hno.
    assert (Hin : (k, veces k claves) ∈ o) by (rewrite Hperm; by apply Hc).
    rewrite <- (take_drop 10 o) in Hin. apply elem_of_app in Hin as [Hin | Hin].
    { exfalso. apply Hno. apply list_elem_of_fmap. by exists (k, veces k claves). }
    split.
    + rewrite length_take. apply Nat.min_l.
      destruct (decide (10 <= length o)%nat) as [Hle | Hgt]; [done|].
      rewrite drop_ge in Hin by lia. by apply elem_of_nil in Hin.
    + intros p Hp.
      exact (StronglySorted_app_1_elem_of _ _ _ _ _ Hsort Hp Hin).
Qed.

(** X17. The two rankings of the reports. The ranking of the implements
    (and, in the same way, that of the members) has at most ten items, with
    distinct ids; the count of each is the number of stored assignments, of
    any status, for that id; the counts do not grow along the ranking; and
    an id with a stored assignment that the ranking leaves out has no more
    assignments than any id in the ranking, which then has ten items. *)
Theorem rankings_correctos (self : GeneradorReportes.t) :
  ranking_de
    (Asignacion.codigo_implemento
       <$> GestorAsignaciones.lista (GeneradorReportes.gestor_asig self))
    (GeneradorReportes.implementos_populares self)
  ∧ ranking_de
      (Asignacion.codigo_miembro
         <$> GestorAsignaciones.lista (GeneradorReportes.gestor_asig self))
      (GeneradorReportes.miembros_activos self).
Proof. split; apply ranking_correcto. Qed.

Example rankings_ejemplo :
  GeneradorReportes.implementos_populares
    (GeneradorReportes.Mk
       (PantallasAsignaciones.admin_impl sistema0) controlador0 gestor_tres)
  = [("T2"%string, 2); ("T1"%string, 1)]
  ∧ GeneradorReportes.miembros_activos
      (GeneradorReportes.Mk
         (PantallasAsignaciones.admin_impl sistema0) controlador0 gestor_tres)
    = [("M1"%string, 2); ("M2"%string, 1)].
Proof. split; reflexivity. Qed.

(** ** The flat file of members *)

Lemma linea_de_miembro_campos (m : Miembro.t) :
  linea_de_miembro m
  = Miembro.identificador m +:+ "," +:+ Miembro.nombres m
    +:+ "," +:+ Miembro.apellidos m
    +:+ "," +:+ Miembro.telefono m
    +:+ "," +:+ Miembro.ubicacion m
    +:+ "," +:+ Miembro.rol m.
Proof. reflexivity. Qed.

Lemma strip_linea_miembro (f0 f1 f2 f3 f4 f5 : string) :
  Py.lstrip f0 = f0 -> Py.rstrip f5 = f5 ->
  Py.strip ((f0 +:+ "," +:+ f1 +:+ "," +:+ f2 +:+ "," +:+ f3 +:+ ","
             +:+ f4 +:+ "," +:+ f5)
            +:+ String Py.LF EmptyString)
  = f0 +:+ "," +:+ f1 +:+ "," +:+ f2 +:+ "," +:+ f3 +:+ ","
    +:+ f4 +:+ "," +:+ f5.
Proof.
  intros H0 H5. unfold Py.strip.
  rewrite !append_assoc, !append_cons, !append_nil_l.
  rewrite lstrip_fijo by done.
  rewrite !rstrip_campo. do 5 f_equal.
  rewrite rstrip_append. by rewrite H5.
Qed.

Lemma split_linea_miembro (f0 f1 f2 f3 f4 f5 : string) :
  Forall (λ f, Py.contiene "," f = false) [f0; f1; f2; f3; f4; f5] ->
  Py.split ","
    (f0 +:+ "," +:+ f1 +:+ "," +:+ f2 +:+ "," +:+ f3 +:+ ","
     +:+ f4 +:+ "," +:+ f5)
  = [f0; f1; f2; f3; f4; f5].
Proof.
  intros H. repeat (apply Forall_cons in H as [? H]).
  rewrite !append_cons, !append_nil_l.
  rewrite !split_append by done. by rewrite split_sin_separador.
Qed.

Lemma cargar_linea_miembro (ctrl : ControladorMiembros.t) (m : Miembro.t) :
  miembro_persistible m ->
  ControladorMiembros.cargar_linea ctrl
    (linea_de_miembro m +:+ String Py.LF EmptyString)
  = ControladorMiembros.Mk
      (ControladorMiembros.registro ctrl ++ [m])
      ({[Miembro.identificador m]} ∪ ControladorMiembros.codigos_usados ctrl).
Proof.
  intros (Ht & Hid & Hrol). unfold ControladorMiembros.cargar_linea.
  rewrite linea_de_miembro_campos, strip_linea_miembro by done.
  unfold textos_miembro in Ht. repeat (apply Forall_cons in Ht as [[? _] Ht]).
  rewrite split_linea_miembro.
  - by destruct m.
  - repeat (apply Forall_cons; split; [done|]). apply Forall_nil_2.
Qed.

Lemma contiene_linea_de_miembro (c : ascii) (m : Miembro.t) :
  c ≠ ","%char ->
  Forall (λ f, Py.contiene c f = false) (textos_miembro m) ->
  Py.contiene c (linea_de_miembro m) = false.
Proof.
  intros Hc Ht. rewrite linea_de_miembro_campos.
  unfold textos_miembro in Ht. repeat (apply Forall_cons in Ht as [? Ht]).
  assert (Hcoma : Py.contiene c "," = false).
  { cbn [Py.contiene]. rewrite orb_false_r. apply Ascii.eqb_neq. congruence. }
  rewrite !contiene_append, Hcoma.
  by repeat match goal with H : Py.contiene c _ = false |- _ => rewrite H; clear H end.
Qed.

Lemma cargar_contenido_miembros (l : list Miembro.t) (ctrl : ControladorMiembros.t) :
  Forall miembro_persistible l ->
  foldl ControladorMiembros.cargar_linea ctrl
    (Archivo.lineas
       (RepositorioBase.contenido_txt
          (Miembro.a_diccionario <$> l) ControladorMiembros.campos))
  = ControladorMiembros.Mk
      (ControladorMiembros.registro ctrl ++ l)
      (list_to_set (Miembro.identificador <$> l)
       ∪ ControladorMiembros.codigos_usados ctrl).
Proof.
  revert ctrl. induction l as [|m l IH]; intros ctrl Hl.
  - simpl. rewrite app_nil_r, (left_id_L ∅ (∪)). by destruct ctrl.
  - apply Forall_cons in Hl as [Hm Hl].
    cbn [fmap list_fmap RepositorioBase.contenido_txt].
    change (RepositorioBase.linea_txt (Miembro.a_diccionario m)
              ControladorMiembros.campos) with (linea_de_miembro m).
    rewrite append_cons, append_nil_l.
    destruct Hm as (Ht & Hid & Hrol).
    rewrite lineas_append.
    + cbn [foldl]. rewrite cargar_linea_miembro by done.
      rewrite IH by done.
      cbn [ControladorMiembros.registro ControladorMiembros.codigos_usados].
      rewrite <- app_assoc. f_equal.
      cbn [list_to_set foldr]. by rewrite (assoc_L (∪)), (comm_L (∪) _ {[_]}).
    + apply contiene_linea_de_miembro; [done|].
      eapply Forall_impl; [exact Ht|]. by intros f (_ & ? & _).
    + apply contiene_linea_de_miembro; [done|].
      eapply Forall_impl; [exact Ht|]. by intros f (_ & _ & ?).
Qed.

(** X18. Loading the flat file that [guardar_datos] wrote gives back the
    controller itself, members, order and used codes, provided that its
    set of used codes is the set of the codes of its members and that
    every member is fit for the file: no comma and no line end in its
    fields, no blank in front of its code and no blank behind its role. *)
Theorem guardar_recuperar_ida_vuelta (ctrl : ControladorMiembros.t) :
  Forall miembro_persistible (ControladorMiembros.registro ctrl) ->
  ControladorMiembros.codigos_usados ctrl
  = list_to_set (Miembro.identificador <$> ControladorMiembros.registro ctrl) ->
  ControladorMiembros._recuperar_datos
    (Archivo.lineas (ControladorMiembros.guardar_datos ctrl))
  = ctrl.
Proof.
  intros H Hu.
  unfold ControladorMiembros._recuperar_datos, ControladorMiembros.guardar_datos.
  rewrite cargar_contenido_miembros by done. simpl.
  rewrite (right_id_L ∅ (∪)), <- Hu. by destruct ctrl.
Qed.

Lemma guardar_recuperar_ida_vuelta_testigo :
  ControladorMiembros._recuperar_datos
    (Archivo.lineas (ControladorMiembros.guardar_datos controlador0))
  = controlador0.
Proof.
  apply guardar_recuperar_ida_vuelta.
  - apply Forall_singleton. split_and!; [|reflexivity..].
    repeat (apply Forall_cons; split; [by split_and!|]). apply Forall_nil_2.
  - simpl. by rewrite (right_id_L ∅ (∪)).
Defined.

(** ** The catalogue of the residents *)

(** X19. The catalogue shown to the residents holds exactly the stored
    implements of which some positive
    quantity passes the availability test of the creation of an
    assignment; a stored implement with no unit left or in another
    condition than "disponible" is not shown. *)
Theorem catalogo_es_lo_prestable (self : SistemaPrincipal.t) (i : Implemento.t) :
  i ∈ SistemaPrincipal.ver_implementos_disponibles self
  <-> i ∈ AdministradorImplementos.coleccion (SistemaPrincipal.admin_impl self)
      ∧ ∃ q, 0 < q ∧ Implemento.hay_disponibilidad i q = true.
Proof.
  unfold SistemaPrincipal.ver_implementos_disponibles,
    AdministradorImplementos.obtener_todos, Implemento.hay_disponibilidad.
  cbn zeta. rewrite list_elem_of_filter. split.
  - intros [[Hs Hc] Hin]. split; [done|]. exists 1. split; [lia|].
    apply andb_true_iff. split; [apply Z.geb_le; lia | by apply String.eqb_eq].
  - intros [Hin (q & Hq & [Hs Hc]%andb_true_iff)]. split; [|done].
    apply Z.geb_le in Hs. apply String.eqb_eq in Hc. split; [lia | done].
Qed.

(** ** The one way to a negative stock *)

(** X20. The one way to a negative stock. From a state where no stock is
    negative, a procedure of the implement screens or of the assignment
    screens leads to a state where no stock is negative, unless it is the
    modification procedure and the line typed as new stock is the text of
    a negative integer. *)
Theorem unica_via_a_stock_negativo (s s' : Sistema) :
  paso_inventario s s' ->
  stock_no_negativo s ->
  stock_no_negativo s'
  ∨ ∃ e_id e_nombre e_categoria e_stock e_estado nuevo_valor z,
      s' = PantallasAsignaciones.con_admin_impl s
             (InterfazImplementos.proceso_modificacion
                (PantallasAsignaciones.admin_impl s)
                e_id e_nombre e_categoria e_stock e_estado nuevo_valor).2
      ∧ Py.int (Py.strip e_stock) = Some z
      ∧ z < 0.
Proof.
  intros [s0 s0' Hp | s0 admin' Hp] Hs.
  { left. by eapply stock_no_negativo_paso. }
  unfold stock_no_negativo, inventario in *. simpl.
  destruct Hp.
  - left. unfold InterfazImplementos.proceso_creacion,
      AdministradorImplementos.agregar_nuevo.
    cbn zeta. repeat case_match; simplify_eq; try done.
    simpl. apply Forall_app. split; [done|]. apply Forall_singleton. simpl.
    match goal with H : (_ <? 0) = false |- _ => by apply Z.ltb_ge in H end.
  - destruct (Py.int (Py.strip e_stock)) as [z|] eqn:Hz.
    2:{ left. unfold InterfazImplementos.proceso_modificacion,
          AdministradorImplementos.modificar_existente.
        cbn zeta. rewrite Hz.
        repeat case_match; simplify_eq; try done.
        all: simpl; apply Forall_insert; [done|].
        all: match goal with
             | H : AdministradorImplementos.buscar_por_id _ _ = Some _ |- _ =>
                 apply buscar_por_id_lookup in H as [Hn _]
             end.
        all: apply (Forall_lookup_1 _ _ _ _ Hs Hn). }
    destruct (decide (z < 0)) as [Hneg | Hpos].
    { right. by exists e_id, e_nombre, e_categoria, e_stock, e_estado, nuevo_valor, z. }
    left. unfold InterfazImplementos.proceso_modificacion,
      AdministradorImplementos.modificar_existente.
    cbn zeta. rewrite Hz.
    repeat case_match; simplify_eq; try done.
    all: simpl; apply Forall_insert; [done|]; simpl; try lia.
    all: match goal with
         | H : AdministradorImplementos.buscar_por_id _ _ = Some _ |- _ =>
             apply buscar_por_id_lookup in H as [Hn _]
         end.
    all: apply (Forall_lookup_1 _ _ _ _ Hs Hn).
  - left. unfold InterfazImplementos.proceso_eliminacion,
      AdministradorImplementos.eliminar_del_sistema.
    cbn zeta. repeat case_match; simplify_eq; try done.
    all: simpl; by apply Forall_delete.
  - left. unfold InterfazImplementos.proceso_marcar_danado.
    cbn zeta. repeat case_match; simplify_eq; try done.
    all: simpl; apply Forall_insert; [done|].
    all: match goal with
         | H : AdministradorImplementos.buscar_por_id _ _ = Some _ |- _ =>
             apply buscar_por_id_lookup in H as [Hn _]
         end.
    all: apply (Forall_lookup_1 _ _ _ _ Hs Hn).
Qed.

Lemma unica_via_a_stock_negativo_testigo :
  stock_no_negativo
    (PantallasAsignaciones.con_admin_impl sistema0
       (InterfazImplementos.proceso_modificacion
          (PantallasAsignaciones.admin_impl sistema0)
          "T1" EmptyString EmptyString "0" "2" None).2)
  ∨ ∃ e_id e_nombre e_categoria e_stock e_estado nuevo_valor z,
      PantallasAsignaciones.con_admin_impl sistema0
        (InterfazImplementos.proceso_modificacion
           (PantallasAsignaciones.admin_impl sistema0)
           "T1" EmptyString EmptyString "0" "2" None).2
      = PantallasAsignaciones.con_admin_impl sistema0
          (InterfazImplementos.proceso_modificacion
             (PantallasAsignaciones.admin_impl sistema0)
             e_id e_nombre e_categoria e_stock e_estado nuevo_valor).2
      ∧ Py.int (Py.strip e_stock) = Some z
      ∧ z < 0.
Proof.
  apply (unica_via_a_stock_negativo sistema0).
  - apply pinv_implementos, pi_modificacion.
  - apply Forall_singleton. simpl. lia.
Defined.

(** ** What [validar_fecha] accepts *)

Lemma es_digito_valor (c : ascii) :
  Py.es_digito c = true -> 0 <= Py.valor_digito c <= 9.
Proof.
  unfold Py.es_digito, Py.valor_digito. cbn zeta.
  intros [H1 H2]%andb_true_iff.
  apply Nat.leb_le in H1, H2. lia.
Qed.

Lemma digito_entre_valor (lo hi : Z) (c : ascii) :
  Py.digito_entre lo hi c = true -> lo <= Py.valor_digito c <= hi.
Proof.
  unfold Py.digito_entre. intros [[_ H1]%andb_true_iff H2]%andb_true_iff.
  apply Z.leb_le in H1, H2. lia.
Qed.

Lemma dos_elem (p1 p2 : ascii -> bool) (v : ascii -> ascii -> Z)
    (s : string) (n : Z) (r : string) :
  (n, r) ∈ Strptime.dos p1 p2 v s ->
  ∃ a b, s = String a (String b r) ∧ p1 a = true ∧ p2 b = true ∧ n = v a b.
Proof.
  unfold Strptime.dos. destruct s as [|a [|b r']];
    [by intros ?%elem_of_nil .. |].
  destruct (p1 a) eqn:H1, (p2 b) eqn:H2; simpl;
    try by intros ?%elem_of_nil.
  intros [= -> ->]%list_elem_of_singleton. by exists a, b.
Qed.

Lemma uno_elem (p : ascii -> bool) (s : string) (n : Z) (r : string) :
  (n, r) ∈ Strptime.uno p s ->
  ∃ a, s = String a r ∧ p a = true ∧ n = Py.valor_digito a.
Proof.
  unfold Strptime.uno. destruct s as [|a r']; [by intros ?%elem_of_nil|].
  destruct (p a) eqn:H1; [|by intros ?%elem_of_nil].
  intros [= -> ->]%list_elem_of_singleton. by exists a.
Qed.

Lemma grupo_Y_rango (s : string) (y : Z) (r : string) :
  Strptime.grupo_Y s = Some (y, r) -> 0 <= y <= 9999.
Proof.
  unfold Strptime.grupo_Y. destruct s as [|a [|b [|c [|d r']]]]; try done.
  destruct (Py.es_digito a) eqn:Ha; [|done].
  destruct (Py.es_digito b) eqn:Hb; [|done].
  destruct (Py.es_digito c) eqn:Hc; [|done].
  destruct (Py.es_digito d) eqn:Hd; [|done].
  simpl. intros [= <- <-].
  apply es_digito_valor in Ha, Hb, Hc, Hd. lia.
Qed.

Lemma grupo_m_rango (s : string) (m : Z) (r : string) :
  (m, r) ∈ Strptime.grupo_m s -> 1 <= m <= 12.
Proof.
  unfold Strptime.grupo_m. rewrite !elem_of_app.
  intros [H | [H | H]].
  - apply dos_elem in H as (a & b & _ & Ha%Ascii.eqb_eq & Hb & ->).
    subst a.
    apply digito_entre_valor in Hb. unfold Strptime.decimal.
    change (Py.valor_digito "1") with 1. lia.
  - apply dos_elem in H as (a & b & _ & Ha%Ascii.eqb_eq & Hb & ->).
    subst a.
    apply digito_entre_valor in Hb. unfold Strptime.decimal.
    change (Py.valor_digito "0") with 0. lia.
  - apply uno_elem in H as (a & _ & Ha & ->).
    apply digito_entre_valor in Ha. lia.
Qed.

Lemma grupo_d_rango (s : string) (d : Z) (r : string) :
  (d, r) ∈ Strptime.grupo_d s -> 1 <= d <= 31.
Proof.
  unfold Strptime.grupo_d. rewrite !elem_of_app.
  intros [H | [H | [H | [H | H]]]].
  - apply dos_elem in H as (a & b & _ & Ha%Ascii.eqb_eq & Hb & ->).
    subst a.
    apply digito_entre_valor in Hb. unfold Strptime.decimal.
    change (Py.valor_digito "3") with 3. lia.
  - apply dos_elem in H as (a & b & _ & Ha & Hb & ->).
    apply digito_entre_valor in Ha. apply es_digito_valor in Hb.
    unfold Strptime.decimal. lia.
  - apply dos_elem in H as (a & b & _ & Ha%Ascii.eqb_eq & Hb & ->).
    subst a.
    apply digito_entre_valor in Hb. unfold Strptime.decimal.
    change (Py.valor_digito "0") with 0. lia.
  - apply uno_elem in H as (a & _ & Ha & ->).
    apply digito_entre_valor in Ha. lia.
  - apply dos_elem in H as (a & b & _ & _ & Hb & ->).
    apply digito_entre_valor in Hb. lia.
Qed.

Lemma primero_Some {A B : Type} (f : A -> option B) (l : list A) (b : B) :
  Strptime.primero f l = Some b -> ∃ x, x ∈ l ∧ f x = Some b.
Proof.
  induction l as [|x l IH]; [done|]. simpl.
  destruct (f x) as [b'|] eqn:Hx.
  - intros [= ->]. exists x. split; [apply list_elem_of_here | done].
  - intros (x' & Hin & Hx')%IH. exists x'.
    split; [by apply list_elem_of_further | done].
Qed.

Lemma tras_mes_Some (y : Z) (alt : Z * string) (y' m d : Z) (resto : string) :
  Strptime.tras_mes y alt = Some (y', m, d, resto) ->
  y' = y ∧ m = alt.1 ∧ ∃ r, (d, resto) ∈ Strptime.grupo_d r.
Proof.
  unfold Strptime.tras_mes.
  destruct (Strptime.guion alt.2) as [r|]; [|done]. simpl.
  destruct (Strptime.grupo_d r) as [|[d0 r0] l] eqn:Hd; [done|].
  intros [= <- <- <- <-]. split_and!; [done..|].
  exists r. rewrite Hd. apply list_elem_of_here.
Qed.

Lemma strptime_fecha_real (texto : string) (f : Fecha) :
  Strptime.strptime texto = Some f -> fecha_real f.
Proof.
  unfold Strptime.strptime, Strptime.coincidir.
  destruct (Strptime.grupo_Y texto) as [[y r1]|] eqn:HY; [|done]. simpl.
  destruct (Strptime.guion r1) as [r2|]; [|done]. simpl.
  destruct (Strptime.primero _ _) as [[[[y' m] d] resto]|] eqn:Hp; [|done].
  simpl. destruct resto; [|done].
  destruct ((1 <=? y') && (d <=? Strptime.dias_del_mes y' m)) eqn:Hc; [|done].
  intros [= <-]. apply andb_true_iff in Hc as [Hy Hd].
  apply Z.leb_le in Hy, Hd.
  apply primero_Some in Hp as ([m0 r3] & Hm & Ht).
  apply tras_mes_Some in Ht as (-> & -> & r & Hdr).
  apply grupo_Y_rango in HY. apply grupo_m_rango in Hm.
  apply grupo_d_rango in Hdr.
  unfold fecha_real. simpl in *. lia.
Qed.

(** X21. Every text that [validar_fecha] accepts denotes a date of the
    calendar: [strptime] reads it as a year from 1 to 9999, a month from 1
    to 12 and a day that the month of that year has; and [validar_fecha]
    refuses every text that [strptime] does not read. *)
Theorem fecha_aceptada_es_real (texto : string) :
  Utilidades.validar_fecha texto = true ->
  ∃ f, Strptime.strptime texto = Some f ∧ fecha_real f.
Proof.
  intros [f Hf]%validar_fecha_true. exists f. split; [done|].
  by eapply strptime_fecha_real.
Qed.

Lemma fecha_aceptada_es_real_testigo :
  ∃ f, Strptime.strptime "2024-2-29" = Some f ∧ fecha_real f.
Proof. exact (fecha_aceptada_es_real "2024-2-29" eq_refl). Defined.

(** ** The text of today's date *)

Lemma digito_correcto (n : Z) :
  0 <= n <= 9 ->
  Py.es_digito (Strptime.digito n) = true
  ∧ Py.valor_digito (Strptime.digito n) = n.
Proof.
  intros H.
  assert (Hn : n = 0 ∨ n = 1 ∨ n = 2 ∨ n = 3 ∨ n = 4 ∨ n = 5 ∨ n = 6
               ∨ n = 7 ∨ n = 8 ∨ n = 9) by lia.
  repeat destruct Hn as [-> | Hn]; [..|subst n]; by vm_compute.
Qed.

Lemma grupo_Y_cuatro_digitos (y : Z) (r : string) :
  1000 <= y <= 9999 ->
  Strptime.grupo_Y (Strptime.cuatro_digitos y +:+ r) = Some (y, r).
Proof.
  intros Hy. unfold Strptime.cuatro_digitos.
  rewrite !append_cons, append_nil_l. cbn [Strptime.grupo_Y].
  destruct (digito_correcto (y / 1000)) as [-> ->];
    [Z.div_mod_to_equations; lia|].
  destruct (digito_correcto (y / 100 mod 10)) as [-> ->];
    [Z.div_mod_to_equations; lia|].
  destruct (digito_correcto (y / 10 mod 10)) as [-> ->];
    [Z.div_mod_to_equations; lia|].
  destruct (digito_correcto (y mod 10)) as [-> ->];
    [Z.div_mod_to_equations; lia|].
  simpl. do 2 f_equal. Z.div_mod_to_equations. lia.
Qed.

Lemma coincidir_strftime (y m d : Z) :
  1000 <= y <= 9999 -> 1 <= m <= 12 -> 1 <= d <= 31 ->
  Strptime.coincidir (Strptime.strftime (MkFecha y m d))
  = Some (y, m, d, EmptyString).
Proof.
  intros Hy Hm Hd. unfold Strptime.coincidir, Strptime.strftime.
  cbn [anio mes dia]. rewrite grupo_Y_cuatro_digitos by done.
  cbn [mbind option_bind].
  assert (Hm' : m = 1 ∨ m = 2 ∨ m = 3 ∨ m = 4 ∨ m = 5 ∨ m = 6 ∨ m = 7
                ∨ m = 8 ∨ m = 9 ∨ m = 10 ∨ m = 11 ∨ m = 12) by lia.
  assert (Hd' : d = 1 ∨ d = 2 ∨ d = 3 ∨ d = 4 ∨ d = 5 ∨ d = 6 ∨ d = 7
                ∨ d = 8 ∨ d = 9 ∨ d = 10 ∨ d = 11 ∨ d = 12 ∨ d = 13
                ∨ d = 14 ∨ d = 15 ∨ d = 16 ∨ d = 17 ∨ d = 18 ∨ d = 19
                ∨ d = 20 ∨ d = 21 ∨ d = 22 ∨ d = 23 ∨ d = 24 ∨ d = 25
                ∨ d = 26 ∨ d = 27 ∨ d = 28 ∨ d = 29 ∨ d = 30 ∨ d = 31) by lia.
  clear Hm Hd.
  repeat destruct Hm' as [-> | Hm']; [..|subst m];
    (repeat destruct Hd' as [-> | Hd']; [..|subst d]; by vm_compute).
Qed.

Lemma dias_del_mes_cota (y m : Z) : Strptime.dias_del_mes y m <= 31.
Proof. unfold Strptime.dias_del_mes. repeat case_match; lia. Qed.

Lemma strptime_strftime (f : Fecha) :
  fecha_real f -> 1000 <= anio f ->
  Strptime.strptime (Strptime.strftime f) = Some f.
Proof.
  intros (Hy & Hm & Hd) Hmil. destruct f as [y m d]. simpl in *.
  unfold Strptime.strptime.
  pose proof (dias_del_mes_cota y m).
  rewrite coincidir_strftime by lia. simpl.
  destruct (Z.leb_spec 1 y); [|lia].
  destruct (Z.leb_spec d (Strptime.dias_del_mes y m)); [done|lia].
Qed.

(** X22. The text of today's date. For every date of the calendar from the
    year 1000 on, the text that [obtener_fecha_actual] makes of it is read
    back by [strptime] as that date, so [validar_fecha] accepts it and the
    comparison of [esta_vencido] never fails because of the reference
    date. *)
Theorem fecha_actual_se_lee (ahora : Fecha) :
  fecha_real ahora ->
  1000 <= anio ahora ->
  Strptime.strptime (Utilidades.obtener_fecha_actual ahora) = Some ahora
  ∧ Utilidades.validar_fecha (Utilidades.obtener_fecha_actual ahora) = true
  ∧ ∀ a, Utilidades.validar_fecha (Asignacion.fecha_retorno a) = true ->
         is_Some (Asignacion.esta_vencido
                    (Utilidades.obtener_fecha_actual ahora) a).
Proof.
  intros Hreal Hmil.
  pose proof (strptime_strftime ahora Hreal Hmil) as Hlee.
  assert (Hval : Utilidades.validar_fecha
                   (Utilidades.obtener_fecha_actual ahora) = true)
    by (apply validar_fecha_true; by eexists).
  split_and!; [done..|].
  intros a Ha. by apply esta_vencido_no_lanza.
Qed.

Lemma fecha_actual_se_lee_testigo :
  Strptime.strptime (Utilidades.obtener_fecha_actual (MkFecha 2026 11 4))
  = Some (MkFecha 2026 11 4).
Proof.
  refine (proj1 (fecha_actual_se_lee (MkFecha 2026 11 4) _ _)).
  - unfold fecha_real. simpl. change (Strptime.dias_del_mes 2026 11) with 30. lia.
  - simpl. lia.
Defined.

(** ** Comparing two dates *)

Lemma fecha_menor_false (f1 f2 : Fecha) :
  fecha_menor f1 f2 = false <-> ¬ fecha_anterior f1 f2.
Proof.
  rewrite <- fecha_menor_spec. by destruct (fecha_menor f1 f2).
Qed.

Lemma fecha_tricotomia (f1 f2 : Fecha) :
  ¬ fecha_anterior f1 f2 -> ¬ fecha_anterior f2 f1 -> f1 = f2.
Proof.
  destruct f1 as [y1 m1 d1], f2 as [y2 m2 d2]. unfold fecha_anterior. simpl.
  intros H1 H2. assert (y1 = y2 ∧ m1 = m2 ∧ d1 = d2) as (-> & -> & ->) by lia.
  done.
Qed.

(** X23. [comparar_fechas] is a coherent order on the texts that
    [strptime] reads. When it returns, the result is -1, 0 or 1; comparing
    the other way round returns the opposite; and the result is 0 exactly
    when both texts denote the same date of the calendar, which two
    different texts may do. *)
Theorem comparar_fechas_coherente (t1 t2 : string) (c : Z) :
  Utilidades.comparar_fechas t1 t2 = Some c ->
  (c = -1 ∨ c = 0 ∨ c = 1)
  ∧ Utilidades.comparar_fechas t2 t1 = Some (- c)
  ∧ (c = 0 <-> Strptime.strptime t1 = Strptime.strptime t2).
Proof.
  unfold Utilidades.comparar_fechas.
  destruct (Strptime.strptime t1) as [f1|]; [|done].
  destruct (Strptime.strptime t2) as [f2|]; [|done]. simpl.
  destruct (fecha_menor f1 f2) eqn:H12, (fecha_menor f2 f1) eqn:H21;
    intros [= <-].
  - apply fecha_menor_spec in H12, H21.
    by apply fecha_anterior_asimetrica in H12.
  - split_and!; [by left | done |]. split; [done|]. intros [= ->].
    congruence.
  - split_and!; [by right; right | done |]. split; [done|]. intros [= ->].
    congruence.
  - split_and!; [by right; left | done |]. split; [|done]. intros _.
    apply fecha_menor_false in H12, H21. f_equal. by apply fecha_tricotomia.
Qed.

Lemma comparar_fechas_coherente_testigo :
  Utilidades.comparar_fechas "2025-01-05" "2025-1-5" = Some (- 0).
Proof.
  exact (proj1 (proj2 (comparar_fechas_coherente "2025-1-5" "2025-01-05" 0
                         eq_refl))).
Defined.

(** ** Day numbers *)

Lemma days_before_year_succ (y : Z) :
  1 <= y ->
  Date._days_before_year (y + 1)
  = Date._days_before_year y + 365
    + (if Strptime.es_bisiesto y then 1 else 0).
Proof.
  intros Hy. unfold Date._days_before_year, Strptime.es_bisiesto. cbn zeta.
  replace (y + 1 - 1) with y by lia.
  destruct (Z.eqb_spec (y mod 4) 0), (Z.eqb_spec (y mod 100) 0),
    (Z.eqb_spec (y mod 400) 0); simpl;
    Z.div_mod_to_equations; lia.
Qed.

Lemma days_before_year_mono (y1 y2 : Z) :
  1 <= y1 -> y1 < y2 ->
  Date._days_before_year y1 + 365
  + (if Strptime.es_bisiesto y1 then 1 else 0)
  <= Date._days_before_year y2.
Proof.
  intros H1 Hlt.
  replace y2 with (y1 + 1 + Z.of_nat (Z.to_nat (y2 - y1 - 1))) by lia.
  induction (Z.to_nat (y2 - y1 - 1)) as [|n IH].
  - rewrite Z.add_0_r, days_before_year_succ by done. lia.
  - replace (y1 + 1 + Z.of_nat (S n)) with (y1 + 1 + Z.of_nat n + 1) by lia.
    rewrite days_before_year_succ by lia.
    destruct (Strptime.es_bisiesto (y1 + 1 + Z.of_nat n)); lia.
Qed.

Lemma mes_uno_a_doce (m : Z) :
  1 <= m <= 12 ->
  m = 1 ∨ m = 2 ∨ m = 3 ∨ m = 4 ∨ m = 5 ∨ m = 6 ∨ m = 7 ∨ m = 8 ∨ m = 9
  ∨ m = 10 ∨ m = 11 ∨ m = 12.
Proof. lia. Qed.

(** The day of the year is at most the number of days of the year. *)
Lemma dia_del_anio_cota (y m d : Z) :
  1 <= m <= 12 -> d <= Strptime.dias_del_mes y m ->
  Date._days_before_month y m + d
  <= 365 + (if Strptime.es_bisiesto y then 1 else 0).
Proof.
  intros Hm%mes_uno_a_doce.
  unfold Date._days_before_month, Strptime.dias_del_mes.
  repeat destruct Hm as [-> | Hm]; [..|subst m];
    destruct (Strptime.es_bisiesto y); simpl; lia.
Qed.

Lemma days_before_month_mono (y m1 m2 d : Z) :
  1 <= m1 -> m1 < m2 -> m2 <= 12 -> d <= Strptime.dias_del_mes y m1 ->
  Date._days_before_month y m1 + d <= Date._days_before_month y m2.
Proof.
  intros H1 Hlt H2.
  assert (Hm1 : 1 <= m1 <= 12) by lia. assert (Hm2 : 1 <= m2 <= 12) by lia.
  apply mes_uno_a_doce in Hm1, Hm2.
  unfold Date._days_before_month, Strptime.dias_del_mes.
  repeat destruct Hm1 as [-> | Hm1]; [..|subst m1];
    (repeat destruct Hm2 as [-> | Hm2]; [..|subst m2];
     try lia; destruct (Strptime.es_bisiesto y); simpl; lia).
Qed.

Lemma days_before_month_no_negativo (y m : Z) :
  1 <= m <= 12 -> 0 <= Date._days_before_month y m.
Proof.
  intros Hm%mes_uno_a_doce. unfold Date._days_before_month.
  repeat destruct Hm as [-> | Hm]; [..|subst m];
    destruct (Strptime.es_bisiesto y); simpl; lia.
Qed.

(** The day number grows with the date. *)
Lemma toordinal_creciente (f1 f2 : Fecha) :
  fecha_real f1 -> fecha_real f2 -> fecha_anterior f1 f2 ->
  Date.toordinal f1 < Date.toordinal f2.
Proof.
  destruct f1 as [y1 m1 d1], f2 as [y2 m2 d2].
  unfold fecha_real, fecha_anterior, Date.toordinal. simpl.
  intros (Hy1 & Hm1 & Hd1) (Hy2 & Hm2 & Hd2) [Hy | [-> [Hm | [-> Hd]]]].
  - pose proof (days_before_year_mono y1 y2).
    pose proof (dia_del_anio_cota y1 m1 d1).
    pose proof (days_before_month_no_negativo y2 m2). lia.
  - pose proof (days_before_month_mono y2 m1 m2 d1). lia.
  - lia.
Qed.

(** ** The report of overdue loans *)

(** One record of the report and [esta_vencido] on the assignment it was
    saved from. *)
Lemma paso_reporte_asignacion (hoy : Fecha)
    (usuarios herramientas : list (gmap string Valor))
    (acc acc' : list ModuloNuevo.Fila * Z) (a : Asignacion.t) :
  fecha_real hoy -> 1000 <= anio hoy ->
  ModuloNuevo.paso_reporte hoy usuarios herramientas acc
    (Asignacion.a_diccionario a) = Some acc' ->
  ∃ v : bool,
    Asignacion.esta_vencido (Utilidades.obtener_fecha_actual hoy) a = Some v
    ∧ if v then ∃ fila, acc' = (acc.1 ++ [fila], acc.2 + Asignacion.unidades a)
                        ∧ fila_de a fila
      else acc' = acc.
Proof.
  intros Hreal Hmil.
  pose proof (strptime_strftime hoy Hreal Hmil) as Hhoy.
  unfold ModuloNuevo.paso_reporte, Asignacion.esta_vencido.
  change (Asignacion.a_diccionario a !! "estado"%string)
    with (Some (VStr (Asignacion.estado a))).
  change (Asignacion.a_diccionario a !! "fecha_retorno"%string)
    with (Some (VStr (Asignacion.fecha_retorno a))).
  change (Asignacion.a_diccionario a !! "codigo_miembro"%string)
    with (Some (VStr (Asignacion.codigo_miembro a))).
  change (Asignacion.a_diccionario a !! "codigo_implemento"%string)
    with (Some (VStr (Asignacion.codigo_implemento a))).
  change (Asignacion.a_diccionario a !! "id"%string)
    with (Some (VStr (Asignacion.identificador a))).
  change (Asignacion.a_diccionario a !! "unidades"%string)
    with (Some (VInt (Asignacion.unidades a))).
  change (Asignacion.a_diccionario a !! "fecha_salida"%string)
    with (Some (VStr (Asignacion.fecha_salida a))).
  cbn [mbind option_bind ModuloNuevo.valor_igual].
  destruct (String.eqb (Asignacion.estado a) "activo"); simpl.
  2:{ intros [= <-]. by exists false. }
  destruct (Strptime.strptime (Asignacion.fecha_retorno a)) as [d|] eqn:Hd;
    [|done].
  destruct (comparar_fechas_signo _ _ _ _ Hhoy Hd) as (c & Hc & Hsig & _).
  unfold Utilidades.obtener_fecha_actual in *. rewrite Hc. simpl.
  rewrite Hsig.
  destruct (fecha_menor d hoy) eqn:Hm; simpl.
  2:{ intros [= <-]. by exists false. }
  destruct (ModuloNuevo.obtener_nombre_usuario _ _) as [nu|]; [|done]. simpl.
  destruct (ModuloNuevo.obtener_nombre_herramienta _ _) as [nh|]; [|done].
  simpl. intros [= <-]. exists true. split; [done|].
  eexists. split; [reflexivity|].
  unfold fila_de. simpl. split_and!; [done..|].
  apply fecha_menor_spec in Hm. apply strptime_fecha_real in Hd.
  pose proof (toordinal_creciente d hoy Hd Hreal Hm).
  unfold Date.dias_entre. lia.
Qed.

Lemma recorrer_desde_None (hoy : Fecha)
    (usuarios herramientas prestamos : list (gmap string Valor)) :
  foldl (λ acc p, a ← acc; ModuloNuevo.paso_reporte hoy usuarios herramientas a p)
        None prestamos = None.
Proof. by induction prestamos. Qed.

Lemma recorrer_asignaciones (hoy : Fecha)
    (usuarios herramientas : list (gmap string Valor))
    (l : list Asignacion.t) (acc r : list ModuloNuevo.Fila * Z) :
  fecha_real hoy -> 1000 <= anio hoy ->
  foldl (λ acc p, a ← acc; ModuloNuevo.paso_reporte hoy usuarios herramientas a p)
        (Some acc) (Asignacion.a_diccionario <$> l) = Some r ->
  ∃ l' filas,
    GestorAsignaciones.vencidas (Utilidades.obtener_fecha_actual hoy) l = Some l'
    ∧ Forall2 fila_de l' filas
    ∧ r = (acc.1 ++ filas, acc.2 + foldr Z.add 0 (Asignacion.unidades <$> l')).
Proof.
  intros Hreal Hmil. revert acc.
  induction l as [|a l IH]; intros acc.
  - simpl. intros [= <-]. exists [], []. split_and!; [done..|].
    simpl. rewrite app_nil_r, Z.add_0_r. by destruct acc.
  - csimpl.
    destruct (ModuloNuevo.paso_reporte hoy usuarios herramientas acc
                (Asignacion.a_diccionario a)) as [acc1|] eqn:Hpaso.
    2:{ by rewrite recorrer_desde_None. }
    intros Hresto.
    destruct (paso_reporte_asignacion _ _ _ _ _ _ Hreal Hmil Hpaso)
      as (v & Hv & Hacc).
    destruct (IH _ Hresto) as (l' & filas & Hl' & Hfilas & ->).
    rewrite Hv, Hl'. simpl. destruct v.
    + destruct Hacc as (fila & -> & Hfila).
      exists (a :: l'), (fila :: filas). split_and!; [done| |].
      * by apply Forall2_cons.
      * csimpl. rewrite <- app_assoc. simpl. f_equal. lia.
    + subst acc1. by exists l', filas.
Qed.

(** X24. The report of overdue loans agrees with the overdue listing of
    the program. When the loop of the report goes through the records
    that [persistir] saved for the stored assignments without an
    exception, on a day of the calendar from the year 1000 on, the overdue
    listing of the program for that day returns as well, and the items of
    the report are, in the same order, made from the assignments of that
    listing: same id, quantity and dates, with at least one day of delay;
    the total of tools is the sum of their quantities. *)
Theorem reporte_coincide_con_listado (hoy : Fecha) (g : GestorAsignaciones.t)
    (usuarios herramientas : list (gmap string Valor))
    (vencidos : list ModuloNuevo.Fila) (total_herramientas : Z) :
  fecha_real hoy ->
  1000 <= anio hoy ->
  ModuloNuevo.recorrer hoy
    (Asignacion.a_diccionario <$> GestorAsignaciones.lista g)
    usuarios herramientas
  = Some (vencidos, total_herramientas) ->
  ∃ l, GestorAsignaciones.obtener_vencidas
         (Utilidades.obtener_fecha_actual hoy) g = Some l
       ∧ Forall2 fila_de l vencidos
       ∧ total_herramientas = foldr Z.add 0 (Asignacion.unidades <$> l).
Proof.
  intros Hreal Hmil Hrec. unfold ModuloNuevo.recorrer in Hrec.
  destruct (recorrer_asignaciones _ _ _ _ _ _ Hreal Hmil Hrec)
    as (l & filas & Hl & Hfilas & [= -> ->]).
  exists l. split_and!; [done..|]. simpl. lia.
Qed.

Lemma reporte_coincide_con_listado_testigo :
  ∃ l, GestorAsignaciones.obtener_vencidas
         (Utilidades.obtener_fecha_actual (MkFecha 2025 2 1))
         (PantallasAsignaciones.gestor sistema_con_a1) = Some l
       ∧ Forall2 fila_de l
           [ModuloNuevo.MkFila (VStr "A1") "Ana Perez" (VStr "Taladro") 3
              (VStr "2025-01-01") "2025-01-10" 22]
       ∧ 3 = foldr Z.add 0 (Asignacion.unidades <$> l).
Proof.
  apply (reporte_coincide_con_listado (MkFecha 2025 2 1)
           (PantallasAsignaciones.gestor sistema_con_a1)
           [Miembro.a_diccionario ana]
           [list_to_map [("id"%string, VStr "T1");
                         ("titulo"%string, VStr "Taladro")]]).
  - unfold fecha_real. simpl. change (Strptime.dias_del_mes 2025 2) with 28. lia.
  - simpl. lia.
  - by vm_compute.
Defined.

(** ** References between the managers *)

(** Replacing the implement found under an id by one with the same id
    changes for no id whether a lookup finds an implement. *)
Lemma buscar_por_id_con_item (admin : AdministradorImplementos.t)
    (n : nat) (i j : Implemento.t) (id : string) :
  AdministradorImplementos.coleccion admin !! n = Some i ->
  Implemento.identificador j = Implemento.identificador i ->
  is_Some (AdministradorImplementos.buscar_por_id
             (AdministradorImplementos.con_item admin n j) id)
  <-> is_Some (AdministradorImplementos.buscar_por_id admin id).
Proof.
  intros Hn Hid. unfold AdministradorImplementos.buscar_por_id. simpl.
  rewrite (list_find_insert_igual _ _ n i j Hn) by (by rewrite Hid).
  apply fmap_is_Some.
Qed.

(** The assignment that a procedure appends names a stored member. *)
Lemma creacion_nombra_miembro (s s' : Sistema) (a : Asignacion.t) :
  paso_prestamo s s' ->
  asignaciones s' = asignaciones s ++ [a] ->
  is_Some (ControladorMiembros.localizar
             (PantallasAsignaciones.ctrl_miembros s)
             (Asignacion.codigo_miembro a)).
Proof.
  assert (Hlargo : ∀ l : list Asignacion.t, l = l ++ [a] -> False).
  { intros l H. apply (f_equal length) in H.
    rewrite length_app in H. simpl in H. lia. }
  assert (Hreemplazo : ∀ (l : list Asignacion.t) k b,
            <[k := b]> l = l ++ [a] -> False).
  { intros l k b H. apply (f_equal length) in H.
    rewrite length_insert, length_app in H. simpl in H. lia. }
  intros Hp. destruct Hp.
  - desarmar_creacion ltac:(by unfold asignaciones; simpl; intros ?%Hlargo).
    all: unfold asignaciones; simpl.
    all: try (by intros ?%Hlargo).
    intros [= <-]%app_inv_head. simpl. by eexists.
  - desarmar; unfold asignaciones; simpl;
      first [by intros ?%Hlargo | by intros ?%Hreemplazo].
  - desarmar; unfold asignaciones; simpl;
      first [by intros ?%Hlargo | by intros ?%Hreemplazo].
  - desarmar; unfold asignaciones; simpl;
      first [by intros ?%Hlargo | by intros ?%Hreemplazo].
Qed.

Lemma referencias_validas_paso (s s' : Sistema) :
  paso_prestamo s s' -> referencias_validas s -> referencias_validas s'.
Proof.
  intros Hp Hs. unfold referencias_validas in *.
  pose proof (creacion_nombra_miembro s s') as Hmiembro.
  destruct (paso_forma _ _ Hp)
    as [-> | [(n & impl & a & Hi & _ & _ & _ & _ & _ & _ & _ & ->)
           | [(k & a & n & impl & e & Hb & _ & _ & Hi & ->)
             | (k & a & f & d & d' & Hb & _ & _ & _ & _ & ->)]]].
  - done.
  - specialize (Hmiembro a Hp eq_refl).
    pose proof (buscar_por_id_lookup _ _ _ _ Hi) as [Hn Hid].
    unfold asignaciones. simpl. apply Forall_app. split.
    + eapply Forall_impl; [exact Hs|]. intros b [Hm Hb]. split; [done|].
      by apply (buscar_por_id_con_item _ n impl).
    + apply Forall_singleton. split; [done|].
      apply (buscar_por_id_con_item _ n impl); [done..|]. by eexists.
  - pose proof (buscar_por_id_lookup _ _ _ _ Hi) as [Hn Hid].
    pose proof (buscar_lookup _ _ _ _ Hb) as [Hk _].
    unfold asignaciones. simpl.
    assert (Hs' : Forall (λ b,
              is_Some (ControladorMiembros.localizar
                         (PantallasAsignaciones.ctrl_miembros s)
                         (Asignacion.codigo_miembro b))
              ∧ is_Some (AdministradorImplementos.buscar_por_id
                           (AdministradorImplementos.con_item
                              (PantallasAsignaciones.admin_impl s) n
                              (Implemento.ajustar_stock impl
                                 (Asignacion.unidades a)).2)
                           (Asignacion.codigo_implemento b)))
              (asignaciones s)).
    { eapply Forall_impl; [exact Hs|]. intros b [Hm Hb']. split; [done|].
      apply (buscar_por_id_con_item _ n impl); [done| |done].
      apply ajustar_stock_identificador. }
    apply Forall_insert; [done|]. simpl.
    apply (Forall_lookup_1 _ _ _ _ Hs' Hk).
  - pose proof (buscar_lookup _ _ _ _ Hb) as [Hk _].
    unfold asignaciones. simpl.
    apply Forall_insert; [done|]. simpl.
    apply (Forall_lookup_1 _ _ _ _ Hs Hk).
Qed.

(** X25. References between the managers. From a state where every stored
    assignment names a stored member and a stored implement, the
    procedures of the assignment screens (creation, return, cancellation,
    extension), in any number and order and on any input, lead to a state
    where every stored assignment does. (The removal of a member and the
    deletion of an implement, which look at no assignment, are what can
    break it.) *)
Theorem referencias_validas_conservadas (s s' : Sistema) :
  rtc paso_prestamo s s' ->
  referencias_validas s -> referencias_validas s'.
Proof.
  induction 1 as [s | s s1 s' Hp _ IH]; intros Hs; [done|].
  apply IH. by eapply referencias_validas_paso.
Qed.

Lemma referencias_validas_conservadas_testigo :
  referencias_validas
    (PantallasAsignaciones.despues
       (PantallasAsignaciones.proceso_devolucion
          (PantallasAsignaciones.despues
             (PantallasAsignaciones.proceso_creacion
                sistema0 "A1" "M1" "T1" "3" "2025-01-01" "2025-01-10"))
          "A1")).
Proof.
  apply (referencias_validas_conservadas sistema0).
  - eapply rtc_l; [apply paso_creacion|].
    eapply rtc_l; [apply paso_devolucion|].
    apply rtc_refl.
  - apply Forall_nil_2.
Defined.

(** ** Extension and delay *)

Lemma esta_vencido_de_activa (hoy : string) (a : Asignacion.t) (h d : Fecha) :
  Asignacion.estado a = "activo"%string ->
  Strptime.strptime hoy = Some h ->
  Strptime.strptime (Asignacion.fecha_retorno a) = Some d ->
  Asignacion.esta_vencido hoy a = Some (fecha_menor d h).
Proof.
  intros Ha Hh Hd. unfold Asignacion.esta_vencido.
  apply estado_activo_dec in Ha. rewrite Ha.
  destruct (comparar_fechas_signo _ _ _ _ Hh Hd) as (c & -> & Hc & _).
  simpl. by rewrite Hc.
Qed.

(** X26. Extension and delay. After an extension that is accepted, the
    assignment found under the id typed is the old one with the new due
    date; for every reference day that [strptime] reads, [esta_vencido]
    returns for it; if the assignment was not overdue on that day it is
    not overdue afterwards, and it is not overdue on any day that is not
    after the new due date. *)
Theorem extension_y_vencimiento (s : Sistema) (e_id e_fecha hoy : string)
    (k : nat) (a : Asignacion.t) (h : Fecha) :
  GestorAsignaciones.buscar (PantallasAsignaciones.gestor s) (Py.strip e_id)
  = Some (k, a) ->
  PantallasAsignaciones.impreso
    (PantallasAsignaciones.proceso_extension s e_id e_fecha)
  = FechaExtendida ->
  Strptime.strptime hoy = Some h ->
  let a' := Asignacion.con_fecha_retorno a (Py.strip e_fecha) in
  GestorAsignaciones.buscar
    (PantallasAsignaciones.gestor
       (PantallasAsignaciones.despues
          (PantallasAsignaciones.proceso_extension s e_id e_fecha)))
    (Py.strip e_id)
  = Some (k, a')
  ∧ is_Some (Asignacion.esta_vencido hoy a')
  ∧ (Asignacion.esta_vencido hoy a = Some false ->
     Asignacion.esta_vencido hoy a' = Some false)
  ∧ (∀ f, Strptime.strptime (Py.strip e_fecha) = Some f ->
          ¬ fecha_anterior f h ->
          Asignacion.esta_vencido hoy a' = Some false).
Proof.
  intros Hb Himp Hh a'.
  unfold PantallasAsignaciones.proceso_extension in *. cbn zeta in *.
  rewrite Hb in *.
  destruct (negb (String.eqb (Asignacion.estado a) "activo")) eqn:Ha;
    [done|]. apply estado_activo_dec in Ha.
  destruct (negb (Utilidades.validar_fecha (Py.strip e_fecha))) eqn:Hv;
    [done|].
  destruct (Utilidades.comparar_fechas (Py.strip e_fecha)
              (Asignacion.fecha_retorno a)) as [c|] eqn:Hc; [|done].
  destruct (c <=? 0) eqn:Hpos; [done|]. simpl.
  destruct (comparar_fechas_Some _ _ _ Hc) as (d' & d & Hd' & Hd).
  destruct (comparar_fechas_signo _ _ _ _ Hd' Hd) as (c' & Hc' & _ & Hs).
  rewrite Hc in Hc'. injection Hc' as <-.
  rewrite Hpos in Hs. symmetry in Hs.
  apply negb_false_iff, fecha_menor_spec in Hs.
  assert (Hnuevo : Asignacion.esta_vencido hoy a' = Some (fecha_menor d' h))
    by by apply esta_vencido_de_activa.
  assert (Hviejo : Asignacion.esta_vencido hoy a = Some (fecha_menor d h))
    by by apply esta_vencido_de_activa.
  split_and!.
  - apply (list_find_insert_mismo _ _ k a); [done|]. simpl.
    by apply buscar_lookup in Hb as [_ ?].
  - rewrite Hnuevo. by eexists.
  - rewrite Hviejo, Hnuevo. intros [= Hno]. f_equal.
    apply fecha_menor_false in Hno. apply fecha_menor_false.
    intros Hlt. apply Hno. by eapply fecha_anterior_transitiva.
  - intros f Hf Hno. rewrite Hd' in Hf. injection Hf as <-.
    rewrite Hnuevo. f_equal. by apply fecha_menor_false.
Qed.

Lemma extension_y_vencimiento_testigo :
  Asignacion.esta_vencido "2025-01-15"
    (Asignacion.con_fecha_retorno
       (Asignacion.Mk "A1" "M1" "T1" 3 "2025-01-01" "2025-01-10" "activo")
       "2025-01-20")
  = Some false.
Proof.
  refine (proj2 (proj2 (proj2 (extension_y_vencimiento sistema_con_a1
            "A1" " 2025-01-20" "2025-01-15" 0%nat
            (Asignacion.Mk "A1" "M1" "T1" 3 "2025-01-01" "2025-01-10" "activo")
            (MkFecha 2025 1 15) eq_refl eq_refl eq_refl)))
            (MkFecha 2025 1 20) eq_refl _).
  unfold fecha_anterior. simpl. lia.
Defined.
